(** * MLService (backend/modeling/services.py): a shallow embedding

    The service works on pandas data frames, a catalog of estimator
    classes and three outside collaborators (the advisory model selector,
    scikit-learn/optuna, and the file system through joblib).  Data frames
    are modelled as ordered lists of labelled, typed columns; Python
    exceptions as values of [exn] in an error-and-state monad [Py];
    floating-point quantities that are only compared (missing fractions,
    thresholds, scores) as exact rationals [Qc]. *)

From Stdlib Require Import QArith Qcanon Qcabs Ascii String.
From stdpp Require Import base numbers list strings gmap sets pretty sorting.

Close Scope Q_scope.
Close Scope Qc_scope.
Local Open Scope string_scope.
Local Open Scope Z_scope.

(** ** Python exceptions

    Only subclasses of [Exception] are modelled: these are what
    [except Exception] catches. *)

Inductive exn :=
  | KeyError (key : string)
  | AttributeError (msg : string)
  | ValueError (msg : string)
  | TypeError (msg : string)
  | FileNotFoundError (path : string)
  | FileExistsError (path : string)
  | IsADirectoryError (path : string)
  | NotADirectoryError (path : string)
  | UnpicklingError (path : string)
  | RuntimeError (msg : string).

#[global] Instance exn_eq_dec : EqDecision exn.
Proof. solve_decision. Defined.

(** [str(e)] as it appears in the f-strings of the service. *)
Definition str_exn (e : exn) : string :=
  match e with
  | KeyError k => "'" +:+ k +:+ "'"
  | AttributeError m | ValueError m | TypeError m | RuntimeError m => m
  | FileNotFoundError p => "[Errno 2] No such file or directory: '" +:+ p +:+ "'"
  | FileExistsError p => "[Errno 17] File exists: '" +:+ p +:+ "'"
  | IsADirectoryError p => "[Errno 21] Is a directory: '" +:+ p +:+ "'"
  | NotADirectoryError p => "[Errno 20] Not a directory: '" +:+ p +:+ "'"
  | UnpicklingError p => "could not unpickle '" +:+ p +:+ "'"
  end.

(** ** Data frames *)

(** Column types.  The service tests a column's type in two ways: with
    [dtype in ['object', 'category']], which holds of [object] and
    [category] only, and with [select_dtypes(include=[np.number])], which
    holds of [int64] and [float64] only.  [datetime64] (timestamps, held
    as numbers of nanoseconds, NaT being the missing marker) and [string_]
    (pandas' [StringDtype]) pass neither test. *)
Inductive dtype := object | category | int64 | float64 | datetime64 | string_.

#[global] Instance dtype_eq_dec : EqDecision dtype.
Proof. solve_decision. Defined.

Definition is_object_or_category (d : dtype) : bool :=
  match d with object | category => true | _ => false end.

Definition is_number (d : dtype) : bool :=
  match d with int64 | float64 => true | _ => false end.

(** One entry of a column.  [NA] is the missing marker (NaN / None). *)
Inductive cell :=
  | NA
  | Num (q : Qc)
  | PosInf
  | NegInf
  | Str (s : string).

#[global] Instance cell_eq_dec : EqDecision cell.
Proof. solve_decision. Defined.

Definition isnull (c : cell) : bool :=
  match c with NA => true | _ => false end.

Record Series := mkSeries {
  name : string;
  dtype_of : dtype;
  cells : list cell
}.

#[global] Instance Series_eq_dec : EqDecision Series.
Proof. solve_decision. Defined.

(** A frame is its index length and its columns, in order.  pandas allows
    repeated column labels, so the columns are a list, not a map. *)
Record DataFrame := mkDataFrame {
  nrows : nat;
  columns : list Series
}.

Definition labels (df : DataFrame) : list string := name <$> columns df.

(** The columns carrying a given label. *)
Definition labelled (key : string) (df : DataFrame) : list Series :=
  filter (λ s, name s = key) (columns df).

Module Preprocess.

(** [df.isnull().mean()] for one column; the mean of an empty column is
    NaN, here [None]. *)
Definition missing_fraction (s : Series) : option Qc :=
  match cells s with
  | [] => None
  | _ :: _ =>
      Some (Q2Qc (Qmake (Z.of_nat (length (filter (λ c, isnull c = true) (cells s))))
                        (Pos.of_nat (length (cells s)))))
  end.

(** [missing_fraction > missing_threshold]; a NaN fraction compares false. *)
Definition exceeds (missing_threshold : Qc) (s : Series) : bool :=
  match missing_fraction s with
  | Some f => bool_decide (missing_threshold < f)%Qc
  | None => false
  end.

(** [missing_fraction[missing_fraction > missing_threshold].index.tolist()] *)
Definition over_threshold (df : DataFrame) (missing_threshold : Qc) : list string :=
  name <$> filter (λ s, exceeds missing_threshold s = true) (columns df).

(** [list.remove(x)]: deletes the first occurrence only. *)
Fixpoint list_remove (x : string) (l : list string) : list string :=
  match l with
  | [] => []
  | y :: l' => if decide (x = y) then l' else y :: list_remove x l'
  end.

(** Lines 91-93: the labels handed to [drop]. *)
Definition cols_to_drop (df : DataFrame) (target_column : string)
    (missing_threshold : Qc) : list string :=
  let cols := over_threshold df missing_threshold in
  if decide (target_column ∈ cols) then list_remove target_column cols else cols.

(** [df.drop(columns=ls)]: every column whose label is listed goes. *)
Definition drop (ls : list string) (df : DataFrame) : DataFrame :=
  mkDataFrame (nrows df) (filter (λ s, name s ∉ ls) (columns df)).

(** Step 1 of [preprocess_data]. *)
Definition prune (df : DataFrame) (target_column : string)
    (missing_threshold : Qc) : DataFrame :=
  drop (cols_to_drop df target_column missing_threshold) df.

(** Lines 115-118: the list bound to [numerical_columns] when scaling
    starts.  The target is taken out only in the auto-detected branch. *)
Definition select_numerical (df_processed : DataFrame) (target_column : string)
    (numerical_columns : option (list string)) : list string :=
  match numerical_columns with
  | None =>
      let cols :=
        name <$> filter (λ s, is_number (dtype_of s) = true) (columns df_processed) in
      if decide (target_column ∈ cols) then list_remove target_column cols else cols
  | Some cols => cols
  end.

(** What the caller gets back: the frame, the columns that received a
    label encoder (with the data each was fitted on) and the columns the
    scaler was fitted on. *)
Record Preprocessed := mkPreprocessed {
  df_processed : DataFrame;
  label_encoders : gmap string (list cell);
  scaler_columns : list string
}.

Section PreprocessData.
(** pandas and scikit-learn numerics, taken as given: the first mode of a
    column if it has one, the median, the codes of [LabelEncoder], the
    standard scaling of a column that scikit-learn takes as numbers, and
    the text pandas puts in the [KeyError] for a list of labels [key] that
    are not all among the [columns]. *)
Context (mode : list cell → option cell)
        (median : list cell → cell)
        (label_encode : list cell → list cell)
        (standard_scale : list cell → list cell)
        (not_in_index : list string → list string → string).

Definition fillna (v : cell) (cs : list cell) : list cell :=
  (λ c, if isnull c then v else c) <$> cs.

(** Lines 98-101, for one column. *)
Definition fill_missing (s : Series) : Series :=
  if is_object_or_category (dtype_of s)
  then mkSeries (name s) (dtype_of s)
         (fillna (default (Str "Unknown") (mode (cells s))) (cells s))
  else mkSeries (name s) (dtype_of s) (fillna (median (cells s)) (cells s)).

(** Lines 98-101, where the fill of one column raises.  A categorical
    column takes no fill value that is not one of its categories; the
    categories are taken to be the values that occur in the column, so
    that a categorical column without any value (its mode is empty) does
    not take ['Unknown'].  A column of pandas strings has no median. *)
Definition fill_error (s : Series) : option exn :=
  match dtype_of s with
  | category =>
      match mode (cells s) with
      | None =>
          Some (TypeError
                  "Cannot setitem on a Categorical with a new category (Unknown), set the categories first")
      | Some _ => None
      end
  | string_ => Some (TypeError "Cannot perform reduction 'median' with string dtype")
  | _ => None
  end.

(** Lines 97-101, the loop from column [cols] on.  With a repeated label
    [df_processed[col]] is a frame and has no [dtype]; the first column
    that raises ends the loop. *)
Fixpoint fill_columns (df : DataFrame) (cols : list Series) : exn + list Series :=
  match cols with
  | [] => inr []
  | s :: cols' =>
      if decide (length (labelled (name s) df) = 1%nat) then
        match fill_error s with
        | Some e => inl e
        | None =>
            match fill_columns df cols' with
            | inl e => inl e
            | inr filled => inr (fill_missing s :: filled)
            end
        end
      else inl (AttributeError "'DataFrame' object has no attribute 'dtype'")
  end.

Definition handle_missing (df : DataFrame) : exn + DataFrame :=
  match fill_columns df (columns df) with
  | inl e => inl e
  | inr filled => inr (mkDataFrame (nrows df) filled)
  end.

(** Lines 108-112, one round of the loop. *)
Definition encode_one (target_column : string)
    (acc : DataFrame * gmap string (list cell)) (col : string)
    : DataFrame * gmap string (list cell) :=
  let '(df, encoders) := acc in
  match labelled col df with
  | s :: _ =>
      if decide (col = target_column) then acc
      else (mkDataFrame (nrows df)
              ((λ c, if decide (name c = col)
                     then mkSeries col int64 (label_encode (cells c)) else c)
               <$> columns df),
            <[col := cells s]> encoders)
  | [] => acc
  end.

(** Lines 104-112. *)
Definition encode_categoricals (df : DataFrame) (target_column : string)
    (categorical_columns : option (list string))
    : DataFrame * gmap string (list cell) :=
  let cats :=
    match categorical_columns with
    | Some cats => cats
    | None =>
        name <$> filter (λ s, is_object_or_category (dtype_of s) = true) (columns df)
    end in
  foldl (encode_one target_column) (df, ∅) cats.

(** [.replace([np.inf, -np.inf], np.nan).fillna(0)] *)
Definition replace_inf (cs : list cell) : list cell :=
  fillna (Num 0%Qc)
    ((λ c, match c with PosInf | NegInf => NA | _ => c end) <$> cs).

(** Lines 120-125.  [df_processed[numerical_columns]] raises [KeyError]
    when a label is no column; the assignment back raises when a label is
    listed twice, since the label then picks two columns of the right-hand
    side; the scaler refuses a frame without rows. *)
Definition scale_numerical (df : DataFrame) (numerical_columns : list string)
    : exn + DataFrame :=
  match numerical_columns with
  | [] => inr df
  | _ :: _ =>
      match filter (λ l, l ∉ labels df) numerical_columns with
      | _ :: _ => inl (KeyError (not_in_index numerical_columns (labels df)))
      | [] =>
          if decide (NoDup numerical_columns) then
            if decide (nrows df = 0%nat)
            then inl (ValueError
                        "Found array with 0 sample(s) while a minimum of 1 is required by StandardScaler.")
            else
              inr (mkDataFrame (nrows df)
                     ((λ c, if decide (name c ∈ numerical_columns)
                            then mkSeries (name c) float64
                                   (standard_scale (replace_inf (cells c)))
                            else c) <$> columns df))
          else inl (ValueError
                      "Cannot set a DataFrame with multiple columns to a single column")
      end
  end.

Definition preprocess_data (df : DataFrame) (target_column : string)
    (categorical_columns numerical_columns : option (list string))
    (missing_threshold : Qc) : exn + Preprocessed :=
  let df1 := prune df target_column missing_threshold in
  match handle_missing df1 with
  | inl e => inl e
  | inr df2 =>
      let '(df3, encoders) :=
        encode_categoricals df2 target_column categorical_columns in
      let num := select_numerical df3 target_column numerical_columns in
      match scale_numerical df3 num with
      | inl e => inl e
      | inr df4 => inr (mkPreprocessed df4 encoders num)
      end
  end.
End PreprocessData.

End Preprocess.

(** ** Problem-type detection *)

(** [Series.unique()]: the distinct entries in order of first appearance;
    all missing entries count as one value. *)
Fixpoint unique_from (seen : list cell) (cs : list cell) : list cell :=
  match cs with
  | [] => []
  | c :: cs' =>
      if decide (c ∈ seen) then unique_from seen cs'
      else c :: unique_from (c :: seen) cs'
  end.

Definition unique (cs : list cell) : list cell := unique_from [] cs.

(** [df[key]]: a column, a sub-frame when the label is repeated, or
    [KeyError]. *)
Definition getitem (df : DataFrame) (key : string) : exn + (Series + DataFrame) :=
  match labelled key df with
  | [] => inl (KeyError key)
  | [s] => inr (inl s)
  | ss => inr (inr (mkDataFrame (nrows df) ss))
  end.

Definition detect_problem_type (target_column : string) (df : DataFrame)
    : exn + string :=
  match getitem df target_column with
  | inl e => inl e
  | inr (inr _) => inl (AttributeError "'DataFrame' object has no attribute 'dtype'")
  | inr (inl target_data) =>
      if is_object_or_category (dtype_of target_data) then inr "classification"
      else if bool_decide (length (unique (cells target_data)) ≤ 10)%nat
           then inr "classification"
           else inr "regression"
  end.

(** ** Heuristic model suggestion *)

(** The policy table of [suggest_models], as the nested dict it is. *)
Definition suggestions : gmap string (gmap string (list string)) :=
  {[ "classification" :=
       {[ "small_dataset" := ["logistic_regression"; "decision_tree"; "knn"];
          "medium_dataset" := ["random_forest"; "xgboost"; "lightgbm"; "svm"];
          "large_dataset" := ["xgboost"; "lightgbm"; "catboost"; "gradient_boosting"];
          "high_dimensions" := ["logistic_regression"; "svm"; "random_forest"];
          "low_dimensions" := ["knn"; "decision_tree"; "ada_boost"] ]};
     "regression" :=
       {[ "small_dataset" := ["linear_regression"; "ridge"; "lasso"];
          "medium_dataset" := ["random_forest"; "xgboost"; "lightgbm"];
          "large_dataset" := ["xgboost"; "lightgbm"; "catboost"];
          "high_dimensions" := ["ridge"; "lasso"; "elastic_net"];
          "low_dimensions" := ["linear_regression"; "svm"; "knn"] ]} ]}.

Definition size_category (dataset_size : Z) : string :=
  if bool_decide (dataset_size < 1000) then "small_dataset"
  else if bool_decide (dataset_size < 10000) then "medium_dataset"
  else "large_dataset".

Definition dim_category (feature_count : Z) : string :=
  if bool_decide (feature_count > 50) then "high_dimensions" else "low_dimensions".

(** [d[k]] on a dict with string keys. *)
Definition dict_get {V} (d : gmap string V) (k : string) : exn + V :=
  match d !! k with
  | Some v => inr v
  | None => inl (KeyError k)
  end.

(** [list(set(xs))] lists the distinct members in an order that depends on
    the interpreter's string hashing.  [list_of_set] is that enumeration;
    all the service may rely on is [set_enumeration]. *)
Definition set_enumeration (list_of_set : gset string → list string) : Prop :=
  ∀ s, list_of_set s ≡ₚ elements s.

Definition suggest_models (list_of_set : gset string → list string)
    (problem_type : string) (dataset_size feature_count : Z)
    : exn + list string :=
  match dict_get suggestions problem_type with
  | inl e => inl e
  | inr table =>
      match dict_get table (size_category dataset_size) with
      | inl e => inl e
      | inr by_size =>
          match dict_get table (dim_category feature_count) with
          | inl e => inl e
          | inr by_dim => inr (list_of_set (list_to_set (by_size ++ by_dim)))
          end
      end
  end.

(** ** Estimators and the catalog *)

Inductive estimator_class :=
  | RandomForestClassifier | XGBClassifier | LGBMClassifier | CatBoostClassifier
  | LogisticRegression | SVC | KNeighborsClassifier | DecisionTreeClassifier
  | GradientBoostingClassifier | AdaBoostClassifier
  | RandomForestRegressor | XGBRegressor | LGBMRegressor | CatBoostRegressor
  | LinearRegression | Ridge | Lasso | ElasticNet | SVR | KNeighborsRegressor
  | DecisionTreeRegressor | GradientBoostingRegressor.

(** Hyperparameter values. *)
Inductive pval := PInt (z : Z) | PFloat (q : Qc).

(** numpy arrays as the estimators expose them: a vector, or a matrix
    given by its rows. *)
Inductive ndarray := Arr1 (v : list Qc) | Arr2 (rows : list (list Qc)).

(** An estimator object.  [feature_importances_] and [coef_] are [None]
    when [hasattr] is false. *)
Record Model := mkModel {
  model_class : estimator_class;
  model_params : gmap string pval;
  fitted : bool;
  feature_importances_ : option (list Qc);
  coef_ : option ndarray
}.

(** What the advisory collaborator and the fallback return. *)
Record Suggestions := mkSuggestions {
  recommended_models : list string;
  analysis : gmap string string;
  evaluation : gmap string string;
  final_recommendation : string * Qc
}.

(** ** The world the service runs in, and the monad of its methods *)

Inductive file := Pickle (m : Model) | Bytes (b : string).

(** One call into scikit-learn that fits estimators. *)
Inductive fit_call :=
  | Fit (m : Model)
  | CrossValScore (m : Model) (cv : nat).

(** What is printed, the directories and the files there are (under their
    canonical names, see the part on saving and loading), the time, and
    the calls that fitted an estimator. *)
Record World := mkWorld {
  stdout : list string;
  dirs : gset string;
  files : gmap string file;
  clock : Qc;
  fit_log : list fit_call
}.

Definition Py (A : Type) : Type := World → (exn + A) * World.

Definition ret {A} (a : A) : Py A := λ w, (inr a, w).

Definition raise {A} (e : exn) : Py A := λ w, (inl e, w).

Definition bind {A B} (c : Py A) (k : A → Py B) : Py B :=
  λ w, match c w with
       | (inr a, w') => k a w'
       | (inl e, w') => (inl e, w')
       end.

(** [try: c  except Exception as e: h e] *)
Definition try_except {A} (c : Py A) (h : exn → Py A) : Py A :=
  λ w, match c w with
       | (inr a, w') => (inr a, w')
       | (inl e, w') => h e w'
       end.

Definition lift {A} (r : exn + A) : Py A := λ w, (r, w).

Notation "'let*' x ':=' c 'in' k" := (bind c (λ x, k))
  (at level 10, x pattern, c at level 100, k at level 200).

Definition print (line : string) : Py unit :=
  λ w, (inr (), mkWorld (stdout w ++ [line]) (dirs w) (files w) (clock w) (fit_log w)).

Definition datetime_now : Py Qc := λ w, (inr (clock w), w).

(** ** Collaborators *)

(** scikit-learn, as far as the service calls it.  The calls are functions
    of their arguments; what they do to the world is recorded by the
    wrappers [call_fit] and [call_cross_val_score] below. *)
Record Sklearn := mkSklearn {
  construct : estimator_class → gmap string pval → exn + Model;
  fit : Model → DataFrame → Series → exn + Model;
  fit_seconds : Model → DataFrame → Series → Qc;
  cross_val_score : Model → DataFrame → Series → nat → exn + list Qc;
  predict : Model → DataFrame → exn + list cell
}.

(** The advisory service of [llm_router], which is free to touch the world. *)
Record ModelSelectionService := mkModelSelectionService {
  get_intelligent_suggestions : DataFrame → string → Py Suggestions;
  get_model_hyperparameters : string → string → Z → Py (gmap string pval);
  explain_model_choice_llm : string → gmap string string → Py string
}.

Record MLService := mkMLService {
  models : gmap string (gmap string estimator_class);
  model_selector : ModelSelectionService;
  default_params : gmap string (gmap string pval)
}.

(** [MLService.__init__] *)
Definition MLService_init (selector : ModelSelectionService) : MLService :=
  {| models :=
       {[ "classification" :=
            {[ "random_forest" := RandomForestClassifier;
               "xgboost" := XGBClassifier;
               "lightgbm" := LGBMClassifier;
               "catboost" := CatBoostClassifier;
               "logistic_regression" := LogisticRegression;
               "svm" := SVC;
               "knn" := KNeighborsClassifier;
               "decision_tree" := DecisionTreeClassifier;
               "gradient_boosting" := GradientBoostingClassifier;
               "ada_boost" := AdaBoostClassifier ]};
          "regression" :=
            {[ "random_forest" := RandomForestRegressor;
               "xgboost" := XGBRegressor;
               "lightgbm" := LGBMRegressor;
               "catboost" := CatBoostRegressor;
               "linear_regression" := LinearRegression;
               "ridge" := Ridge;
               "lasso" := Lasso;
               "elastic_net" := ElasticNet;
               "svm" := SVR;
               "knn" := KNeighborsRegressor;
               "decision_tree" := DecisionTreeRegressor;
               "gradient_boosting" := GradientBoostingRegressor ]} ]};
     model_selector := selector;
     default_params :=
       list_to_map
         [ ("random_forest", {[ "n_estimators" := PInt 100; "random_state" := PInt 42 ]});
           ("xgboost", {[ "n_estimators" := PInt 100; "random_state" := PInt 42 ]});
           ("lightgbm", {[ "n_estimators" := PInt 100; "random_state" := PInt 42 ]});
           ("catboost", {[ "iterations" := PInt 100; "random_state" := PInt 42 ]});
           ("logistic_regression", {[ "random_state" := PInt 42 ]});
           ("svm", {[ "random_state" := PInt 42 ]});
           ("knn", {[ "n_neighbors" := PInt 5 ]});
           ("decision_tree", {[ "random_state" := PInt 42 ]});
           ("gradient_boosting", {[ "n_estimators" := PInt 100; "random_state" := PInt 42 ]});
           ("ada_boost", {[ "n_estimators" := PInt 100; "random_state" := PInt 42 ]});
           ("linear_regression", ∅);
           ("ridge", {[ "alpha" := PFloat 1%Qc ]});
           ("lasso", {[ "alpha" := PFloat 1%Qc ]});
           ("elastic_net", {[ "alpha" := PFloat 1%Qc;
                              "l1_ratio" := PFloat (Q2Qc (1 # 2)%Q) ]}) ] |}.

(** [self.models[problem_type][model_name]] *)
Definition catalog_lookup (self : MLService) (problem_type model_name : string)
    : exn + estimator_class :=
  match dict_get (models self) problem_type with
  | inl e => inl e
  | inr by_name => dict_get by_name model_name
  end.

(** ** Advisory suggestions with fallback *)

Definition get_intelligent_model_suggestions (list_of_set : gset string → list string)
    (self : MLService) (df : DataFrame) (target_column : string) : Py Suggestions :=
  try_except
    (get_intelligent_suggestions (model_selector self) df target_column)
    (λ e,
       let* _ := print ("Error in intelligent model selection: " +:+ str_exn e) in
       let* problem_type := lift (detect_problem_type target_column df) in
       let* recommended :=
         lift (suggest_models list_of_set problem_type
                 (Z.of_nat (nrows df)) (Z.of_nat (length (columns df)) - 1)) in
       ret {| recommended_models := recommended;
              analysis := {[ "error" := "Intelligent selection failed, using fallback" ]};
              evaluation := ∅;
              final_recommendation := ("random_forest", Q2Qc (1 # 2)%Q) |}).

Definition get_optimized_hyperparameters (self : MLService)
    (model_name problem_type : string) (dataset_size : Z) : Py (gmap string pval) :=
  try_except
    (get_model_hyperparameters (model_selector self) model_name problem_type dataset_size)
    (λ e,
       let* _ := print ("Error getting optimized hyperparameters: " +:+ str_exn e) in
       ret (default ∅ (default_params self !! model_name))).

Definition explain_model_choice (self : MLService) (model_name : string)
    (dataset_info : gmap string string) : Py string :=
  try_except
    (explain_model_choice_llm (model_selector self) model_name dataset_info)
    (λ e,
       let* _ := print ("Error explaining model choice: " +:+ str_exn e) in
       ret (model_name +:+ " was selected based on traditional ML heuristics.")).

(** ** Training *)

Section Training.
Context (sk : Sklearn).

(** [model.fit(X, y)], noted in the log; it takes [fit_seconds]. *)
Definition call_fit (m : Model) (X : DataFrame) (y : Series) : Py Model :=
  λ w,
    (fit sk m X y,
     mkWorld (stdout w) (dirs w) (files w)
             (clock w + fit_seconds sk m X y)%Qc (fit_log w ++ [Fit m])).

(** [cross_val_score(model, X, y, cv=cv)], noted in the log. *)
Definition call_cross_val_score (m : Model) (X : DataFrame) (y : Series)
    (cv : nat) : Py (list Qc) :=
  λ w,
    (cross_val_score sk m X y cv,
     mkWorld (stdout w) (dirs w) (files w) (clock w)
             (fit_log w ++ [CrossValScore m cv])).

Definition train_model (self : MLService) (model_name : string)
    (X_train : DataFrame) (y_train : Series) (problem_type : string)
    (hyperparameters : option (gmap string pval)) : Py (Model * Qc) :=
  let hyperparameters :=
    match hyperparameters with
    | None => default ∅ (default_params self !! model_name)
    | Some h => h
    end in
  let* model_class := lift (catalog_lookup self problem_type model_name) in
  let* model := lift (construct sk model_class hyperparameters) in
  let* start_time := datetime_now in
  let* model := call_fit model X_train y_train in
  let* end_time := datetime_now in
  ret (model, (end_time - start_time)%Qc).
End Training.

(** ** Hyperparameter search *)

(** A finished optuna trial. *)
Record FrozenTrial := mkFrozenTrial {
  number : nat;
  trial_params : gmap string pval;
  value : Qc
}.

(** The study's sampler: what [trial.suggest_int] and [trial.suggest_float]
    hand out, given the trials seen so far. *)
Record Sampler := mkSampler {
  sample_int : list FrozenTrial → string → Z → Z → Z;
  sample_float : list FrozenTrial → string → Qc → Qc → Qc
}.

(** The models [objective] has a search space for. *)
Definition searchable : list string := ["random_forest"; "xgboost"; "lightgbm"].

(** [scores.mean()]; [cross_val_score] with [cv=3] gives three scores. *)
Definition mean (scores : list Qc) : Qc :=
  (foldr Qcplus 0 scores / Q2Qc (inject_Z (Z.of_nat (length scores))))%Qc.

Section Optimization.
Context (sk : Sklearn) (sampler : Sampler).
Context (self : MLService) (model_name : string)
        (X_train : DataFrame) (y_train : Series) (problem_type : string).

(** [trial.suggest_int(name, low, high)]: the value is also kept in the
    trial's own parameters. *)
Definition suggest_int (history : list FrozenTrial) (trial : gmap string pval)
    (name : string) (low high : Z) : Z * gmap string pval :=
  let v := sample_int sampler history name low high in (v, <[name := PInt v]> trial).

Definition suggest_float (history : list FrozenTrial) (trial : gmap string pval)
    (name : string) (low high : Qc) : Qc * gmap string pval :=
  let v := sample_float sampler history name low high in (v, <[name := PFloat v]> trial).

(** Lines 337-340. *)
Definition cross_validated (params : gmap string pval) : Py Qc :=
  let* model_class := lift (catalog_lookup self problem_type model_name) in
  let* model := lift (construct sk model_class params) in
  let* scores := call_cross_val_score sk model X_train y_train 3 in
  ret (mean scores).

(** The closure [objective(trial)]; it returns the score and the
    parameters the trial ended up with. *)
Definition objective (history : list FrozenTrial) (trial : gmap string pval)
    : Py (Qc * gmap string pval) :=
  if decide (model_name = "random_forest") then
    let '(n_estimators, trial) := suggest_int history trial "n_estimators" 50 300 in
    let '(max_depth, trial) := suggest_int history trial "max_depth" 3 20 in
    let '(min_samples_split, trial) :=
      suggest_int history trial "min_samples_split" 2 10 in
    let* score :=
      cross_validated {[ "n_estimators" := PInt n_estimators;
                         "max_depth" := PInt max_depth;
                         "min_samples_split" := PInt min_samples_split;
                         "random_state" := PInt 42 ]} in
    ret (score, trial)
  else if decide (model_name = "xgboost") then
    let '(n_estimators, trial) := suggest_int history trial "n_estimators" 50 300 in
    let '(max_depth, trial) := suggest_int history trial "max_depth" 3 10 in
    let '(learning_rate, trial) :=
      suggest_float history trial "learning_rate"
        (Q2Qc (1 # 100)%Q) (Q2Qc (3 # 10)%Q) in
    let* score :=
      cross_validated {[ "n_estimators" := PInt n_estimators;
                         "max_depth" := PInt max_depth;
                         "learning_rate" := PFloat learning_rate;
                         "random_state" := PInt 42 ]} in
    ret (score, trial)
  else if decide (model_name = "lightgbm") then
    let '(n_estimators, trial) := suggest_int history trial "n_estimators" 50 300 in
    let '(max_depth, trial) := suggest_int history trial "max_depth" 3 10 in
    let '(learning_rate, trial) :=
      suggest_float history trial "learning_rate"
        (Q2Qc (1 # 100)%Q) (Q2Qc (3 # 10)%Q) in
    let* score :=
      cross_validated {[ "n_estimators" := PInt n_estimators;
                         "max_depth" := PInt max_depth;
                         "learning_rate" := PFloat learning_rate;
                         "random_state" := PInt 42 ]} in
    ret (score, trial)
  else ret (0%Qc, trial).

(** [study.optimize(objective, n_trials=n)]: [n] trials one after the
    other; an exception in a trial ends the study and reaches the caller. *)
Fixpoint run_trials (n : nat) (history : list FrozenTrial)
    : Py (list FrozenTrial) :=
  match n with
  | O => ret history
  | S n' =>
      let* r := objective history ∅ in
      run_trials n' (history ++ [mkFrozenTrial (length history) r.2 r.1])
  end.

(** [study.best_trial] when maximizing: the first trial with the highest
    value. *)
Definition best_trial (history : list FrozenTrial) : option FrozenTrial :=
  foldl (λ best t,
           match best with
           | None => Some t
           | Some b => if bool_decide (value b < value t)%Qc then Some t else Some b
           end) None history.

Definition optimize_hyperparameters (n_trials : Z) : Py (gmap string pval) :=
  let* history := run_trials (Z.to_nat n_trials) [] in
  match best_trial history with
  | Some t => ret (trial_params t)
  | None => raise (ValueError "No trials are completed yet.")
  end.
End Optimization.

(** ** Feature importance *)

(** One item of the importance array: a number, or a whole row when the
    array is a matrix. *)
Inductive weight := Scalar (q : Qc) | Row (r : list Qc).

(** Iterating over an array, as [zip] does. *)
Definition array_items (a : ndarray) : list weight :=
  match a with
  | Arr1 v => Scalar <$> v
  | Arr2 rows => Row <$> rows
  end.

(** [np.abs] *)
Definition np_abs (a : ndarray) : ndarray :=
  match a with
  | Arr1 v => Arr1 (List.map Qcabs v)
  | Arr2 rows => Arr2 (List.map (List.map Qcabs) rows)
  end.

(** [bool(array)] for the outcome of an elementwise comparison. *)
Definition truth_value (bs : list bool) : exn + bool :=
  match bs with
  | [b] => inr b
  | _ => inl (ValueError "The truth value of an array with more than one element is ambiguous")
  end.

(** [a < b] as [sorted] asks it of two dict values. *)
Definition weight_lt (a b : weight) : exn + bool :=
  match a, b with
  | Scalar x, Scalar y => inr (bool_decide (x < y)%Qc)
  | Scalar x, Row ys => truth_value ((λ y, bool_decide (x < y)%Qc) <$> ys)
  | Row xs, Scalar y => truth_value ((λ x, bool_decide (x < y)%Qc) <$> xs)
  | Row xs, Row ys =>
      if decide (length xs = length ys)
      then truth_value (zip_with (λ x y, bool_decide (x < y)%Qc) xs ys)
      else inl (ValueError "operands could not be broadcast together")
  end.

(** A Python dict keeps its keys in insertion order; assigning to a key
    that is present replaces the value where it stands. *)
Fixpoint dict_set {V} (k : string) (v : V) (d : list (string * V))
    : list (string * V) :=
  match d with
  | [] => [(k, v)]
  | (k', v') :: d' =>
      if decide (k = k') then (k', v) :: d' else (k', v') :: dict_set k v d'
  end.

Definition dict_of_items {V} (items : list (string * V)) : list (string * V) :=
  foldl (λ d kv, dict_set kv.1 kv.2 d) [] items.

(** One insertion of [sorted(..., key=lambda x: x[1], reverse=True)]: the
    new item goes in front of the first item that is smaller, so equal
    items keep their order. *)
Fixpoint insert_desc (x : string * weight) (l : list (string * weight))
    : exn + list (string * weight) :=
  match l with
  | [] => inr [x]
  | y :: l' =>
      match weight_lt y.2 x.2 with
      | inl e => inl e
      | inr true => inr (x :: y :: l')
      | inr false =>
          match insert_desc x l' with
          | inl e => inl e
          | inr r => inr (y :: r)
          end
      end
  end.

Definition sorted_desc (items : list (string * weight))
    : exn + list (string * weight) :=
  foldl (λ acc x, match acc with inl e => inl e | inr l => insert_desc x l end)
        (inr []) items.

Definition ranked (feature_names : list string) (importance : ndarray)
    : exn + list (string * weight) :=
  let feature_importance := dict_of_items (zip feature_names (array_items importance)) in
  match sorted_desc feature_importance with
  | inl e => inl e
  | inr items => inr (dict_of_items items)
  end.

Definition get_feature_importance (model : Model) (feature_names : list string)
    : exn + list (string * weight) :=
  match feature_importances_ model with
  | Some importance => ranked feature_names (Arr1 importance)
  | None =>
      match coef_ model with
      | Some coef => ranked feature_names (np_abs coef)
      | None => inr []
      end
  end.

(** ** Saving and loading models *)

Definition slash : ascii := "/"%char.

(** The reversed path with its last component taken off: [p[:i]] for
    [i = p.rfind('/') + 1], back to front. *)
Fixpoint drop_basename (rev_path : list ascii) : list ascii :=
  match rev_path with
  | [] => []
  | c :: rest => if decide (c = slash) then rev_path else drop_basename rest
  end.

(** [head.rstrip('/')] on the reversed head. *)
Fixpoint rstrip_slashes (rev_head : list ascii) : list ascii :=
  match rev_head with
  | [] => []
  | c :: rest => if decide (c = slash) then rstrip_slashes rest else rev_head
  end.

(** [os.path.dirname] (posixpath). *)
Definition dirname (p : string) : string :=
  let rev_head := drop_basename (reverse (list_ascii_of_string p)) in
  if forallb (λ c, bool_decide (c = slash)) rev_head
  then string_of_list_ascii (reverse rev_head)
  else string_of_list_ascii (reverse (rstrip_slashes rev_head)).

(** [os.path.basename] (posixpath): what follows the last slash, back to
    front. *)
Fixpoint take_basename (rev_path : list ascii) : list ascii :=
  match rev_path with
  | [] => []
  | c :: rest => if decide (c = slash) then [] else c :: take_basename rest
  end.

Definition basename (p : string) : string :=
  string_of_list_ascii (reverse (take_basename (reverse (list_ascii_of_string p)))).

(** *** Path names and the file system

    A path name is resolved name by name, from the root if it starts with
    a slash and from the current directory otherwise; empty names and
    ["."] lead nowhere.  The file system knows its directories and files
    by their canonical names: ["a/b"] for what ["a//b"], ["./a/b"] and
    ["a/b/"] lead to, [""] for the current directory, ["/"] for the root.
    Names with a [".."], symbolic links and access rights are left out of
    the model: every path is taken to be free of them. *)

(** [p.split('/')], on the characters. *)
Fixpoint split_slash (cs : list ascii) : list (list ascii) :=
  match cs with
  | [] => [[]]
  | c :: cs' =>
      if decide (c = slash) then [] :: split_slash cs'
      else match split_slash cs' with
           | part :: more => (c :: part) :: more
           | [] => [[c]]
           end
  end.

(** The names in a path that lead somewhere. *)
Definition parts (p : string) : list string :=
  filter (λ n, n ≠ "" ∧ n ≠ ".")
    (string_of_list_ascii <$> split_slash (list_ascii_of_string p)).

Definition absolute (p : string) : bool :=
  match p with
  | String c _ => bool_decide (c = slash)
  | EmptyString => false
  end.

(** The canonical name of the entry [n] of the directory [d]. *)
Definition child (d n : string) : string :=
  if decide (d = "") then n
  else if decide (d = "/") then "/" +:+ n
  else d +:+ "/" +:+ n.

Fixpoint descend (here : string) (names : list string) : list string :=
  match names with
  | [] => []
  | n :: names' => child here n :: descend (child here n) names'
  end.

(** The directories a path leads through, outermost first and down to
    the one it names, by their canonical names; the current directory and
    the root, which are always there, are not listed. *)
Definition directories_to (p : string) : list string :=
  descend (if absolute p then "/" else "") (parts p).

(** The canonical name of the directory that [p] names. *)
Definition canonical (p : string) : string :=
  default (if absolute p then "/" else "") (last (directories_to p)).

(** The canonical name of the file that [p] names, when its last name is
    a name proper. *)
Definition file_name (p : string) : string :=
  child (canonical (dirname p)) (basename p).

(** The last name in a path, trailing slashes apart. *)
Definition last_name (p : string) : string :=
  string_of_list_ascii
    (reverse (take_basename (rstrip_slashes (reverse (list_ascii_of_string p))))).

Definition ends_in_dot (p : string) : bool :=
  bool_decide (last_name p = "." ∨ last_name p = "..").

(** Whether a directory is there under a canonical name: the current
    directory and the root always are. *)
Definition isdir (w : World) (d : string) : bool :=
  bool_decide (d = "" ∨ d = "/" ∨ d ∈ dirs w).

Inductive node := Directory | Regular (f : file).

Definition node_at (w : World) (key : string) : option node :=
  if isdir w key then Some Directory else Regular <$> files w !! key.

(** Going through the directories [keys] on the way to [p], outermost
    first: each has to be there, and to be a directory. *)
Fixpoint walk (w : World) (p : string) (keys : list string) : exn + unit :=
  match keys with
  | [] => inr ()
  | k :: keys' =>
      match node_at w k with
      | Some Directory => walk w p keys'
      | Some (Regular _) => inl (NotADirectoryError p)
      | None => inl (FileNotFoundError p)
      end
  end.

(** What stops [os.makedirs(name, exist_ok=True)]: a regular file on the
    way.  Where [name] names that very file the inner [mkdir] finds it
    there ([FileExistsError], which [exist_ok] does not excuse, the file
    being no directory); otherwise the file is in the way of going
    further. *)
Fixpoint makedirs_blocked (w : World) (name : string) (keys : list string)
    : option exn :=
  match keys with
  | [] => None
  | k :: keys' =>
      match node_at w k with
      | Some (Regular _) =>
          Some (if bool_decide (keys' = [] ∧ ends_in_dot name = false)
                then FileExistsError name else NotADirectoryError name)
      | _ => makedirs_blocked w name keys'
      end
  end.

(** [os.makedirs(name, exist_ok=True)]: every directory on the way to
    [name] that is not there yet is made.  The empty name makes the inner
    [mkdir] fail, and [exist_ok] does not cover it since the empty name
    is no directory. *)
Definition os_makedirs (dname : string) : Py unit :=
  λ w,
    if decide (dname = "") then (inl (FileNotFoundError ""), w)
    else match makedirs_blocked w dname (directories_to dname) with
         | Some e => (inl e, w)
         | None =>
             (inr (), mkWorld (stdout w) (list_to_set (directories_to dname) ∪ dirs w)
                              (files w) (clock w) (fit_log w))
         end.

(** [joblib.dump(model, filepath)], which opens the path for writing.  A
    path that ends in a slash or in a dot names a directory and cannot be
    written to; otherwise the directory part has to be there, and the
    file is created or replaced unless a directory has its name. *)
Definition joblib_dump (model : Model) (filepath : string) : Py unit :=
  λ w,
    if decide (filepath = "") then (inl (FileNotFoundError filepath), w)
    else if ends_in_dot filepath then
      match walk w filepath (directories_to filepath) with
      | inl e => (inl e, w)
      | inr _ => (inl (IsADirectoryError filepath), w)
      end
    else if decide (basename filepath = "") then
      match walk w filepath (removelast (directories_to filepath)) with
      | inl e => (inl e, w)
      | inr _ => (inl (IsADirectoryError filepath), w)
      end
    else
      match walk w filepath (directories_to (dirname filepath)) with
      | inl e => (inl e, w)
      | inr _ =>
          if isdir w (file_name filepath) then (inl (IsADirectoryError filepath), w)
          else (inr (), mkWorld (stdout w) (dirs w)
                                (<[file_name filepath := Pickle model]> (files w))
                                (clock w) (fit_log w))
      end.

(** [joblib.load(filepath)], which opens the path for reading. *)
Definition joblib_load (filepath : string) : Py Model :=
  λ w,
    if decide (filepath = "") then (inl (FileNotFoundError filepath), w)
    else if ends_in_dot filepath || bool_decide (basename filepath = "") then
      match walk w filepath (directories_to filepath) with
      | inl e => (inl e, w)
      | inr _ => (inl (IsADirectoryError filepath), w)
      end
    else
      match walk w filepath (directories_to (dirname filepath)) with
      | inl e => (inl e, w)
      | inr _ =>
          match node_at w (file_name filepath) with
          | Some Directory => (inl (IsADirectoryError filepath), w)
          | Some (Regular (Pickle m)) => (inr m, w)
          | Some (Regular (Bytes _)) => (inl (UnpicklingError filepath), w)
          | None => (inl (FileNotFoundError filepath), w)
          end
      end.

Definition save_model (model : Model) (filepath : string) : Py unit :=
  let* _ := os_makedirs (dirname filepath) in
  joblib_dump model filepath.

Definition load_model (filepath : string) : Py Model := joblib_load filepath.

(** An item may stand before another in a descending ranking: both
    weights are numbers and the first is not smaller. *)
Definition outweighs (a b : string * weight) : Prop :=
  ∃ p q, a.2 = Scalar p ∧ b.2 = Scalar q ∧ (q ≤ p)%Qc.

(** ** Suggested preprocessing steps *)

Record Suggestion := mkSuggestion {
  step : string;
  description : string;
  priority : string
}.

(** [df.isnull().sum()] for one column. *)
Definition missing_count (s : Series) : nat :=
  length (filter (λ c, isnull c = true) (cells s)).

Definition handle_missing_values : string := "Handle Missing Values".
Definition encode_categorical_variables : string := "Encode Categorical Variables".
Definition scale_numerical_features : string := "Scale Numerical Features".
Definition handle_outliers : string := "Handle Outliers".

Section PreprocessingSteps.
(** Lines 176-180 for one column, taken as given: whether the rows
    outside the 1.5 IQR fences are any ([len(outliers) > 0]). *)
Context (has_outliers : DataFrame → string → exn + bool).

(** Lines 173-181: the loop that collects [outlier_cols]. *)
Fixpoint collect_outlier_cols (df : DataFrame) (target_column : string)
    (numerical_cols outlier_cols : list string) : exn + list string :=
  match numerical_cols with
  | [] => inr outlier_cols
  | col :: rest =>
      if decide (col = target_column)
      then collect_outlier_cols df target_column rest outlier_cols
      else match has_outliers df col with
           | inl e => inl e
           | inr true =>
               collect_outlier_cols df target_column rest (outlier_cols ++ [col])
           | inr false => collect_outlier_cols df target_column rest outlier_cols
           end
  end.

Definition suggest_preprocessing_steps (df : DataFrame) (target_column : string)
    : exn + list Suggestion :=
  let missing_data := missing_count <$> columns df in
  let suggestions1 :=
    if bool_decide (0 < sum_list missing_data)%nat
    then [mkSuggestion handle_missing_values
            ("Found " +:+ pretty (sum_list missing_data)
             +:+ " missing values across "
             +:+ pretty (length (filter (λ n, 0 < n)%nat missing_data))
             +:+ " columns")
            "high"]
    else [] in
  let categorical_cols :=
    filter (λ s, is_object_or_category (dtype_of s) = true) (columns df) in
  let suggestions2 :=
    if bool_decide (0 < length categorical_cols)%nat
    then [mkSuggestion encode_categorical_variables
            ("Found " +:+ pretty (length categorical_cols)
             +:+ " categorical columns that need encoding")
            "high"]
    else [] in
  let numerical_cols :=
    name <$> filter (λ s, is_number (dtype_of s) = true) (columns df) in
  let suggestions3 :=
    if bool_decide (0 < length numerical_cols)%nat
    then [mkSuggestion scale_numerical_features
            ("Found " +:+ pretty (length numerical_cols)
             +:+ " numerical columns that may benefit from scaling")
            "medium"]
    else [] in
  match collect_outlier_cols df target_column numerical_cols [] with
  | inl e => inl e
  | inr outlier_cols =>
      let suggestions4 :=
        match outlier_cols with
        | [] => []
        | _ :: _ =>
            [mkSuggestion handle_outliers
               ("Found outliers in " +:+ pretty (length outlier_cols) +:+ " columns")
               "medium"]
        end in
      inr (suggestions1 ++ suggestions2 ++ suggestions3 ++ suggestions4)%list
  end.
End PreprocessingSteps.

(** ** Evaluation *)

(** A value in the metrics dict. *)
Inductive metric := Score (q : Qc) | Table (rows : list (list Z)).

(** The scikit-learn calls of [evaluate_model], taken as given.
    [predict_proba] is [None] for a model without that method;
    [roc_auc_score_second] stands for
    [roc_auc_score(y_test, y_pred_proba[:, 1])]. *)
Record Scoring := mkScoring {
  predict_proba : Model → option (DataFrame → exn + list (list Qc));
  accuracy_score : Series → list cell → exn + Qc;
  precision_score : Series → list cell → exn + Qc;
  recall_score : Series → list cell → exn + Qc;
  f1_score : Series → list cell → exn + Qc;
  roc_auc_score_second : Series → list (list Qc) → exn + Qc;
  confusion_matrix : Series → list cell → exn + list (list Z);
  mean_squared_error : Series → list cell → exn + Qc;
  mean_absolute_error : Series → list cell → exn + Qc;
  r2_score : Series → list cell → exn + Qc
}.

(** Sequencing of calls that may raise. *)
Definition and_then {A B} (r : exn + A) (k : A → exn + B) : exn + B :=
  match r with
  | inl e => inl e
  | inr a => k a
  end.

Notation "'try*' x ':=' c 'in' k" := (and_then c (λ x, k))
  (at level 10, x pattern, c at level 100, k at level 200).

Section Evaluation.
Context (sk : Sklearn) (sc : Scoring).

Definition evaluate_model (model : Model) (X_test : DataFrame) (y_test : Series)
    (problem_type : string) : exn + gmap string metric :=
  try* y_pred := predict sk model X_test in
  try* y_pred_proba :=
    match predict_proba sc model with
    | Some proba => try* p := proba X_test in inr (Some p)
    | None => inr None
    end in
  if decide (problem_type = "classification") then
    try* accuracy := accuracy_score sc y_test y_pred in
    let metrics := <["accuracy" := Score accuracy]> (∅ : gmap string metric) in
    try* precision := precision_score sc y_test y_pred in
    let metrics := <["precision" := Score precision]> metrics in
    try* recall := recall_score sc y_test y_pred in
    let metrics := <["recall" := Score recall]> metrics in
    try* f1 := f1_score sc y_test y_pred in
    let metrics := <["f1_score" := Score f1]> metrics in
    try* metrics :=
      match y_pred_proba with
      | Some p =>
          if decide (length (unique (cells y_test)) = 2%nat)
          then try* auc := roc_auc_score_second sc y_test p in
               inr (<["roc_auc" := Score auc]> metrics)
          else inr metrics
      | None => inr metrics
      end in
    try* cm := confusion_matrix sc y_test y_pred in
    inr (<["confusion_matrix" := Table cm]> metrics)
  else
    try* mse := mean_squared_error sc y_test y_pred in
    let metrics := <["mse" := Score mse]> (∅ : gmap string metric) in
    try* mae := mean_absolute_error sc y_test y_pred in
    let metrics := <["mae" := Score mae]> metrics in
    try* r2 := r2_score sc y_test y_pred in
    inr (<["r2_score" := Score r2]> metrics).
End Evaluation.

(** ** Sample data *)

Module Sample.

Definition number (n : nat) : cell := Num (Q2Qc (inject_Z (Z.of_nat n))).

Definition threshold : Qc := Q2Qc (3 # 10)%Q.

(** A feature column, half of it missing. *)
Definition x_half_missing : Series :=
  mkSeries "x" float64 [NA; number 1; NA; number 2].

(** A target column with nothing but missing entries. *)
Definition y_all_missing : Series := mkSeries "y" float64 [NA; NA; NA; NA].

Definition sparse_frame : DataFrame :=
  mkDataFrame 4 [x_half_missing; y_all_missing].

(** Numeric targets with ten and with eleven distinct values. *)
Definition y_ten : Series := mkSeries "y" float64 (number <$> seq 0 10).
Definition y_eleven : Series := mkSeries "y" float64 (number <$> seq 0 11).

(** Eleven days in a row, as a column of timestamps. *)
Definition y_days : Series :=
  mkSeries "y" datetime64
    ((λ n, Num (Q2Qc (inject_Z (86400000000000 * Z.of_nat n)))) <$> seq 0 11).

(** Ten distinct values and two missing entries. *)
Definition y_ten_and_missing : Series :=
  mkSeries "y" float64 (NA :: (number <$> seq 0 10) ++ [NA]).

Definition x_full : Series := mkSeries "x" float64 (number <$> seq 5 4).
Definition y_full : Series := mkSeries "y" float64 (number <$> seq 1 4).
Definition full_frame : DataFrame := mkDataFrame 4 [x_full; y_full].

Definition empty_world : World := mkWorld [] ∅ ∅ 0%Qc [].

Definition knn_model : Model := mkModel KNeighborsClassifier ∅ true None None.

(** An advisory service without credentials: every call raises. *)
Definition failing_selector : ModelSelectionService :=
  {| get_intelligent_suggestions := λ _ _, raise (RuntimeError "GOOGLE_API_KEY not set");
     get_model_hyperparameters := λ _ _ _, raise (RuntimeError "GOOGLE_API_KEY not set");
     explain_model_choice_llm := λ _ _, raise (RuntimeError "GOOGLE_API_KEY not set") |}.

Definition service : MLService := MLService_init failing_selector.

(** A scikit-learn in which every fit and every cross-validation fails. *)
Definition broken_sklearn : Sklearn :=
  {| construct := λ c ps, inr (mkModel c ps false None None);
     fit := λ _ _ _, inl (ValueError "fit failed");
     fit_seconds := λ _ _ _, 1%Qc;
     cross_val_score := λ _ _ _ _, inl (ValueError "fit failed");
     predict := λ _ _, inl (ValueError "not fitted") |}.

(** A frame with a categorical feature, one entry of it missing. *)
Definition city : Series := mkSeries "city" object [Str "a"; NA; Str "b"; Str "a"].
Definition mixed_frame : DataFrame := mkDataFrame 4 [city; x_full; y_full].

(** Stand-ins for the pandas and scikit-learn numerics. *)
Definition first_present (cs : list cell) : option cell :=
  head (filter (λ c, isnull c = false) cs).
Definition zero_median (cs : list cell) : cell := Num 0%Qc.
Definition as_it_is (cs : list cell) : list cell := cs.
Definition no_such_columns (key columns : list string) : string :=
  "None of " +:+ String.concat ", " key +:+ " are in the columns".

Definition preprocessed_mixed : Preprocess.Preprocessed :=
  match Preprocess.preprocess_data first_present zero_median as_it_is as_it_is
          no_such_columns mixed_frame "y" None None threshold with
  | inr p => p
  | inl _ => Preprocess.mkPreprocessed mixed_frame ∅ []
  end.

(** A scikit-learn in which everything works and every fold scores 1/2. *)
Definition steady_sklearn : Sklearn :=
  {| construct := λ c ps, inr (mkModel c ps false None None);
     fit := λ m _ _,
       inr (mkModel (model_class m) (model_params m) true None None);
     fit_seconds := λ _ _ _, 1%Qc;
     cross_val_score := λ _ _ _ cv, inr (replicate cv (Q2Qc (1 # 2)%Q));
     predict := λ _ X, inr (replicate (nrows X) (Num 0%Qc)) |}.

(** Fitted models: a forest with importances, a ridge regression with a
    coefficient vector, a three-class logistic regression with a
    coefficient matrix. *)
Definition forest_model : Model :=
  mkModel RandomForestClassifier ∅ true
    (Some [Q2Qc (1 # 5)%Q; Q2Qc (1 # 2)%Q; Q2Qc (3 # 10)%Q]) None.

Definition ridge_model : Model :=
  mkModel Ridge ∅ true None (Some (Arr1 [Q2Qc (-3 # 1)%Q; 1%Qc; Q2Qc (5 # 1)%Q])).

Definition softmax_model : Model :=
  mkModel LogisticRegression ∅ true None
    (Some (Arr2 [[1%Qc; Q2Qc (-2 # 1)%Q]; [0%Qc; 1%Qc]; [Q2Qc (-1 # 1)%Q; 1%Qc]])).

(** A sampler that always proposes the lower bound. *)
Definition low_sampler : Sampler :=
  {| sample_int := λ _ _ low _, low; sample_float := λ _ _ low _, low |}.

(** Outlier judgements: none anywhere; outliers in the target only. *)
Definition no_outliers (df : DataFrame) (col : string) : exn + bool := inr false.
Definition target_outliers (df : DataFrame) (col : string) : exn + bool :=
  inr (bool_decide (col = "y")).

Definition mixed_advice : list Suggestion :=
  match suggest_preprocessing_steps no_outliers mixed_frame "y" with
  | inr steps => steps
  | inl _ => []
  end.

(** Metrics that all come out as 1/2, for a model with class
    probabilities. *)
Definition steady_scoring : Scoring :=
  {| predict_proba := λ _,
       Some (λ X, inr (replicate (nrows X) [Q2Qc (1 # 2)%Q; Q2Qc (1 # 2)%Q]));
     accuracy_score := λ _ _, inr (Q2Qc (1 # 2)%Q);
     precision_score := λ _ _, inr (Q2Qc (1 # 2)%Q);
     recall_score := λ _ _, inr (Q2Qc (1 # 2)%Q);
     f1_score := λ _ _, inr (Q2Qc (1 # 2)%Q);
     roc_auc_score_second := λ _ _, inr (Q2Qc (1 # 2)%Q);
     confusion_matrix := λ _ _, inr [[1; 1]; [1; 1]];
     mean_squared_error := λ _ _, inr (Q2Qc (1 # 2)%Q);
     mean_absolute_error := λ _ _, inr (Q2Qc (1 # 2)%Q);
     r2_score := λ _ _, inr (Q2Qc (1 # 2)%Q) |}.

(** A binary label column, and its evaluation as a classification. *)
Definition y_binary : Series :=
  mkSeries "y" int64 [number 0; number 1; number 1; number 0].

Definition binary_metrics : gmap string metric :=
  match evaluate_model steady_sklearn steady_scoring knn_model full_frame
          y_binary "classification" with
  | inr metrics => metrics
  | inl _ => ∅
  end.

(** A search for random_forest over two trials. *)
Definition forest_search : (exn + gmap string pval) * World :=
  optimize_hyperparameters steady_sklearn low_sampler service "random_forest"
    full_frame y_full "classification" 2 empty_world.

Definition forest_params : gmap string pval :=
  match forest_search.1 with
  | inr params => params
  | inl _ => ∅
  end.

End Sample.

(** * Properties *)

(** ** Removing from a list, counting labels *)

Lemma list_remove_other (x y : string) (l : list string) :
  y ≠ x → y ∈ Preprocess.list_remove x l ↔ y ∈ l.
Proof.
  intros Hne. induction l as [|z l IH]; simpl; [done|].
  destruct (decide (x = z)) as [->|Hxz].
  - rewrite elem_of_cons. split; [by right | by intros [?|?]].
  - rewrite !elem_of_cons, IH. done.
Qed.

Lemma list_remove_single (x : string) (l : list string) :
  (length (filter (λ y, y = x) l) ≤ 1)%nat → x ∉ Preprocess.list_remove x l.
Proof.
  induction l as [|z l IH]; simpl; intros Hlen.
  - apply not_elem_of_nil.
  - destruct (decide (x = z)) as [->|Hxz].
    + rewrite filter_cons_True in Hlen by done. simpl in Hlen.
      intros Hin.
      assert (z ∈ filter (λ y, y = z) l) as Hf by (apply list_elem_of_filter; done).
      destruct (filter (λ y, y = z) l); [by apply elem_of_nil in Hf | simpl in Hlen; lia].
    + rewrite filter_cons_False in Hlen by congruence.
      rewrite elem_of_cons. intros [?|?]; [done | by apply IH].
Qed.

Lemma filter_label_fmap (x : string) (ss : list Series) :
  filter (λ y, y = x) (name <$> ss) = name <$> filter (λ s, name s = x) ss.
Proof.
  induction ss as [|s ss IH]; [done|]. rewrite fmap_cons.
  destruct (decide (name s = x)) as [Hs|Hs].
  - rewrite !filter_cons_True by done. rewrite fmap_cons. by f_equal.
  - by rewrite !filter_cons_False by done.
Qed.

Lemma filter_filter_length {A} (P Q : A → Prop)
    `{!∀ a, Decision (P a)} `{!∀ a, Decision (Q a)} (l : list A) :
  (length (filter P (filter Q l)) ≤ length (filter P l))%nat.
Proof.
  induction l as [|a l IH]; [done|].
  destruct (decide (Q a)); destruct (decide (P a));
    rewrite ?filter_cons_True, ?filter_cons_False by done; simpl;
    rewrite ?filter_cons_True, ?filter_cons_False by done; simpl; lia.
Qed.

(** A label carried by at most one column is listed at most once among the
    columns over the threshold. *)
Lemma over_threshold_single (df : DataFrame) (x : string) (thr : Qc) :
  (length (labelled x df) ≤ 1)%nat →
  (length (filter (λ y, y = x) (Preprocess.over_threshold df thr)) ≤ 1)%nat.
Proof.
  intros Hlen. unfold Preprocess.over_threshold.
  rewrite filter_label_fmap, length_fmap.
  etrans; [apply filter_filter_length | exact Hlen].
Qed.

(** ** Preprocessing *)

(** C1.  When the target's label is carried by at most one column of the
    data set, the pruning step of [preprocess_data] never lists the target
    among the columns to drop and keeps the target column, whatever its
    missing fraction; every other column whose missing fraction exceeds
    [missing_threshold] is listed and is gone from the pruned frame. *)
Theorem prune_spares_target (df : DataFrame) (target_column : string)
    (missing_threshold : Qc) :
  (length (labelled target_column df) ≤ 1)%nat →
  (target_column ∉ Preprocess.cols_to_drop df target_column missing_threshold)
  ∧ (∀ s, s ∈ columns df → name s = target_column →
          s ∈ columns (Preprocess.prune df target_column missing_threshold))
  ∧ (∀ s, s ∈ columns df → name s ≠ target_column →
          Preprocess.exceeds missing_threshold s = true →
          (name s ∈ Preprocess.cols_to_drop df target_column missing_threshold)
          ∧ (name s ∉ labels (Preprocess.prune df target_column missing_threshold))).
Proof.
  intros Hone.
  assert (target_column ∉ Preprocess.cols_to_drop df target_column missing_threshold)
    as Hspared.
  { unfold Preprocess.cols_to_drop. case_decide as Hin; [|done].
    by apply list_remove_single, over_threshold_single. }
  split; [done|]. split.
  - intros s Hs Hname. unfold Preprocess.prune, Preprocess.drop. simpl.
    apply list_elem_of_filter. split; [by rewrite Hname | done].
  - intros s Hs Hname Hex.
    assert (name s ∈ Preprocess.over_threshold df missing_threshold) as Hover.
    { unfold Preprocess.over_threshold. apply list_elem_of_fmap.
      exists s. split; [done|]. by apply list_elem_of_filter. }
    assert (name s ∈ Preprocess.cols_to_drop df target_column missing_threshold)
      as Hdrop.
    { unfold Preprocess.cols_to_drop. case_decide; [|done].
      by apply list_remove_other. }
    split; [done|].
    unfold labels, Preprocess.prune, Preprocess.drop. simpl.
    intros (s' & Heq & Hs')%list_elem_of_fmap.
    apply list_elem_of_filter in Hs' as [Hnot _]. apply Hnot. by rewrite <- Heq.
Qed.

Lemma prune_spares_target_witness :
  ("y" ∉ Preprocess.cols_to_drop Sample.sparse_frame "y" Sample.threshold)
  ∧ (∀ s, s ∈ columns Sample.sparse_frame → name s = "y" →
          s ∈ columns (Preprocess.prune Sample.sparse_frame "y" Sample.threshold))
  ∧ (∀ s, s ∈ columns Sample.sparse_frame → name s ≠ "y" →
          Preprocess.exceeds Sample.threshold s = true →
          (name s ∈ Preprocess.cols_to_drop Sample.sparse_frame "y" Sample.threshold)
          ∧ (name s ∉ labels (Preprocess.prune Sample.sparse_frame "y" Sample.threshold))).
Proof.
  apply (prune_spares_target Sample.sparse_frame "y" Sample.threshold).
  vm_compute. lia.
Defined.

(** The fully missing target survives the pruning that removes the
    half-missing feature. *)
Example prune_sparse_frame :
  Preprocess.cols_to_drop Sample.sparse_frame "y" Sample.threshold = ["x"]
  ∧ Preprocess.prune Sample.sparse_frame "y" Sample.threshold
    = mkDataFrame 4 [Sample.y_all_missing].
Proof. split; reflexivity. Qed.

(** Why the label must pick one column: of two columns labelled as the
    target and both over the threshold, [remove] takes one entry off the
    list and [drop] still removes both. *)
Example prune_repeated_target_label :
  Preprocess.cols_to_drop
    (mkDataFrame 4 [Sample.y_all_missing; Sample.x_full; Sample.y_all_missing])
    "y" Sample.threshold = ["y"]
  ∧ labels (Preprocess.prune
              (mkDataFrame 4 [Sample.y_all_missing; Sample.x_full; Sample.y_all_missing])
              "y" Sample.threshold) = ["x"].
Proof. split; reflexivity. Qed.

(** With the numeric columns auto-detected, the target is not among the
    columns to scale, provided at most one column carries its label. *)
Lemma select_numerical_auto_excludes_target (df : DataFrame) (target_column : string) :
  (length (labelled target_column df) ≤ 1)%nat →
  target_column ∉ Preprocess.select_numerical df target_column None.
Proof.
  intros Hone. unfold Preprocess.select_numerical. case_decide as Hin; [|done].
  apply list_remove_single. rewrite filter_label_fmap, length_fmap.
  etrans; [apply filter_filter_length | exact Hone].
Qed.

(** A list of numeric columns supplied by the caller is used as it is. *)
Lemma select_numerical_supplied (df : DataFrame) (target_column : string)
    (numerical_columns : list string) :
  Preprocess.select_numerical df target_column (Some numerical_columns)
  = numerical_columns.
Proof. reflexivity. Qed.

(** On [Sample.full_frame] with the numeric columns auto-detected, only
    the feature is scaled and the target column comes back as it was. *)
Example preprocess_data_auto_spares_target
    (mode : list cell → option cell) (median : list cell → cell)
    (label_encode standard_scale : list cell → list cell)
    (not_in_index : list string → list string → string) :
  ∃ p,
    Preprocess.preprocess_data mode median label_encode standard_scale not_in_index
      Sample.full_frame "y" None None Sample.threshold = inr p
    ∧ Preprocess.scaler_columns p = ["x"]
    ∧ labelled "y" (Preprocess.df_processed p) = [Sample.y_full].
Proof. eexists. repeat split; reflexivity. Qed.

(** C6, at the input where it fails: the caller names the target among
    [numerical_columns].  Whatever the numerics, [preprocess_data] returns,
    the scaler is fitted on the target as well, and the target column of
    the result holds scaled values. *)
Theorem preprocess_data_scales_supplied_target
    (mode : list cell → option cell) (median : list cell → cell)
    (label_encode standard_scale : list cell → list cell)
    (not_in_index : list string → list string → string) :
  ∃ p,
    Preprocess.preprocess_data mode median label_encode standard_scale not_in_index
      Sample.full_frame "y" None (Some ["x"; "y"]) Sample.threshold = inr p
    ∧ "y" ∈ Preprocess.scaler_columns p
    ∧ labelled "y" (Preprocess.df_processed p)
      = [mkSeries "y" float64 (standard_scale (cells Sample.y_full))].
Proof.
  eexists. split; [|split].
  - reflexivity.
  - simpl. set_solver.
  - reflexivity.
Qed.

(** ** Problem-type detection *)

Lemma elem_of_unique_from (seen cs : list cell) (c : cell) :
  c ∈ unique_from seen cs ↔ c ∈ cs ∧ c ∉ seen.
Proof.
  revert seen. induction cs as [|d cs IH]; intros seen; simpl.
  - split; [by intros ?%elem_of_nil | by intros [?%elem_of_nil _]].
  - destruct (decide (d ∈ seen)) as [Hd|Hd].
    + rewrite IH, elem_of_cons. split; [intros [??]; auto|].
      intros [[->|?] ?]; [done | auto].
    + rewrite !elem_of_cons, IH, elem_of_cons. split.
      * intros [->|[? Hn]]; [auto|]. split; [auto|]. intros ?. apply Hn. auto.
      * intros [[->|?] Hn]; [auto|].
        destruct (decide (c = d)) as [->|Hcd]; [auto|].
        right. split; [done|]. by intros [?|?].
Qed.

Lemma NoDup_unique_from (seen cs : list cell) : NoDup (unique_from seen cs).
Proof.
  revert seen. induction cs as [|d cs IH]; intros seen; simpl.
  - constructor.
  - destruct (decide (d ∈ seen)); [apply IH|].
    constructor; [|apply IH].
    rewrite elem_of_unique_from, elem_of_cons. intros [_ Hn]. apply Hn. auto.
Qed.

(** [unique] lists each value of the column exactly once. *)
Lemma elem_of_unique (cs : list cell) (c : cell) : c ∈ unique cs ↔ c ∈ cs.
Proof.
  unfold unique. rewrite elem_of_unique_from. split; [by intros [? _]|].
  intros ?. split; [done | apply not_elem_of_nil].
Qed.

Lemma NoDup_unique (cs : list cell) : NoDup (unique cs).
Proof. apply NoDup_unique_from. Qed.

(** Any duplicate-free listing of the column's values has as many entries
    as [unique] returns. *)
Lemma length_unique (cs vs : list cell) :
  NoDup vs → (∀ c, c ∈ vs ↔ c ∈ cs) → length (unique cs) = length vs.
Proof.
  intros Hnd Hvs. apply Permutation_length, NoDup_Permutation;
    [apply NoDup_unique | done |].
  intros c. by rewrite elem_of_unique, Hvs.
Qed.

Lemma detect_problem_type_column (df : DataFrame) (target_column : string)
    (target_data : Series) :
  labelled target_column df = [target_data] →
  detect_problem_type target_column df =
    inr (if is_object_or_category (dtype_of target_data) then "classification"
         else if bool_decide (length (unique (cells target_data)) ≤ 10)%nat
              then "classification" else "regression").
Proof.
  intros Hcol. unfold detect_problem_type, getitem. rewrite Hcol.
  destruct (is_object_or_category _); [done|]. by case_bool_decide.
Qed.

(** C2, as the code has it.  Let the target label pick one column, and
    let [vs] list its distinct values.  A target of dtype object or
    category is a classification target; a target of any other dtype,
    numeric or not, is one exactly when it has at most ten distinct
    values, and a regression target otherwise: ten distinct values give
    classification, eleven give regression. *)
Theorem detect_problem_type_rule (df : DataFrame) (target_column : string)
    (target_data : Series) (vs : list cell) :
  labelled target_column df = [target_data] →
  NoDup vs →
  (∀ c, c ∈ vs ↔ c ∈ cells target_data) →
  (is_object_or_category (dtype_of target_data) = true →
     detect_problem_type target_column df = inr "classification")
  ∧ (is_object_or_category (dtype_of target_data) = false →
     (length vs ≤ 10)%nat →
     detect_problem_type target_column df = inr "classification")
  ∧ (is_object_or_category (dtype_of target_data) = false →
     (10 < length vs)%nat →
     detect_problem_type target_column df = inr "regression").
Proof.
  intros Hcol Hnd Hvs.
  rewrite (detect_problem_type_column _ _ _ Hcol), (length_unique _ vs) by done.
  repeat split; intros Hd; rewrite Hd; [done| |]; intros Hlen;
    case_bool_decide; (done || lia).
Qed.

Lemma detect_problem_type_rule_witness :
  (is_object_or_category (dtype_of Sample.y_eleven) = true →
     detect_problem_type "y" (mkDataFrame 11 [Sample.y_eleven])
     = inr "classification")
  ∧ (is_object_or_category (dtype_of Sample.y_eleven) = false →
     (length (cells Sample.y_eleven) ≤ 10)%nat →
     detect_problem_type "y" (mkDataFrame 11 [Sample.y_eleven])
     = inr "classification")
  ∧ (is_object_or_category (dtype_of Sample.y_eleven) = false →
     (10 < length (cells Sample.y_eleven))%nat →
     detect_problem_type "y" (mkDataFrame 11 [Sample.y_eleven])
     = inr "regression").
Proof.
  apply (detect_problem_type_rule (mkDataFrame 11 [Sample.y_eleven])
           "y" Sample.y_eleven (cells Sample.y_eleven)).
  - reflexivity.
  - compute_done.
  - intros c. reflexivity.
Defined.

(** C2 as the claim words it fails on a column of timestamps: its values
    are not numbers, yet with eleven distinct days it is a regression
    target, since its dtype is neither object nor category. *)
Lemma detect_problem_type_timestamps :
  is_number (dtype_of Sample.y_days) = false
  ∧ is_object_or_category (dtype_of Sample.y_days) = false
  ∧ length (unique (cells Sample.y_days)) = 11%nat
  ∧ detect_problem_type "y" (mkDataFrame 11 [Sample.y_days]) = inr "regression"
  ∧ detect_problem_type "y" (mkDataFrame 11 [Sample.y_days])
    ≠ inr "classification".
Proof. repeat split; [reflexivity..|discriminate]. Qed.

(** The same on a column of pandas strings. *)
Example detect_problem_type_string_dtype :
  detect_problem_type "y"
    (mkDataFrame 11
       [mkSeries "y" string_
          (Str <$> ["a"; "b"; "c"; "d"; "e"; "f"; "g"; "h"; "i"; "j"; "k"])])
  = inr "regression".
Proof. reflexivity. Qed.

(** The boundary, computed: ten distinct numeric values, eleven, and a
    column of strings with eleven distinct values. *)
Example detect_problem_type_boundary :
  detect_problem_type "y" (mkDataFrame 10 [Sample.y_ten]) = inr "classification"
  ∧ detect_problem_type "y" (mkDataFrame 11 [Sample.y_eleven]) = inr "regression"
  ∧ detect_problem_type "y"
      (mkDataFrame 11
         [mkSeries "y" object
            (Str <$> ["a"; "b"; "c"; "d"; "e"; "f"; "g"; "h"; "i"; "j"; "k"])])
    = inr "classification".
Proof. repeat split; reflexivity. Qed.



(** ** Heuristic model suggestion *)

Lemma size_category_cases (dataset_size : Z) :
  (dataset_size < 1000 ∧ size_category dataset_size = "small_dataset")
  ∨ (1000 ≤ dataset_size < 10000 ∧ size_category dataset_size = "medium_dataset")
  ∨ (10000 ≤ dataset_size ∧ size_category dataset_size = "large_dataset").
Proof. unfold size_category. repeat case_bool_decide; auto with lia. Qed.

Lemma dim_category_cases (feature_count : Z) :
  (50 < feature_count ∧ dim_category feature_count = "high_dimensions")
  ∨ (feature_count ≤ 50 ∧ dim_category feature_count = "low_dimensions").
Proof. unfold dim_category. case_bool_decide; auto with lia. Qed.

(** Both problem types have a row in the policy table, and each row has
    all five buckets. *)
Lemma suggestions_total (problem_type : string) :
  problem_type ∈ ["classification"; "regression"] →
  ∃ table, suggestions !! problem_type = Some table
    ∧ ∀ bucket, bucket ∈ ["small_dataset"; "medium_dataset"; "large_dataset";
                          "high_dimensions"; "low_dimensions"] →
                is_Some (table !! bucket).
Proof.
  intros Hpt. unfold suggestions.
  repeat (apply elem_of_cons in Hpt as [->|Hpt]); [| |by apply elem_of_nil in Hpt].
  all: eexists; split; [by simplify_map_eq|].
  all: intros bucket Hb;
    repeat (apply elem_of_cons in Hb as [->|Hb]); [| | | | |by apply elem_of_nil in Hb].
  all: by simplify_map_eq.
Qed.

Lemma size_category_bucket (dataset_size : Z) :
  size_category dataset_size
  ∈ ["small_dataset"; "medium_dataset"; "large_dataset";
     "high_dimensions"; "low_dimensions"].
Proof. unfold size_category. repeat case_bool_decide; set_solver. Qed.

Lemma dim_category_bucket (feature_count : Z) :
  dim_category feature_count
  ∈ ["small_dataset"; "medium_dataset"; "large_dataset";
     "high_dimensions"; "low_dimensions"].
Proof. unfold dim_category. case_bool_decide; set_solver. Qed.

(** [suggest_models] once the three dict lookups are known. *)
Lemma suggest_models_lookup (list_of_set : gset string → list string)
    (problem_type : string) (dataset_size feature_count : Z)
    (table : gmap string (list string)) (by_size by_dim : list string) :
  suggestions !! problem_type = Some table →
  table !! size_category dataset_size = Some by_size →
  table !! dim_category feature_count = Some by_dim →
  suggest_models list_of_set problem_type dataset_size feature_count
  = inr (list_of_set (list_to_set (by_size ++ by_dim))).
Proof.
  intros Htable Hsize Hdim. unfold suggest_models, dict_get.
  by rewrite Htable, Hsize, Hdim.
Qed.

(** What any enumeration of [set(xs)] looks like. *)
Lemma enumeration_of_list (list_of_set : gset string → list string)
    (xs : list string) :
  set_enumeration list_of_set →
  NoDup (list_of_set (list_to_set xs))
  ∧ ∀ m, m ∈ list_of_set (list_to_set xs) ↔ m ∈ xs.
Proof.
  intros Henum. split.
  - rewrite (Henum _). apply NoDup_elements.
  - intros m. rewrite (Henum _), elem_of_elements, elem_of_list_to_set. done.
Qed.

(** C3.  For both problem types and any row and feature counts,
    [suggest_models] returns a list without duplicates whose members are
    exactly those of the policy table's bucket for the data set's size
    (small below 1000 rows, medium below 10000, large otherwise) and of its
    bucket for the dimensionality (high above 50 features, low otherwise).
    The function reads and writes no state, and under any other
    enumeration order of the underlying set the result has the same
    members. *)
Theorem suggest_models_union (list_of_set : gset string → list string)
    (problem_type : string) (dataset_size feature_count : Z) :
  set_enumeration list_of_set →
  problem_type ∈ ["classification"; "regression"] →
  ∃ table by_size by_dim recommended,
    suggestions !! problem_type = Some table
    ∧ ((dataset_size < 1000 ∧ table !! "small_dataset" = Some by_size)
       ∨ (1000 ≤ dataset_size < 10000 ∧ table !! "medium_dataset" = Some by_size)
       ∨ (10000 ≤ dataset_size ∧ table !! "large_dataset" = Some by_size))
    ∧ ((50 < feature_count ∧ table !! "high_dimensions" = Some by_dim)
       ∨ (feature_count ≤ 50 ∧ table !! "low_dimensions" = Some by_dim))
    ∧ suggest_models list_of_set problem_type dataset_size feature_count
      = inr recommended
    ∧ NoDup recommended
    ∧ (∀ m, m ∈ recommended ↔ m ∈ by_size ∨ m ∈ by_dim)
    ∧ (∀ list_of_set', set_enumeration list_of_set' →
         ∃ recommended',
           suggest_models list_of_set' problem_type dataset_size feature_count
           = inr recommended'
           ∧ recommended' ≡ₚ recommended).
Proof.
  intros Henum Hpt.
  destruct (suggestions_total _ Hpt) as (table & Htable & Hbuckets).
  destruct (Hbuckets _ (size_category_bucket dataset_size)) as [by_size Hsize].
  destruct (Hbuckets _ (dim_category_bucket feature_count)) as [by_dim Hdim].
  assert (∀ los, suggest_models los problem_type dataset_size feature_count
                 = inr (los (list_to_set (by_size ++ by_dim)))) as Hrun.
  { intros los. by apply (suggest_models_lookup _ _ _ _ table). }
  destruct (enumeration_of_list _ (by_size ++ by_dim) Henum) as [Hnd Hmem].
  exists table, by_size, by_dim, (list_of_set (list_to_set (by_size ++ by_dim))).
  split; [done|]. split; [|split; [|split; [apply Hrun|split; [done|split]]]].
  - destruct (size_category_cases dataset_size) as [[? Hc]|[[? Hc]|[? Hc]]];
      rewrite Hc in Hsize; auto.
  - destruct (dim_category_cases feature_count) as [[? Hc]|[? Hc]];
      rewrite Hc in Hdim; auto.
  - intros m. by rewrite Hmem, elem_of_app.
  - intros los' Henum'. eexists. split; [apply Hrun|].
    by rewrite (Henum' _), (Henum _).
Qed.

Lemma suggest_models_union_witness :
  ∃ table by_size by_dim recommended,
    suggestions !! "classification" = Some table
    ∧ ((500 < 1000 ∧ table !! "small_dataset" = Some by_size)
       ∨ (1000 ≤ 500 < 10000 ∧ table !! "medium_dataset" = Some by_size)
       ∨ (10000 ≤ 500 ∧ table !! "large_dataset" = Some by_size))
    ∧ ((50 < 20 ∧ table !! "high_dimensions" = Some by_dim)
       ∨ (20 ≤ 50 ∧ table !! "low_dimensions" = Some by_dim))
    ∧ suggest_models elements "classification" 500 20 = inr recommended
    ∧ NoDup recommended
    ∧ (∀ m, m ∈ recommended ↔ m ∈ by_size ∨ m ∈ by_dim)
    ∧ (∀ list_of_set', set_enumeration list_of_set' →
         ∃ recommended',
           suggest_models list_of_set' "classification" 500 20 = inr recommended'
           ∧ recommended' ≡ₚ recommended).
Proof.
  apply (suggest_models_union elements "classification" 500 20).
  - intros s. reflexivity.
  - compute_done.
Defined.

(** [suggest_models("classification", 500, 20)]: the small-data-set and
    low-dimension lists share two models, which are listed once. *)
Example suggest_models_small_low (list_of_set : gset string → list string) :
  set_enumeration list_of_set →
  ∃ recommended,
    suggest_models list_of_set "classification" 500 20 = inr recommended
    ∧ recommended ≡ₚ ["logistic_regression"; "decision_tree"; "knn"; "ada_boost"].
Proof.
  intros Henum. eexists. split.
  - eapply suggest_models_lookup; unfold suggestions; by simplify_map_eq.
  - rewrite (Henum _). apply NoDup_Permutation.
    + apply NoDup_elements.
    + compute_done.
    + intros m. rewrite (elem_of_elements (C:=gset string)), elem_of_list_to_set.
      rewrite elem_of_app, !elem_of_cons, !elem_of_nil. tauto.
Qed.

(** Outside the two problem types the table lookup fails. *)
Example suggest_models_unknown_problem_type :
  suggest_models elements "clustering" 500 20 = inl (KeyError "clustering").
Proof. unfold suggest_models, dict_get, suggestions. by simplify_map_eq. Qed.

(** ** Advisory suggestions with fallback *)

(** For a target that names one column, detection succeeds. *)
Lemma detect_problem_type_succeeds (df : DataFrame) (target_column : string)
    (target_data : Series) :
  labelled target_column df = [target_data] →
  ∃ problem_type,
    detect_problem_type target_column df = inr problem_type
    ∧ problem_type ∈ ["classification"; "regression"].
Proof.
  intros Hcol. rewrite (detect_problem_type_column _ _ _ Hcol).
  eexists. split; [done|].
  destruct (is_object_or_category _); [|case_bool_decide]; set_solver.
Qed.

Lemma suggest_models_succeeds (list_of_set : gset string → list string)
    (problem_type : string) (dataset_size feature_count : Z) :
  problem_type ∈ ["classification"; "regression"] →
  ∃ recommended,
    suggest_models list_of_set problem_type dataset_size feature_count
    = inr recommended.
Proof.
  intros Hpt.
  destruct (suggestions_total _ Hpt) as (table & Htable & Hbuckets).
  destruct (Hbuckets _ (size_category_bucket dataset_size)) as [by_size Hsize].
  destruct (Hbuckets _ (dim_category_bucket feature_count)) as [by_dim Hdim].
  eexists. by apply (suggest_models_lookup _ _ _ _ table).
Qed.

(** C4.  Let the target name one column of the data set.  If the advisory
    collaborator raises, [get_intelligent_model_suggestions] prints the
    reason and returns the heuristic answer, [suggest_models] at the
    detected problem type, with the [analysis] field carrying the fallback
    flag; and whatever the collaborator does, the call returns a value. *)
Theorem fallback_on_advisor_failure (list_of_set : gset string → list string)
    (self : MLService) (df : DataFrame) (target_column : string)
    (target_data : Series) :
  labelled target_column df = [target_data] →
  (∀ e w w',
     get_intelligent_suggestions (model_selector self) df target_column w
     = (inl e, w') →
     ∃ problem_type recommended,
       detect_problem_type target_column df = inr problem_type
       ∧ suggest_models list_of_set problem_type (Z.of_nat (nrows df))
           (Z.of_nat (length (columns df)) - 1) = inr recommended
       ∧ get_intelligent_model_suggestions list_of_set self df target_column w
         = (inr {| recommended_models := recommended;
                   analysis :=
                     {[ "error" := "Intelligent selection failed, using fallback" ]};
                   evaluation := ∅;
                   final_recommendation := ("random_forest", Q2Qc (1 # 2)%Q) |},
            mkWorld (stdout w' ++ ["Error in intelligent model selection: "
                                   +:+ str_exn e])
                    (dirs w') (files w') (clock w') (fit_log w')))
  ∧ (∀ w, ∃ result w',
       get_intelligent_model_suggestions list_of_set self df target_column w
       = (inr result, w')).
Proof.
  intros Hcol.
  assert (∀ e w w',
     get_intelligent_suggestions (model_selector self) df target_column w
     = (inl e, w') →
     ∃ problem_type recommended,
       detect_problem_type target_column df = inr problem_type
       ∧ suggest_models list_of_set problem_type (Z.of_nat (nrows df))
           (Z.of_nat (length (columns df)) - 1) = inr recommended
       ∧ get_intelligent_model_suggestions list_of_set self df target_column w
         = (inr {| recommended_models := recommended;
                   analysis :=
                     {[ "error" := "Intelligent selection failed, using fallback" ]};
                   evaluation := ∅;
                   final_recommendation := ("random_forest", Q2Qc (1 # 2)%Q) |},
            mkWorld (stdout w' ++ ["Error in intelligent model selection: "
                                   +:+ str_exn e])
                    (dirs w') (files w') (clock w') (fit_log w'))) as Hfallback.
  { intros e w w' Hfail.
    destruct (detect_problem_type_succeeds _ _ _ Hcol) as (pt & Hpt & Hin).
    destruct (suggest_models_succeeds list_of_set pt (Z.of_nat (nrows df))
                (Z.of_nat (length (columns df)) - 1) Hin) as [rec Hrec].
    exists pt, rec. split; [done|]. split; [done|].
    unfold get_intelligent_model_suggestions, try_except. rewrite Hfail.
    unfold bind, print, lift, ret. simpl. by rewrite Hpt, Hrec. }
  split; [exact Hfallback|].
  intros w.
  destruct (get_intelligent_suggestions (model_selector self) df target_column w)
    as [[e|result] w'] eqn:Hcall.
  - destruct (Hfallback e w w' Hcall) as (? & ? & _ & _ & ->). eauto.
  - exists result, w'. unfold get_intelligent_model_suggestions, try_except.
    by rewrite Hcall.
Qed.

Lemma fallback_on_advisor_failure_witness :
  (∀ e w w',
     get_intelligent_suggestions (model_selector Sample.service)
       Sample.full_frame "y" w = (inl e, w') →
     ∃ problem_type recommended,
       detect_problem_type "y" Sample.full_frame = inr problem_type
       ∧ suggest_models elements problem_type
           (Z.of_nat (nrows Sample.full_frame))
           (Z.of_nat (length (columns Sample.full_frame)) - 1) = inr recommended
       ∧ get_intelligent_model_suggestions elements Sample.service
           Sample.full_frame "y" w
         = (inr {| recommended_models := recommended;
                   analysis :=
                     {[ "error" := "Intelligent selection failed, using fallback" ]};
                   evaluation := ∅;
                   final_recommendation := ("random_forest", Q2Qc (1 # 2)%Q) |},
            mkWorld (stdout w' ++ ["Error in intelligent model selection: "
                                   +:+ str_exn e])
                    (dirs w') (files w') (clock w') (fit_log w')))
  ∧ (∀ w, ∃ result w',
       get_intelligent_model_suggestions elements Sample.service
         Sample.full_frame "y" w = (inr result, w')).
Proof.
  apply (fallback_on_advisor_failure elements Sample.service Sample.full_frame
           "y" Sample.y_full).
  reflexivity.
Defined.

(** The fallback at work: four rows, one feature, a numeric target with
    four distinct values. *)
Example fallback_on_full_frame :
  ∃ recommended,
    get_intelligent_model_suggestions elements Sample.service Sample.full_frame "y"
      Sample.empty_world
    = (inr {| recommended_models := recommended;
              analysis := {[ "error" := "Intelligent selection failed, using fallback" ]};
              evaluation := ∅;
              final_recommendation := ("random_forest", Q2Qc (1 # 2)%Q) |},
       mkWorld ["Error in intelligent model selection: GOOGLE_API_KEY not set"]
               ∅ ∅ 0%Qc [])
    ∧ recommended ≡ₚ ["logistic_regression"; "decision_tree"; "knn"; "ada_boost"].
Proof.
  eexists. split.
  - unfold get_intelligent_model_suggestions, try_except, bind, print, lift, ret.
    simpl.
    erewrite suggest_models_lookup;
      [reflexivity | unfold suggestions; by simplify_map_eq..].
  - apply NoDup_Permutation; [apply NoDup_elements | compute_done |].
    intros m. rewrite (elem_of_elements (C:=gset string)), elem_of_list_to_set.
    rewrite elem_of_app, !elem_of_cons, !elem_of_nil. tauto.
Qed.

(** When the target is no column of the frame the fallback itself raises. *)
Example fallback_without_target_column :
  (get_intelligent_model_suggestions elements Sample.service Sample.full_frame "z"
     Sample.empty_world).1
  = inl (KeyError "z").
Proof. reflexivity. Qed.

(** ** Training *)

(** C5.  When the model identifier is not in the catalog of the problem
    type, [train_model] raises the catalog lookup's [KeyError] for that
    identifier (the spec's UnknownModelError) to its caller, before
    anything is constructed or fitted. *)
Theorem train_model_unknown_model (sk : Sklearn) (self : MLService)
    (model_name : string) (X_train : DataFrame) (y_train : Series)
    (problem_type : string) (hyperparameters : option (gmap string pval))
    (by_name : gmap string estimator_class) (w : World) :
  models self !! problem_type = Some by_name →
  by_name !! model_name = None →
  train_model sk self model_name X_train y_train problem_type hyperparameters w
  = (inl (KeyError model_name), w).
Proof.
  intros Hcat Hname.
  unfold train_model, bind, lift, catalog_lookup, dict_get.
  by rewrite Hcat, Hname.
Qed.

Lemma train_model_unknown_model_witness :
  train_model Sample.broken_sklearn Sample.service "linear_regression"
    Sample.full_frame Sample.y_full "classification" None Sample.empty_world
  = (inl (KeyError "linear_regression"), Sample.empty_world).
Proof.
  apply (train_model_unknown_model Sample.broken_sklearn Sample.service
           "linear_regression" Sample.full_frame Sample.y_full "classification" None
           (default ∅ (models Sample.service !! "classification"))
           Sample.empty_world).
  - reflexivity.
  - reflexivity.
Defined.

(** A model the catalog has is constructed and fitted; a failing fit is
    raised to the caller as well. *)
Example train_model_known_model :
  (train_model Sample.broken_sklearn Sample.service "knn"
     Sample.full_frame Sample.y_full "classification" None Sample.empty_world).1
  = inl (ValueError "fit failed").
Proof. reflexivity. Qed.

(** ** Hyperparameter search *)

Section OptimizationFacts.
Context (sk : Sklearn) (sampler : Sampler).
Context (self : MLService) (model_name : string)
        (X_train : DataFrame) (y_train : Series) (problem_type : string).

Abbreviation objective' :=
  (objective sk sampler self model_name X_train y_train problem_type).
Abbreviation run_trials' :=
  (run_trials sk sampler self model_name X_train y_train problem_type).

(** Without a search space the objective is zero, samples nothing and
    leaves the world alone. *)
Lemma objective_unsearchable (history : list FrozenTrial)
    (trial : gmap string pval) (w : World) :
  model_name ∉ searchable →
  objective' history trial w = (inr (0%Qc, trial), w).
Proof.
  intros Hnot. unfold objective.
  repeat case_decide; subst; try (exfalso; apply Hnot; compute_done).
  reflexivity.
Qed.

Lemma run_trials_unsearchable (n : nat) (history : list FrozenTrial) (w : World) :
  model_name ∉ searchable →
  run_trials' n history w
  = (inr (history
          ++ ((λ i, mkFrozenTrial i ∅ 0%Qc) <$> seq (length history) n))%list, w).
Proof.
  intros Hnot. revert history. induction n as [|n IH]; intros history; simpl.
  - by rewrite app_nil_r.
  - unfold bind. rewrite objective_unsearchable by done. simpl.
    rewrite IH, length_app. simpl. rewrite Nat.add_1_r.
    by rewrite <- app_assoc.
Qed.

(** Among trials that all score zero, the first one stays the best. *)
Lemma best_trial_all_zero (b : FrozenTrial) (history : list FrozenTrial) :
  value b = 0%Qc → Forall (λ t, value t = 0%Qc) history →
  foldl (λ best t,
           match best with
           | None => Some t
           | Some b => if bool_decide (value b < value t)%Qc then Some t else Some b
           end) (Some b) history = Some b.
Proof.
  intros Hb Hall. induction Hall as [|t history Ht _ IH]; simpl; [done|].
  rewrite Hb, Ht. rewrite bool_decide_eq_false_2; [exact IH|].
  apply Qcle_not_lt, Qcle_refl.
Qed.
End OptimizationFacts.

(** C8.  For a model identifier outside random_forest, xgboost and
    lightgbm: the objective of every trial is exactly zero and touches
    nothing; the study records its trials with value zero and no
    parameters, without any call into scikit-learn, the world and its fit
    log being as before; and with at least one trial
    [optimize_hyperparameters] returns, its result being the empty
    parameter mapping. *)
Theorem optimize_unsearchable_model (sk : Sklearn) (sampler : Sampler)
    (self : MLService) (model_name : string) (X_train : DataFrame)
    (y_train : Series) (problem_type : string) (n_trials : Z) (w : World) :
  model_name ∉ searchable →
  (∀ history trial w0,
     objective sk sampler self model_name X_train y_train problem_type
       history trial w0 = (inr (0%Qc, trial), w0))
  ∧ (∃ history,
       run_trials sk sampler self model_name X_train y_train problem_type
         (Z.to_nat n_trials) [] w = (inr history, w)
       ∧ length history = Z.to_nat n_trials
       ∧ Forall (λ t, value t = 0%Qc ∧ trial_params t = ∅) history)
  ∧ (0 < n_trials →
     optimize_hyperparameters sk sampler self model_name X_train y_train
       problem_type n_trials w = (inr ∅, w)).
Proof.
  intros Hnot. split; [|split].
  - intros. by apply objective_unsearchable.
  - eexists. split; [by apply run_trials_unsearchable|]. simpl. split.
    + by rewrite length_fmap, length_seq.
    + apply Forall_fmap, Forall_forall. done.
  - intros Hpos. unfold optimize_hyperparameters, bind.
    rewrite run_trials_unsearchable by done. simpl.
    destruct (Z.to_nat n_trials) as [|n] eqn:Hn; [lia|].
    simpl. unfold best_trial. simpl.
    rewrite best_trial_all_zero; [done..|].
    apply Forall_fmap, Forall_forall. done.
Qed.

Lemma optimize_unsearchable_model_witness :
  (∀ history trial w0,
     objective Sample.broken_sklearn Sample.low_sampler Sample.service "svm"
       Sample.full_frame Sample.y_full "classification" history trial w0
     = (inr (0%Qc, trial), w0))
  ∧ (∃ history,
       run_trials Sample.broken_sklearn Sample.low_sampler Sample.service "svm"
         Sample.full_frame Sample.y_full "classification" (Z.to_nat 50) []
         Sample.empty_world = (inr history, Sample.empty_world)
       ∧ length history = Z.to_nat 50
       ∧ Forall (λ t, value t = 0%Qc ∧ trial_params t = ∅) history)
  ∧ (0 < 50 →
     optimize_hyperparameters Sample.broken_sklearn Sample.low_sampler
       Sample.service "svm" Sample.full_frame Sample.y_full "classification" 50
       Sample.empty_world = (inr ∅, Sample.empty_world)).
Proof.
  apply (optimize_unsearchable_model Sample.broken_sklearn Sample.low_sampler
           Sample.service "svm" Sample.full_frame Sample.y_full "classification"
           50 Sample.empty_world).
  compute_done.
Defined.

(** With a search space every trial goes through cross-validation: here
    the first trial's failure ends the study and is logged as a call. *)
Example optimize_searchable_model :
  optimize_hyperparameters Sample.broken_sklearn Sample.low_sampler
    Sample.service "random_forest" Sample.full_frame Sample.y_full
    "classification" 50 Sample.empty_world
  = (inl (ValueError "fit failed"),
     mkWorld [] ∅ ∅ 0%Qc
       [CrossValScore
          (mkModel RandomForestClassifier
             {[ "n_estimators" := PInt 50; "max_depth" := PInt 3;
                "min_samples_split" := PInt 2; "random_state" := PInt 42 ]}
             false None None) 3]).
Proof. reflexivity. Qed.

(** With no trial at all, the study has no best trial to report. *)
Example optimize_without_trials :
  (optimize_hyperparameters Sample.broken_sklearn Sample.low_sampler
     Sample.service "svm" Sample.full_frame Sample.y_full "classification" 0
     Sample.empty_world).1
  = inl (ValueError "No trials are completed yet.").
Proof. reflexivity. Qed.

(** ** Feature importance *)

(** C9.  A model with neither [feature_importances_] nor [coef_] gets the
    empty mapping, as a returned value, for any list of feature names. *)
Theorem get_feature_importance_not_applicable (model : Model)
    (feature_names : list string) :
  feature_importances_ model = None →
  coef_ model = None →
  get_feature_importance model feature_names = inr [].
Proof.
  intros Himp Hcoef. unfold get_feature_importance. by rewrite Himp, Hcoef.
Qed.

Lemma get_feature_importance_not_applicable_witness :
  get_feature_importance Sample.knn_model ["age"; "income"; "age"] = inr [].
Proof.
  apply (get_feature_importance_not_applicable Sample.knn_model
           ["age"; "income"; "age"]); reflexivity.
Defined.

(** The other two branches: importances are ranked in descending order,
    equal weights keeping their order; a coefficient matrix with several
    rows cannot be ranked and the comparison raises. *)
Example get_feature_importance_ranked :
  get_feature_importance
    (mkModel Ridge ∅ true None
       (Some (Arr1 [Q2Qc (-3 # 1)%Q; 1%Qc; Q2Qc (5 # 1)%Q; 1%Qc])))
    ["a"; "b"; "c"; "d"]
  = inr [("c", Scalar (Qcabs (Q2Qc (5 # 1)%Q))); ("a", Scalar (Qcabs (Q2Qc (-3 # 1)%Q)));
         ("b", Scalar (Qcabs 1%Qc)); ("d", Scalar (Qcabs 1%Qc))].
Proof. reflexivity. Qed.

Example get_feature_importance_matrix :
  get_feature_importance
    (mkModel SVC ∅ true None (Some (Arr2 [[1%Qc; 1%Qc]; [1%Qc; 1%Qc]])))
    ["a"; "b"]
  = inl (ValueError "The truth value of an array with more than one element is ambiguous").
Proof. reflexivity. Qed.

(** ** Saving and loading models *)

Example dirname_samples :
  dirname "model.pkl" = "" ∧ dirname "models/rf.pkl" = "models"
  ∧ dirname "/model.pkl" = "/" ∧ dirname "media//models/rf.pkl" = "media//models".
Proof. repeat split; reflexivity. Qed.

(** C7, at the input where it fails: a path without a directory part.
    [os.makedirs] is called with the empty name and raises, nothing is
    written, and a model cannot be loaded back through that path on the
    strength of this call. *)
Theorem save_model_bare_filename (model : Model) (w : World) :
  save_model model "model.pkl" w = (inl (FileNotFoundError ""), w)
  ∧ (let* _ := save_model model "model.pkl" in load_model "model.pkl") w
    = (inl (FileNotFoundError ""), w).
Proof.
  assert (save_model model "model.pkl" w = (inl (FileNotFoundError ""), w)) as Hsave.
  { unfold save_model, bind.
    change (dirname "model.pkl") with "". unfold os_makedirs.
    by rewrite decide_True. }
  split; [done|]. unfold bind at 1. by rewrite Hsave.
Qed.

(** Path names resolved: repeated slashes and dots lead nowhere. *)
Example path_samples :
  parts "a//b/./c" = ["a"; "b"; "c"]
  ∧ directories_to "/srv/models" = ["/srv"; "/srv/models"]
  ∧ directories_to "media//models/" = ["media"; "media/models"]
  ∧ canonical "./models/" = "models"
  ∧ file_name "media//models/./rf.pkl" = "media/models/rf.pkl"
  ∧ file_name "/rf.pkl" = "/rf.pkl"
  ∧ basename "models/" = "" ∧ last_name "models//" = "models"
  ∧ ends_in_dot "models/./" = true.
Proof. repeat split; reflexivity. Qed.

Lemma length_append (s1 s2 : string) :
  String.length (s1 +:+ s2) = (String.length s1 + String.length s2)%nat.
Proof. induction s1 as [|c s1 IH]; simpl; [done | by rewrite IH]. Qed.

Lemma length_nonempty (n : string) : n ≠ "" → (0 < String.length n)%nat.
Proof. destruct n; [done | simpl; lia]. Qed.

(** An entry has a longer canonical name than the directory it is in. *)
Lemma child_longer (d n : string) :
  n ≠ "" → (String.length d < String.length (child d n))%nat.
Proof.
  intros Hn%length_nonempty. unfold child.
  destruct (decide (d = "")) as [->|_]; [done|].
  destruct (decide (d = "/")) as [->|_]; rewrite !length_append; simpl; lia.
Qed.

Lemma last_cons_default {A} (x : A) (l : list A) :
  last (x :: l) = Some (default x (last l)).
Proof.
  revert x. induction l as [|y l IH]; intros x; [done|].
  change (last (x :: y :: l)) with (last (y :: l)). by rewrite IH.
Qed.

Lemma descend_last_longer (here : string) (names : list string) :
  Forall (λ n, n ≠ "") names →
  (String.length here
   ≤ String.length (default here (last (descend here names))))%nat.
Proof.
  revert here. induction names as [|n names IH]; intros here Hall; simpl; [done|].
  apply Forall_cons_1 in Hall as [Hn Hall].
  rewrite last_cons_default. simpl.
  pose proof (child_longer here n Hn). specialize (IH (child here n) Hall). lia.
Qed.

(** The directories on a way have non-empty names, none of them the
    root's, and none longer than the last. *)
Lemma descend_bound (here : string) (names : list string) (k : string) :
  Forall (λ n, n ≠ "") names →
  k ∈ descend here names →
  (String.length here < String.length k)%nat
  ∧ (String.length k
     ≤ String.length (default here (last (descend here names))))%nat.
Proof.
  revert here. induction names as [|n names IH]; intros here Hall; simpl;
    [by intros ?%elem_of_nil|].
  apply Forall_cons_1 in Hall as [Hn Hall].
  rewrite last_cons_default. simpl.
  pose proof (child_longer here n Hn) as Hlonger.
  intros [->|Hk]%elem_of_cons.
  - split; [done|]. by apply descend_last_longer.
  - destruct (IH (child here n) Hall Hk) as [Hlow Hhigh]. split; [lia | done].
Qed.

Lemma parts_nonempty (p : string) : Forall (λ n, n ≠ "") (parts p).
Proof.
  apply Forall_forall. intros n Hn. unfold parts in Hn.
  by apply list_elem_of_filter in Hn as [[? _] _].
Qed.

Lemma take_basename_no_slash (rev_path : list ascii) :
  slash ∉ take_basename rev_path.
Proof.
  induction rev_path as [|c rest IH]; simpl; [apply not_elem_of_nil|].
  destruct (decide (c = slash)) as [|Hc]; [apply not_elem_of_nil|].
  intros [Heq|?]%elem_of_cons; [by apply Hc | done].
Qed.

Lemma basename_no_slash (p : string) : slash ∉ list_ascii_of_string (basename p).
Proof.
  unfold basename. rewrite list_ascii_of_string_of_list_ascii, elem_of_reverse.
  apply take_basename_no_slash.
Qed.

(** The file a path names is none of the directories on the way to it,
    nor the current directory, nor the root. *)
Lemma file_name_fresh (p : string) :
  basename p ≠ "" →
  (file_name p ∉ directories_to (dirname p))
  ∧ file_name p ≠ "" ∧ file_name p ≠ "/".
Proof.
  intros Hbase. unfold file_name.
  pose proof (child_longer (canonical (dirname p)) (basename p) Hbase) as Hlonger.
  split; [|split].
  - intros Hin.
    apply (descend_bound _ _ _ (parts_nonempty (dirname p))) in Hin as [_ Hle].
    change (default _ (last (descend _ _))) with (canonical (dirname p)) in Hle.
    lia.
  - intros Heq. rewrite Heq in Hlonger. simpl in Hlonger. lia.
  - intros Heq. rewrite Heq in Hlonger. simpl in Hlonger.
    assert (canonical (dirname p) = "") as Hc
      by (destruct (canonical (dirname p)); [done | simpl in Hlonger; lia]).
    revert Heq. unfold child. rewrite Hc, decide_True by done. intros Heq.
    pose proof (basename_no_slash p) as Hno. rewrite Heq in Hno.
    apply Hno. left.
Qed.

Lemma last_name_basename (p : string) : basename p ≠ "" → last_name p = basename p.
Proof.
  unfold basename, last_name.
  destruct (reverse (list_ascii_of_string p)) as [|c rest]; [done|]. simpl.
  destruct (decide (c = slash)); [done|]. intros _. simpl.
  by rewrite decide_False.
Qed.

Lemma walk_directories (w : World) (p : string) (keys : list string) :
  (∀ k, k ∈ keys → isdir w k = true) → walk w p keys = inr ().
Proof.
  induction keys as [|k keys IH]; intros Hdirs; simpl; [done|].
  unfold node_at. rewrite Hdirs by left. apply IH. intros k' Hk'. apply Hdirs. by right.
Qed.

Lemma makedirs_not_blocked (w : World) (name : string) (keys : list string) :
  (∀ k, k ∈ keys → k ∈ dirs w ∨ files w !! k = None) →
  makedirs_blocked w name keys = None.
Proof.
  induction keys as [|k keys IH]; intros Hfree; simpl; [done|].
  assert (makedirs_blocked w name keys = None) as Hrest
    by (apply IH; intros k' Hk'; apply Hfree; by right).
  unfold node_at. destruct (isdir w k) eqn:Hdir; [done|].
  destruct (Hfree k ltac:(left)) as [Hin|Hnone].
  - unfold isdir in Hdir. apply bool_decide_eq_false in Hdir.
    exfalso. apply Hdir. auto.
  - by rewrite Hnone.
Qed.

(** Saving to a path with a directory part and a name proper, where no
    regular file is in the way of the directories and no directory has
    the file's name, and loading from the same path. *)
Lemma save_then_load (model : Model) (filepath : string) (w : World) :
  dirname filepath ≠ "" →
  basename filepath ≠ "" → basename filepath ≠ "." → basename filepath ≠ ".." →
  (∀ k, k ∈ directories_to (dirname filepath) → k ∈ dirs w ∨ files w !! k = None) →
  file_name filepath ∉ dirs w →
  (let* _ := save_model model filepath in load_model filepath) w
  = (inr model,
     mkWorld (stdout w) (list_to_set (directories_to (dirname filepath)) ∪ dirs w)
             (<[file_name filepath := Pickle model]> (files w))
             (clock w) (fit_log w)).
Proof.
  intros Hdir Hbase Hdot Hdots Hfree Hnotdir.
  assert (filepath ≠ "") as Hpath by (by intros ->).
  assert (ends_in_dot filepath = false) as Hend.
  { unfold ends_in_dot. rewrite last_name_basename by done.
    apply bool_decide_eq_false. by intros [?|?]. }
  destruct (file_name_fresh filepath Hbase) as (Hfresh & Hcwd & Hroot).
  unfold save_model, load_model, bind, os_makedirs.
  rewrite decide_False by done.
  rewrite makedirs_not_blocked by done.
  unfold joblib_dump. rewrite decide_False by done. rewrite Hend.
  rewrite decide_False by done.
  rewrite walk_directories; last first.
  { intros k Hk. unfold isdir. simpl. apply bool_decide_eq_true.
    right; right. apply elem_of_union_l. by apply elem_of_list_to_set. }
  assert (∀ fs, isdir (mkWorld (stdout w)
                         (list_to_set (directories_to (dirname filepath)) ∪ dirs w)
                         fs (clock w) (fit_log w)) (file_name filepath) = false)
    as Hfile.
  { intros fs. unfold isdir. simpl. apply bool_decide_eq_false.
    rewrite elem_of_union, elem_of_list_to_set. by intros [?|[?|[?|?]]]. }
  rewrite Hfile.
  unfold joblib_load. rewrite decide_False by done. rewrite Hend.
  rewrite bool_decide_eq_false_2 by done. simpl.
  rewrite walk_directories; last first.
  { intros k Hk. unfold isdir. simpl. apply bool_decide_eq_true.
    right; right. apply elem_of_union_l. by apply elem_of_list_to_set. }
  unfold node_at. rewrite Hfile. simpl. by rewrite lookup_insert_eq.
Qed.

(** Where the path has a directory part that can be created, saving and
    loading give the model back, and with it the same predictions. *)
Lemma load_after_save (sk : Sklearn) (model : Model) (filepath : string)
    (X : DataFrame) (w : World) :
  dirname filepath ≠ "" →
  basename filepath ≠ "" → basename filepath ≠ "." → basename filepath ≠ ".." →
  (∀ k, k ∈ directories_to (dirname filepath) → k ∈ dirs w ∨ files w !! k = None) →
  file_name filepath ∉ dirs w →
  ∃ w',
    (let* _ := save_model model filepath in load_model filepath) w = (inr model, w')
    ∧ (∀ loaded, (let* _ := save_model model filepath in load_model filepath) w
                 = (inr loaded, w') →
                 predict sk loaded X = predict sk model X).
Proof.
  intros Hdir Hbase Hdot Hdots Hfree Hnotdir.
  eexists. split; [by apply save_then_load|].
  intros loaded Hloaded. rewrite save_then_load in Hloaded by done.
  by inversion Hloaded.
Qed.

Example load_after_save_in_directory :
  ((let* _ := save_model Sample.knn_model "models/knn.pkl" in
    load_model "models/knn.pkl") Sample.empty_world).1
  = inr Sample.knn_model.
Proof. reflexivity. Qed.

(** * Further properties *)

Local Open Scope list_scope.

(** ** Column bookkeeping *)

Lemma filter_ext_elem {A} (P Q : A → Prop)
    `{!∀ a, Decision (P a)} `{!∀ a, Decision (Q a)} (l : list A) :
  (∀ a, a ∈ l → P a ↔ Q a) → filter P l = filter Q l.
Proof.
  induction l as [|a l IH]; intros Hext; [done|].
  assert (filter P l = filter Q l) as Hrest.
  { apply IH. intros b Hb. apply Hext. by right. }
  destruct (decide (P a)) as [Hp|Hp].
  - rewrite !filter_cons_True; [by f_equal | by apply Hext; [left|] | done].
  - rewrite !filter_cons_False; [done | | done].
    intros Hq. apply Hp, Hext; [by left | done].
Qed.

(** With distinct labels, a label picks at most one column, and columns
    with the same label are the same column. *)
Lemma NoDup_labels_single (df : DataFrame) (x : string) :
  NoDup (labels df) → (length (labelled x df) ≤ 1)%nat.
Proof.
  unfold labels, labelled. induction (columns df) as [|s ss IH]; [simpl; lia|].
  rewrite fmap_cons. intros [Hs Hss]%NoDup_cons.
  destruct (decide (name s = x)) as [Heq|Hne].
  - rewrite filter_cons_True by done. simpl.
    destruct (filter (λ s0, name s0 = x) ss) as [|s' rest] eqn:Hf; [simpl; lia|].
    exfalso. apply Hs.
    assert (s' ∈ filter (λ s0, name s0 = x) ss) as Hin by (rewrite Hf; left).
    apply list_elem_of_filter in Hin as [Hname Hin].
    apply list_elem_of_fmap. exists s'. split; [congruence | done].
  - rewrite filter_cons_False by done. by apply IH.
Qed.

Lemma NoDup_labels_inj (ss : list Series) (s s' : Series) :
  NoDup (name <$> ss) → s ∈ ss → s' ∈ ss → name s = name s' → s = s'.
Proof.
  induction ss as [|a ss IH]; [by intros _ ?%elem_of_nil|].
  rewrite fmap_cons. intros [Ha Hss]%NoDup_cons Hs Hs' Hname.
  apply elem_of_cons in Hs as [->|Hs]; apply elem_of_cons in Hs' as [->|Hs'].
  - done.
  - exfalso. apply Ha, list_elem_of_fmap. by exists s'.
  - exfalso. apply Ha, list_elem_of_fmap. by exists s.
  - by apply IH.
Qed.

(** X1.  On a frame with distinct column labels, pruning keeps exactly the
    target column and the columns whose missing fraction does not exceed
    the threshold, in their original order, and leaves the row count
    alone. *)
Theorem prune_keeps_exactly (df : DataFrame) (target_column : string)
    (missing_threshold : Qc) :
  NoDup (labels df) →
  columns (Preprocess.prune df target_column missing_threshold)
  = filter (λ s, name s = target_column
                 ∨ Preprocess.exceeds missing_threshold s = false) (columns df)
  ∧ nrows (Preprocess.prune df target_column missing_threshold) = nrows df.
Proof.
  intros Hnd. split; [|done].
  unfold Preprocess.prune, Preprocess.drop. simpl.
  apply filter_ext_elem. intros s Hs. split.
  - intros Hkeep. destruct (decide (name s = target_column)) as [|Hne]; [by left|].
    right. destruct (Preprocess.exceeds missing_threshold s) eqn:Hex; [|done].
    exfalso. apply Hkeep. unfold Preprocess.cols_to_drop.
    assert (name s ∈ Preprocess.over_threshold df missing_threshold) as Hover.
    { apply list_elem_of_fmap. exists s. split; [done|].
      by apply list_elem_of_filter. }
    case_decide; [by apply list_remove_other | done].
  - intros [Htarget|Hwithin].
    + rewrite Htarget. unfold Preprocess.cols_to_drop. case_decide; [|done].
      by apply list_remove_single, over_threshold_single, NoDup_labels_single.
    + assert (name s ∉ Preprocess.over_threshold df missing_threshold) as Hover.
      { intros (s' & Hname & Hs')%list_elem_of_fmap.
        apply list_elem_of_filter in Hs' as [Hex Hs'].
        assert (s = s') as <- by (by apply (NoDup_labels_inj (columns df))).
        congruence. }
      unfold Preprocess.cols_to_drop. case_decide as Hin; [|done].
      destruct (decide (name s = target_column)) as [Heq|Hne].
      * rewrite Heq in Hover. done.
      * by rewrite list_remove_other.
Qed.

Lemma prune_keeps_exactly_witness :
  columns (Preprocess.prune Sample.sparse_frame "y" Sample.threshold)
  = filter (λ s, name s = "y" ∨ Preprocess.exceeds Sample.threshold s = false)
           (columns Sample.sparse_frame)
  ∧ nrows (Preprocess.prune Sample.sparse_frame "y" Sample.threshold)
    = nrows Sample.sparse_frame.
Proof.
  apply (prune_keeps_exactly Sample.sparse_frame "y" Sample.threshold).
  compute_done.
Defined.

(** ** The preprocessing pipeline as a whole *)

Section PreprocessFacts.
Context (mode : list cell → option cell) (median : list cell → cell)
        (label_encode standard_scale : list cell → list cell)
        (not_in_index : list string → list string → string).

Abbreviation fill_missing' := (Preprocess.fill_missing mode median).
Abbreviation encode_one' := (Preprocess.encode_one label_encode).
Abbreviation preprocess_data' :=
  (Preprocess.preprocess_data mode median label_encode standard_scale not_in_index).

Lemma fill_missing_name (s : Series) : name (fill_missing' s) = name s.
Proof. unfold Preprocess.fill_missing. by destruct (is_object_or_category _). Qed.

Lemma fill_missing_dtype (s : Series) : dtype_of (fill_missing' s) = dtype_of s.
Proof. unfold Preprocess.fill_missing. by destruct (is_object_or_category _). Qed.

(** Relabelling-free maps commute with picking the columns of a label. *)
Lemma labelled_fmap (f : Series → Series) (key : string) (n m : nat)
    (ss : list Series) :
  (∀ s, name (f s) = name s) →
  labelled key (mkDataFrame n (f <$> ss)) = f <$> labelled key (mkDataFrame m ss).
Proof.
  intros Hname. unfold labelled. simpl.
  induction ss as [|s ss IH]; [done|]. rewrite fmap_cons.
  destruct (decide (name s = key)) as [Hs|Hs].
  - rewrite !filter_cons_True by (by rewrite ?Hname). rewrite fmap_cons. by f_equal.
  - by rewrite !filter_cons_False by (by rewrite ?Hname).
Qed.

Lemma labels_fmap (f : Series → Series) (n : nat) (ss : list Series) :
  (∀ s, name (f s) = name s) → labels (mkDataFrame n (f <$> ss)) = name <$> ss.
Proof.
  intros Hname. unfold labels. simpl. rewrite <- list_fmap_compose.
  apply list_fmap_ext. intros ? s _. apply Hname.
Qed.

(** The fill loop gets through the columns [cols] exactly when each of
    them is the only column of its label and its fill does not raise. *)
Lemma fill_columns_inr (df : DataFrame) (cols filled : list Series) :
  Preprocess.fill_columns mode median df cols = inr filled ↔
  Forall (λ s, length (labelled (name s) df) = 1%nat
               ∧ Preprocess.fill_error mode s = None) cols
  ∧ filled = fill_missing' <$> cols.
Proof.
  revert filled. induction cols as [|s cols IH]; intros filled; simpl.
  - split; [intros [= <-]; by split | by intros [_ ->]].
  - destruct (decide (length (labelled (name s) df) = 1%nat)) as [Hone|Hone].
    + destruct (Preprocess.fill_error mode s) as [e|] eqn:Herr.
      * split; [done|]. intros [Hall _].
        apply Forall_cons_1 in Hall as [[_ Hnone] _]. congruence.
      * destruct (Preprocess.fill_columns mode median df cols) as [e|rest].
        -- split; [done|]. intros [Hall _].
           apply Forall_cons_1 in Hall as [_ Hall].
           assert (inl e = inr (fill_missing' <$> cols) :> exn + list Series)
             as Habsurd by (by apply IH).
           done.
        -- destruct (proj1 (IH rest) eq_refl) as [Hall ->].
           split; [intros [= <-]; split; [by constructor | done]|].
           by intros [_ ->].
    + split; [done|]. intros [Hall _].
      apply Forall_cons_1 in Hall as [[? _] _]. done.
Qed.

Lemma labelled_one_NoDup (df : DataFrame) :
  Forall (λ s, length (labelled (name s) df) = 1%nat) (columns df) →
  NoDup (labels df).
Proof.
  unfold labels, labelled. induction (columns df) as [|s ss IH]; [constructor|].
  intros [Hs Hall]%Forall_cons_1. rewrite fmap_cons.
  rewrite filter_cons_True in Hs by done. simpl in Hs.
  assert (filter (λ t, name t = name s) ss = []) as Hnone
    by (by apply nil_length_inv; lia).
  constructor.
  - intros (t & Hname & Ht)%list_elem_of_fmap.
    assert (t ∈ filter (λ t, name t = name s) ss) as Hin
      by (by apply list_elem_of_filter).
    rewrite Hnone in Hin. by apply elem_of_nil in Hin.
  - apply IH. apply Forall_forall. intros t Ht.
    rewrite Forall_forall in Hall. specialize (Hall t Ht).
    destruct (decide (name s = name t)) as [Heq|Hne].
    + exfalso. assert (t ∈ filter (λ t0, name t0 = name s) ss) as Hin
        by (by apply list_elem_of_filter).
      rewrite Hnone in Hin. by apply elem_of_nil in Hin.
    + by rewrite filter_cons_False in Hall by done.
Qed.

Lemma handle_missing_inr (df df' : DataFrame) :
  Preprocess.handle_missing mode median df = inr df' →
  NoDup (labels df)
  ∧ df' = mkDataFrame (nrows df) (fill_missing' <$> columns df).
Proof.
  unfold Preprocess.handle_missing.
  destruct (Preprocess.fill_columns mode median df (columns df)) as [e|filled] eqn:Hfill;
    [done|].
  apply fill_columns_inr in Hfill as [Hall ->]. intros [= <-]. split; [|done].
  apply labelled_one_NoDup. eapply Forall_impl; [exact Hall|]. by intros s [? _].
Qed.

(** With distinct labels the fill loop raises only where the fill of a
    column does. *)
Lemma handle_missing_passes (df : DataFrame) :
  NoDup (labels df) →
  Forall (λ s, Preprocess.fill_error mode s = None) (columns df) →
  Preprocess.handle_missing mode median df
  = inr (mkDataFrame (nrows df) (fill_missing' <$> columns df)).
Proof.
  intros Hnd Hall. unfold Preprocess.handle_missing.
  rewrite (proj2 (fill_columns_inr df (columns df) (fill_missing' <$> columns df)));
    [done|].
  split; [|done]. apply Forall_forall. intros s Hs. split.
  - pose proof (NoDup_labels_single df (name s) Hnd) as Hle.
    assert (s ∈ labelled (name s) df) as Hin by (by apply list_elem_of_filter).
    destruct (labelled (name s) df) as [|? [|? ?]]; simpl in *;
      [by apply elem_of_nil in Hin | done | lia].
  - rewrite Forall_forall in Hall. by apply Hall.
Qed.

Lemma labelled_nil (key : string) (df : DataFrame) :
  labelled key df = [] ↔ key ∉ labels df.
Proof.
  unfold labelled, labels. split.
  - intros Hnil (s & Hname & Hs)%list_elem_of_fmap.
    assert (s ∈ filter (λ s0, name s0 = key) (columns df)) as Hin
      by (by apply list_elem_of_filter).
    rewrite Hnil in Hin. by apply elem_of_nil in Hin.
  - intros Hnot. destruct (filter _ _) as [|s rest] eqn:Hf; [done|].
    exfalso. apply Hnot.
    assert (s ∈ filter (λ s0, name s0 = key) (columns df)) as Hin
      by (rewrite Hf; left).
    apply list_elem_of_filter in Hin as [Hname Hin].
    apply list_elem_of_fmap. by exists s.
Qed.

(** One round of the encoding loop, spelled out. *)
Lemma encode_one_unfold (target_column : string) (df : DataFrame)
    (encoders : gmap string (list cell)) (col : string) :
  (col ∉ labels df ∨ col = target_column)
  ∧ encode_one' target_column (df, encoders) col = (df, encoders)
  ∨ (col ∈ labels df ∧ col ≠ target_column)
    ∧ ∃ fitted_on,
        encode_one' target_column (df, encoders) col
        = (mkDataFrame (nrows df)
             ((λ c, if decide (name c = col)
                    then mkSeries col int64 (label_encode (cells c)) else c)
              <$> columns df),
           <[col := fitted_on]> encoders).
Proof.
  unfold Preprocess.encode_one.
  destruct (labelled col df) as [|s rest] eqn:Hl.
  - left. split; [|done]. left. by apply labelled_nil.
  - destruct (decide (col = target_column)) as [->|Hne].
    + left. split; [by right | done].
    + right. split; [|by eexists]. split; [|done].
      destruct (decide (col ∈ labels df)) as [|Hnot]; [done|].
      apply labelled_nil in Hnot. congruence.
Qed.

(** What every round of the encoding loop preserves. *)
Lemma encode_one_invariant (target_column : string) (df0 : DataFrame)
    (acc : DataFrame * gmap string (list cell)) (col : string) :
  let inv (a : DataFrame * gmap string (list cell)) :=
    labels a.1 = labels df0 ∧ nrows a.1 = nrows df0
    ∧ labelled target_column a.1 = labelled target_column df0
    ∧ a.2 !! target_column = None
    ∧ (∀ k, is_Some (a.2 !! k) → k ∈ labels df0) in
  inv acc → inv (encode_one' target_column acc col).
Proof.
  destruct acc as [df encoders]. cbv zeta.
  intros (Hlabels & Hrows & Htarget & Hnone & Hkeys).
  simpl in Hlabels, Hrows, Htarget, Hnone, Hkeys.
  destruct (encode_one_unfold target_column df encoders col)
    as [[_ ->]|[[Hin Hne] [fitted_on ->]]]; [done|]. simpl.
  split; [|split; [done|split; [|split]]].
  - rewrite <- Hlabels. unfold labels at 2. apply labels_fmap.
    intros s. by case_decide.
  - rewrite <- Htarget. unfold labelled. simpl.
    rewrite (list_filter_iff _ (λ s, name s = target_column ∧ name s ≠ col))
      by (intros s; split; [intros <-; by split | by intros [? _]]).
    rewrite (list_filter_iff (λ s, name s = target_column)
               (λ s, name s = target_column ∧ name s ≠ col) (columns df))
      by (intros s; split; [intros Hs; split; congruence | by intros [? _]]).
    induction (columns df) as [|s ss IH]; [done|]. rewrite fmap_cons.
    destruct (decide (name s = col)) as [Hs|Hs].
    + rewrite !filter_cons_False by (simpl; intros [_ ?]; done). apply IH.
    + destruct (decide (name s = target_column)).
      * rewrite !filter_cons_True by done. by f_equal.
      * rewrite !filter_cons_False by (by intros [? _]). apply IH.
  - by rewrite lookup_insert_ne.
  - intros k. destruct (decide (col = k)) as [<-|Hk].
    + intros _. by rewrite <- Hlabels.
    + rewrite lookup_insert_ne by done. apply Hkeys.
Qed.

Lemma encode_categoricals_invariant (df : DataFrame) (target_column : string)
    (categorical_columns : option (list string)) :
  let r := Preprocess.encode_categoricals label_encode df target_column
             categorical_columns in
  labels r.1 = labels df ∧ nrows r.1 = nrows df
  ∧ labelled target_column r.1 = labelled target_column df
  ∧ r.2 !! target_column = None
  ∧ (∀ k, is_Some (r.2 !! k) → k ∈ labels df).
Proof.
  unfold Preprocess.encode_categoricals.
  generalize (match categorical_columns with
              | Some cats => cats
              | None => name <$> filter (λ s, is_object_or_category (dtype_of s) = true)
                                        (columns df)
              end).
  intros cats. induction cats as [|col cats IH] using rev_ind.
  - simpl. do 3 (split; [done|]). split; [apply lookup_empty|].
    intros k. rewrite lookup_empty. by intros [? ?].
  - rewrite foldl_snoc. by apply (encode_one_invariant target_column df).
Qed.

Lemma scale_numerical_inr (df df' : DataFrame) (numerical_columns : list string) :
  Preprocess.scale_numerical standard_scale not_in_index df numerical_columns = inr df' →
  (∀ c, c ∈ numerical_columns → c ∈ labels df)
  ∧ df' = mkDataFrame (nrows df)
            ((λ c, if decide (name c ∈ numerical_columns)
                   then mkSeries (name c) float64
                          (standard_scale (Preprocess.replace_inf (cells c)))
                   else c) <$> columns df).
Proof.
  unfold Preprocess.scale_numerical.
  destruct numerical_columns as [|c0 rest].
  - intros [= <-]. split; [by intros ? ?%elem_of_nil|].
    destruct df as [n ss]. simpl. f_equal.
    rewrite <- (list_fmap_id ss) at 1. apply list_fmap_ext.
    intros ? s _.
    destruct (decide (name s ∈ [])) as [Hin|]; [by apply elem_of_nil in Hin | done].
  - destruct (filter _ (c0 :: rest)) as [|missing ?] eqn:Hf; [|done].
    destruct (decide (NoDup (c0 :: rest))); [|done].
    destruct (decide (nrows df = 0%nat)); [done|].
    intros [= <-]. split; [|done].
    intros c Hc. destruct (decide (c ∈ labels df)) as [|Hnot]; [done|].
    assert (c ∈ filter (λ l, l ∉ labels df) (c0 :: rest)) as Hin
      by (by apply list_elem_of_filter).
    rewrite Hf in Hin. by apply elem_of_nil in Hin.
Qed.

(** The stages of a call of [preprocess_data] that returns. *)
Lemma preprocess_data_inr (df : DataFrame) (target_column : string)
    (categorical_columns numerical_columns : option (list string))
    (missing_threshold : Qc) (p : Preprocess.Preprocessed) :
  preprocess_data' df target_column categorical_columns numerical_columns
    missing_threshold = inr p →
  let df1 := Preprocess.prune df target_column missing_threshold in
  let df2 := mkDataFrame (nrows df1) (fill_missing' <$> columns df1) in
  let r := Preprocess.encode_categoricals label_encode df2 target_column
             categorical_columns in
  let num := Preprocess.select_numerical r.1 target_column numerical_columns in
  NoDup (labels df1)
  ∧ Preprocess.scale_numerical standard_scale not_in_index r.1 num
    = inr (Preprocess.df_processed p)
  ∧ Preprocess.label_encoders p = r.2
  ∧ Preprocess.scaler_columns p = num.
Proof.
  unfold Preprocess.preprocess_data.
  destruct (Preprocess.handle_missing _ _ _) as [e|df2] eqn:Hmissing; [done|].
  apply handle_missing_inr in Hmissing as [Hnd ->].
  destruct (Preprocess.encode_categoricals _ _ _ _) as [df3 encoders] eqn:Henc.
  destruct (Preprocess.scale_numerical _ _ _) as [e|df4] eqn:Hscale; [done|].
  intros [= <-]. simpl. done.
Qed.

Lemma labels_after_fill (df : DataFrame) :
  labels (mkDataFrame (nrows df) (fill_missing' <$> columns df)) = labels df.
Proof. apply labels_fmap, fill_missing_name. Qed.

Lemma labels_after_scale (df df' : DataFrame) (numerical_columns : list string) :
  Preprocess.scale_numerical standard_scale not_in_index df numerical_columns = inr df' →
  labels df' = labels df ∧ nrows df' = nrows df.
Proof.
  intros [_ ->]%scale_numerical_inr. split; [|done].
  apply labels_fmap. intros s. by case_decide.
Qed.

(** X2.  A call of [preprocess_data] that returns hands back the columns
    of the pruned frame, under the same labels and in the same order, no
    label twice, and as many rows as it was given. *)
Theorem preprocess_data_keeps_labels (df : DataFrame) (target_column : string)
    (categorical_columns numerical_columns : option (list string))
    (missing_threshold : Qc) (p : Preprocess.Preprocessed) :
  preprocess_data' df target_column categorical_columns numerical_columns
    missing_threshold = inr p →
  labels (Preprocess.df_processed p)
  = labels (Preprocess.prune df target_column missing_threshold)
  ∧ NoDup (labels (Preprocess.df_processed p))
  ∧ nrows (Preprocess.df_processed p) = nrows df.
Proof.
  intros (Hnd & Hscale & _ & _)%preprocess_data_inr.
  apply labels_after_scale in Hscale as [Hlabels Hrows].
  destruct (encode_categoricals_invariant
              (mkDataFrame
                 (nrows (Preprocess.prune df target_column missing_threshold))
                 (fill_missing' <$>
                  columns (Preprocess.prune df target_column missing_threshold)))
              target_column categorical_columns) as (Henc & Henc_rows & _).
  rewrite labels_after_fill in Henc.
  assert (labels (Preprocess.df_processed p)
          = labels (Preprocess.prune df target_column missing_threshold)) as Heq
    by (by rewrite Hlabels, Henc).
  split; [done|]. split; [by rewrite Heq|].
  by rewrite Hrows, Henc_rows.
Qed.

(** X3.  In the result of [preprocess_data] the target column has no
    label encoder, and every column that has one is a column of the
    returned frame. *)
Theorem preprocess_data_target_not_encoded (df : DataFrame) (target_column : string)
    (categorical_columns numerical_columns : option (list string))
    (missing_threshold : Qc) (p : Preprocess.Preprocessed) :
  preprocess_data' df target_column categorical_columns numerical_columns
    missing_threshold = inr p →
  Preprocess.label_encoders p !! target_column = None
  ∧ (∀ col, is_Some (Preprocess.label_encoders p !! col) →
            col ∈ labels (Preprocess.df_processed p)).
Proof.
  intros (_ & Hscale & -> & _)%preprocess_data_inr.
  apply labels_after_scale in Hscale as [Hlabels _].
  destruct (encode_categoricals_invariant
              (mkDataFrame
                 (nrows (Preprocess.prune df target_column missing_threshold))
                 (fill_missing' <$>
                  columns (Preprocess.prune df target_column missing_threshold)))
              target_column categorical_columns)
    as (Henc & _ & _ & Hnone & Hkeys).
  split; [done|]. intros col Hcol. rewrite Hlabels, Henc. by apply Hkeys.
Qed.

(** What the encoding loop has done to the dtypes after going through
    [cats]. *)
Lemma encode_fold_dtypes (target_column : string) (df : DataFrame)
    (cats : list string) (c : Series) :
  c ∈ columns (foldl (encode_one' target_column) (df, ∅) cats).1 →
  (is_object_or_category (dtype_of c) = true → c ∈ columns df)
  ∧ (name c ∈ cats → name c ≠ target_column →
     is_object_or_category (dtype_of c) = false).
Proof.
  revert c. induction cats as [|col cats IH] using rev_ind; intros c.
  - simpl. intros Hc. split; [done|]. by intros ?%elem_of_nil.
  - rewrite foldl_snoc.
    destruct (foldl (encode_one' target_column) (df, ∅) cats) as [df' encoders].
    simpl in IH.
    destruct (encode_one_unfold target_column df' encoders col)
      as [[Hskip ->]|[[Hin Hne] [fitted_on ->]]]; simpl.
    + intros Hc. destruct (IH c Hc) as [Hold Hdone]. split; [done|].
      intros [Hcats|Hcol%list_elem_of_singleton]%elem_of_app Htarget;
        [by apply Hdone|].
      exfalso. destruct Hskip as [Hnot|Heq]; [|congruence].
      apply Hnot, list_elem_of_fmap. by exists c.
    + intros (c0 & -> & Hc0)%list_elem_of_fmap.
      destruct (IH c0 Hc0) as [Hold Hdone].
      destruct (decide (name c0 = col)) as [Hname|Hname]; [done|].
      split; [done|].
      intros [Hcats|Hcol%list_elem_of_singleton]%elem_of_app Htarget;
        [by apply Hdone | done].
Qed.

(** X4.  With the categorical columns auto-detected, no column of the
    result other than the target is left with dtype object or category. *)
Theorem preprocess_data_encodes_all_categoricals (df : DataFrame)
    (target_column : string) (numerical_columns : option (list string))
    (missing_threshold : Qc) (p : Preprocess.Preprocessed) :
  preprocess_data' df target_column None numerical_columns missing_threshold
  = inr p →
  ∀ c, c ∈ columns (Preprocess.df_processed p) → name c ≠ target_column →
       is_object_or_category (dtype_of c) = false.
Proof.
  intros (_ & Hscale & _ & _)%preprocess_data_inr c Hc Htarget.
  apply scale_numerical_inr in Hscale as [_ Hdf]. rewrite Hdf in Hc. simpl in Hc.
  apply list_elem_of_fmap in Hc as (c3 & -> & Hc3).
  case_decide; [done|].
  unfold Preprocess.encode_categoricals in Hc3.
  destruct (encode_fold_dtypes _ _ _ _ Hc3) as [Hold Hdone].
  destruct (is_object_or_category (dtype_of c3)) eqn:Hcat; [|done].
  apply Hdone; [|done].
  apply list_elem_of_fmap. exists c3. split; [done|].
  apply list_elem_of_filter. split; [done | by apply Hold].
Qed.

Lemma labelled_prune_target (df : DataFrame) (target_column : string)
    (missing_threshold : Qc) :
  (length (labelled target_column df) ≤ 1)%nat →
  labelled target_column (Preprocess.prune df target_column missing_threshold)
  = labelled target_column df.
Proof.
  intros Hone. unfold labelled, Preprocess.prune, Preprocess.drop. simpl.
  rewrite list_filter_filter. apply list_filter_iff. intros s. split; [by intros [? _]|].
  intros Hs. split; [done|]. rewrite Hs. unfold Preprocess.cols_to_drop.
  case_decide; [|done]. by apply list_remove_single, over_threshold_single.
Qed.

(** X5.  With the numeric columns auto-detected, and whatever the
    categorical columns, the target column of the result is the target
    column of the input with its missing entries filled: it is neither
    encoded nor scaled. *)
Theorem preprocess_data_target_only_filled (df : DataFrame) (target_column : string)
    (categorical_columns : option (list string)) (missing_threshold : Qc)
    (target_data : Series) (p : Preprocess.Preprocessed) :
  labelled target_column df = [target_data] →
  preprocess_data' df target_column categorical_columns None missing_threshold
  = inr p →
  labelled target_column (Preprocess.df_processed p) = [fill_missing' target_data].
Proof.
  intros Hcol (_ & Hscale & _ & _)%preprocess_data_inr.
  destruct (encode_categoricals_invariant
              (mkDataFrame
                 (nrows (Preprocess.prune df target_column missing_threshold))
                 (fill_missing' <$>
                  columns (Preprocess.prune df target_column missing_threshold)))
              target_column categorical_columns)
    as (_ & _ & Htarget & _).
  rewrite (labelled_fmap _ _ _
             (nrows (Preprocess.prune df target_column missing_threshold)))
    in Htarget by apply fill_missing_name.
  replace (mkDataFrame
             (nrows (Preprocess.prune df target_column missing_threshold))
             (columns (Preprocess.prune df target_column missing_threshold)))
    with (Preprocess.prune df target_column missing_threshold) in Htarget
    by (by destruct (Preprocess.prune df target_column missing_threshold)).
  rewrite labelled_prune_target, Hcol in Htarget by (rewrite Hcol; simpl; lia).
  simpl in Htarget.
  pose proof (select_numerical_auto_excludes_target _ target_column
                ltac:(rewrite Htarget; simpl; lia)) as Hexcl.
  apply scale_numerical_inr in Hscale as [_ ->].
  rewrite (labelled_fmap _ _ _ 0) by (intros s; by case_decide).
  match goal with
  | |- _ <$> labelled _ ?d = _ =>
      replace (labelled target_column d) with [fill_missing' target_data]
  end.
  simpl. rewrite fill_missing_name.
  assert (name target_data = target_column) as Hname.
  { assert (target_data ∈ labelled target_column df) as Hin by (rewrite Hcol; left).
    by apply list_elem_of_filter in Hin as [? _]. }
  rewrite Hname. by rewrite decide_False.
Qed.

(** X6.  Let the fill loop get through the pruned frame: its labels are
    distinct and the fill of none of its columns raises.  Then a numeric
    column the caller names but which is no column of the pruned frame,
    for one because it was dropped for its missing values, makes
    [preprocess_data] raise the [KeyError] that pandas has for the listed
    labels. *)
Theorem preprocess_data_pruned_numerical_column (df : DataFrame)
    (target_column : string) (categorical_columns : option (list string))
    (numerical_columns : list string) (missing_threshold : Qc) (col : string) :
  NoDup (labels (Preprocess.prune df target_column missing_threshold)) →
  Forall (λ s, Preprocess.fill_error mode s = None)
    (columns (Preprocess.prune df target_column missing_threshold)) →
  col ∈ numerical_columns →
  col ∉ labels (Preprocess.prune df target_column missing_threshold) →
  preprocess_data' df target_column categorical_columns
    (Some numerical_columns) missing_threshold
  = inl (KeyError
           (not_in_index numerical_columns
              (labels (Preprocess.prune df target_column missing_threshold)))).
Proof.
  intros Hnd Hfill Hcol Hnot.
  unfold Preprocess.preprocess_data.
  rewrite handle_missing_passes by done.
  destruct (encode_categoricals_invariant
              (mkDataFrame
                 (nrows (Preprocess.prune df target_column missing_threshold))
                 (fill_missing' <$>
                  columns (Preprocess.prune df target_column missing_threshold)))
              target_column categorical_columns) as (Henc & _).
  rewrite labels_after_fill in Henc.
  destruct (Preprocess.encode_categoricals _ _ _ _) as [df3 encoders].
  simpl in Henc. simpl. unfold Preprocess.scale_numerical.
  destruct numerical_columns as [|c0 rest]; [by apply elem_of_nil in Hcol|].
  destruct (filter (λ l, l ∉ labels df3) (c0 :: rest)) as [|missing others] eqn:Hf.
  - exfalso.
    assert (col ∈ filter (λ l, l ∉ labels df3) (c0 :: rest)) as Hin
      by (apply list_elem_of_filter; by rewrite Henc).
    rewrite Hf in Hin. by apply elem_of_nil in Hin.
  - by rewrite Henc.
Qed.

(** The inf replacement and the zero fill, entry by entry. *)
Lemma replace_inf_spec (cs : list cell) :
  Preprocess.replace_inf cs
  = (λ x, match x with NA | PosInf | NegInf => Num 0%Qc | _ => x end) <$> cs
  ∧ Forall (λ c, c ≠ NA ∧ c ≠ PosInf ∧ c ≠ NegInf) (Preprocess.replace_inf cs).
Proof.
  unfold Preprocess.replace_inf, Preprocess.fillna.
  rewrite <- list_fmap_compose. split.
  - apply list_fmap_ext. intros ? c _. simpl. by destruct c.
  - apply Forall_fmap, Forall_forall. intros c _. simpl. by destruct c.
Qed.

Lemma preprocess_data_filled (df : DataFrame) (target_column : string)
    (categorical_columns numerical_columns : option (list string))
    (missing_threshold : Qc) (p : Preprocess.Preprocessed) :
  preprocess_data' df target_column categorical_columns numerical_columns
    missing_threshold = inr p →
  Preprocess.handle_missing mode median
    (Preprocess.prune df target_column missing_threshold)
  = inr (mkDataFrame
           (nrows (Preprocess.prune df target_column missing_threshold))
           (fill_missing' <$>
            columns (Preprocess.prune df target_column missing_threshold))).
Proof.
  unfold Preprocess.preprocess_data.
  destruct (Preprocess.handle_missing _ _ _) as [e|df2] eqn:Hmissing; [done|].
  intros _. by apply handle_missing_inr in Hmissing as [_ ->].
Qed.

(** X7.  In the result of [preprocess_data] every column the scaler was
    fitted on is the scaling of the column of that label as it stood after
    the filling and the encoding, with each entry that is missing or
    infinite replaced by zero and every other entry left as it was; so
    the scaler has seen nothing missing or infinite.  The column comes
    back with dtype float64. *)
Theorem preprocess_data_scales_finite_data (df : DataFrame) (target_column : string)
    (categorical_columns numerical_columns : option (list string))
    (missing_threshold : Qc) (p : Preprocess.Preprocessed) (c : Series) :
  preprocess_data' df target_column categorical_columns numerical_columns
    missing_threshold = inr p →
  c ∈ columns (Preprocess.df_processed p) →
  name c ∈ Preprocess.scaler_columns p →
  ∃ filled before,
    Preprocess.handle_missing mode median
      (Preprocess.prune df target_column missing_threshold) = inr filled
    ∧ before ∈ columns (Preprocess.encode_categoricals label_encode filled
                          target_column categorical_columns).1
    ∧ name before = name c
    ∧ dtype_of c = float64
    ∧ cells c
      = standard_scale
          ((λ x, match x with NA | PosInf | NegInf => Num 0%Qc | _ => x end)
           <$> cells before)
    ∧ Forall (λ x, x ≠ NA ∧ x ≠ PosInf ∧ x ≠ NegInf)
        ((λ x, match x with NA | PosInf | NegInf => Num 0%Qc | _ => x end)
         <$> cells before).
Proof.
  intros Hrun Hc Hname.
  pose proof (preprocess_data_filled _ _ _ _ _ _ Hrun) as Hfilled.
  apply preprocess_data_inr in Hrun as (_ & Hscale & _ & Hnum).
  rewrite Hnum in Hname.
  apply scale_numerical_inr in Hscale as [_ Hdf]. rewrite Hdf in Hc. simpl in Hc.
  apply list_elem_of_fmap in Hc as (c3 & -> & Hc3).
  eexists _, c3. split; [exact Hfilled|]. split; [exact Hc3|].
  revert Hname. case_decide as Hin; simpl; intros Hname; [|done].
  destruct (replace_inf_spec (cells c3)) as [Heq Hfinite].
  rewrite <- Heq. done.
Qed.

End PreprocessFacts.

Lemma preprocess_data_keeps_labels_witness :
  labels (Preprocess.df_processed Sample.preprocessed_mixed)
  = labels (Preprocess.prune Sample.mixed_frame "y" Sample.threshold)
  ∧ NoDup (labels (Preprocess.df_processed Sample.preprocessed_mixed))
  ∧ nrows (Preprocess.df_processed Sample.preprocessed_mixed)
    = nrows Sample.mixed_frame.
Proof.
  apply (preprocess_data_keeps_labels Sample.first_present Sample.zero_median
           Sample.as_it_is Sample.as_it_is Sample.no_such_columns Sample.mixed_frame "y" None None
           Sample.threshold Sample.preprocessed_mixed).
  reflexivity.
Defined.

Lemma preprocess_data_target_not_encoded_witness :
  Preprocess.label_encoders Sample.preprocessed_mixed !! "y" = None
  ∧ (∀ col, is_Some (Preprocess.label_encoders Sample.preprocessed_mixed !! col) →
            col ∈ labels (Preprocess.df_processed Sample.preprocessed_mixed)).
Proof.
  apply (preprocess_data_target_not_encoded Sample.first_present Sample.zero_median
           Sample.as_it_is Sample.as_it_is Sample.no_such_columns Sample.mixed_frame "y" None None
           Sample.threshold Sample.preprocessed_mixed).
  reflexivity.
Defined.

Lemma preprocess_data_encodes_all_categoricals_witness :
  is_object_or_category
    (dtype_of (mkSeries "city" float64 [Str "a"; Str "a"; Str "b"; Str "a"]))
  = false.
Proof.
  apply (preprocess_data_encodes_all_categoricals Sample.first_present
           Sample.zero_median Sample.as_it_is Sample.as_it_is
           Sample.no_such_columns Sample.mixed_frame
           "y" None Sample.threshold Sample.preprocessed_mixed
           eq_refl
           (mkSeries "city" float64 [Str "a"; Str "a"; Str "b"; Str "a"]));
    compute_done.
Defined.

Lemma preprocess_data_target_only_filled_witness :
  labelled "y" (Preprocess.df_processed Sample.preprocessed_mixed)
  = [Preprocess.fill_missing Sample.first_present Sample.zero_median Sample.y_full].
Proof.
  apply (preprocess_data_target_only_filled Sample.first_present Sample.zero_median
           Sample.as_it_is Sample.as_it_is Sample.no_such_columns Sample.mixed_frame "y" None
           Sample.threshold Sample.y_full Sample.preprocessed_mixed);
    reflexivity.
Defined.

Lemma preprocess_data_pruned_numerical_column_witness :
  Preprocess.preprocess_data Sample.first_present Sample.zero_median
    Sample.as_it_is Sample.as_it_is Sample.no_such_columns
    Sample.sparse_frame "y" None (Some ["x"]) Sample.threshold
  = inl (KeyError
           (Sample.no_such_columns ["x"]
              (labels (Preprocess.prune Sample.sparse_frame "y" Sample.threshold)))).
Proof.
  apply (preprocess_data_pruned_numerical_column Sample.first_present
           Sample.zero_median Sample.as_it_is Sample.as_it_is
           Sample.no_such_columns Sample.sparse_frame "y" None ["x"]
           Sample.threshold "x").
  - compute_done.
  - repeat constructor.
  - compute_done.
  - compute_done.
Defined.

(** Before the scaling is reached the fill loop may raise: a categorical
    target without any value survives the pruning and does not take the
    fill value ['Unknown']. *)
Example preprocess_data_empty_categorical_target :
  Preprocess.preprocess_data Sample.first_present Sample.zero_median
    Sample.as_it_is Sample.as_it_is Sample.no_such_columns
    (mkDataFrame 4 [Sample.x_full; mkSeries "y" category [NA; NA; NA; NA]])
    "y" None (Some ["z"]) Sample.threshold
  = inl (TypeError
           "Cannot setitem on a Categorical with a new category (Unknown), set the categories first").
Proof. reflexivity. Qed.

Lemma preprocess_data_scales_finite_data_witness :
  ∃ filled before,
    Preprocess.handle_missing Sample.first_present Sample.zero_median
      (Preprocess.prune Sample.mixed_frame "y" Sample.threshold) = inr filled
    ∧ before ∈ columns (Preprocess.encode_categoricals Sample.as_it_is filled
                          "y" None).1
    ∧ name before = name (mkSeries "x" float64 (cells Sample.x_full))
    ∧ dtype_of (mkSeries "x" float64 (cells Sample.x_full)) = float64
    ∧ cells (mkSeries "x" float64 (cells Sample.x_full))
      = Sample.as_it_is
          ((λ x, match x with NA | PosInf | NegInf => Num 0%Qc | _ => x end)
           <$> cells before)
    ∧ Forall (λ x, x ≠ NA ∧ x ≠ PosInf ∧ x ≠ NegInf)
        ((λ x, match x with NA | PosInf | NegInf => Num 0%Qc | _ => x end)
         <$> cells before).
Proof.
  apply (preprocess_data_scales_finite_data Sample.first_present Sample.zero_median
           Sample.as_it_is Sample.as_it_is Sample.no_such_columns
           Sample.mixed_frame "y" None None
           Sample.threshold Sample.preprocessed_mixed
           (mkSeries "x" float64 (cells Sample.x_full))).
  - reflexivity.
  - compute_done.
  - compute_done.
Defined.

(** The mixed frame after preprocessing: the categorical feature is
    encoded and scaled along with the numeric one, the target is not. *)
Example preprocessed_mixed_frame :
  Preprocess.scaler_columns Sample.preprocessed_mixed = ["city"; "x"]
  ∧ dom (Preprocess.label_encoders Sample.preprocessed_mixed) = {["city"]}
  ∧ labelled "y" (Preprocess.df_processed Sample.preprocessed_mixed)
    = [Sample.y_full].
Proof.
  split; [reflexivity|]. split; [|reflexivity].
  apply set_eq. intros k. rewrite elem_of_dom, elem_of_singleton.
  unfold Sample.preprocessed_mixed. simpl.
  destruct (decide (k = "city")) as [->|Hk].
  - by rewrite lookup_insert_eq.
  - rewrite lookup_insert_ne by done. rewrite lookup_empty. split; [by intros [? ?] | done].
Qed.

(** ** Problem-type detection, once more *)

(** X8.  [detect_problem_type] raises [KeyError] exactly when no column
    carries the target label, returns a value exactly when one column
    does, and a value it returns is "classification" or "regression". *)
Theorem detect_problem_type_defined (target_column : string) (df : DataFrame) :
  (detect_problem_type target_column df = inl (KeyError target_column)
   ↔ target_column ∉ labels df)
  ∧ ((∃ problem_type, detect_problem_type target_column df = inr problem_type)
     ↔ length (labelled target_column df) = 1%nat)
  ∧ (∀ problem_type,
       detect_problem_type target_column df = inr problem_type →
       problem_type = "classification" ∨ problem_type = "regression").
Proof.
  rewrite <- labelled_nil. unfold detect_problem_type, getitem.
  destruct (labelled target_column df) as [|s [|s' rest]]; simpl.
  - split; [done|]. split; [|done]. split; [by intros [? ?] | done].
  - assert (∃ pt, (if is_object_or_category (dtype_of s)
                   then inr "classification"
                   else if bool_decide (length (unique (cells s)) ≤ 10)%nat
                        then inr "classification" else inr "regression")
                  = (inr pt : exn + string)
                  ∧ (pt = "classification" ∨ pt = "regression")) as (pt & -> & Hpt).
    { destruct (is_object_or_category _); [|case_bool_decide]; eauto. }
    split; [by split|]. split; [split; [done | by eauto]|]. by intros ? [= <-].
  - split; [by split|]. split; [|done]. split; [by intros [? ?] | done].
Qed.

(** X9.  For two target columns of the same kind of dtype in which the
    same values occur, however often and in whatever order, the detected
    problem type is the same. *)
Theorem detect_problem_type_values_only (target_column : string)
    (df1 df2 : DataFrame) (s1 s2 : Series) :
  labelled target_column df1 = [s1] →
  labelled target_column df2 = [s2] →
  is_object_or_category (dtype_of s1) = is_object_or_category (dtype_of s2) →
  (∀ c, c ∈ cells s1 ↔ c ∈ cells s2) →
  detect_problem_type target_column df1 = detect_problem_type target_column df2.
Proof.
  intros H1 H2 Hdtype Hcells.
  rewrite (detect_problem_type_column _ _ _ H1), (detect_problem_type_column _ _ _ H2).
  rewrite Hdtype.
  rewrite (length_unique (cells s1) (unique (cells s2)));
    [done | apply NoDup_unique |].
  intros c. by rewrite elem_of_unique, Hcells.
Qed.

Lemma detect_problem_type_values_only_witness :
  detect_problem_type "y" (mkDataFrame 12 [Sample.y_ten_and_missing])
  = detect_problem_type "y"
      (mkDataFrame 11 [mkSeries "y" float64 (NA :: cells Sample.y_ten)]).
Proof.
  apply (detect_problem_type_values_only "y"
           (mkDataFrame 12 [Sample.y_ten_and_missing])
           (mkDataFrame 11 [mkSeries "y" float64 (NA :: cells Sample.y_ten)])
           Sample.y_ten_and_missing (mkSeries "y" float64 (NA :: cells Sample.y_ten)));
    [reflexivity..|].
  intros c.
  change (cells Sample.y_ten_and_missing) with (NA :: cells Sample.y_ten ++ [NA]).
  change (cells (mkSeries "y" float64 (NA :: cells Sample.y_ten)))
    with (NA :: cells Sample.y_ten).
  rewrite !elem_of_cons, elem_of_app, list_elem_of_singleton. tauto.
Defined.

(** ** Suggestions and the catalog *)

Lemma suggestions_lookup_inv (problem_type : string)
    (table : gmap string (list string)) :
  suggestions !! problem_type = Some table →
  problem_type ∈ ["classification"; "regression"].
Proof.
  unfold suggestions. intros Hlookup.
  destruct (decide (problem_type = "classification")) as [->|Hc]; [set_solver|].
  destruct (decide (problem_type = "regression")) as [->|Hr]; [set_solver|].
  by simplify_map_eq.
Qed.

(** X10.  For any problem type other than "classification" and
    "regression", [suggest_models] raises [KeyError] for that problem
    type, whatever the sizes. *)
Theorem suggest_models_unknown_type (list_of_set : gset string → list string)
    (problem_type : string) (dataset_size feature_count : Z) :
  problem_type ∉ ["classification"; "regression"] →
  suggest_models list_of_set problem_type dataset_size feature_count
  = inl (KeyError problem_type).
Proof.
  intros Hnot. unfold suggest_models, dict_get.
  destruct (suggestions !! problem_type) as [table|] eqn:Hlookup; [|done].
  by apply suggestions_lookup_inv in Hlookup.
Qed.

Lemma suggest_models_unknown_type_witness :
  suggest_models elements "clustering" 500 20 = inl (KeyError "clustering").
Proof.
  apply (suggest_models_unknown_type elements "clustering" 500 20). compute_done.
Defined.

(** Every model named in a bucket of the policy table is in the catalog of
    its problem type. *)
Lemma bucket_in_catalog (selector : ModelSelectionService) (problem_type : string)
    (table : gmap string (list string)) (bucket model_name : string)
    (names : list string) :
  suggestions !! problem_type = Some table →
  table !! bucket = Some names →
  model_name ∈ names →
  ∃ model_class,
    catalog_lookup (MLService_init selector) problem_type model_name
    = inr model_class.
Proof.
  intros Htable Hbucket Hname.
  pose proof (suggestions_lookup_inv _ _ Htable) as Hpt.
  unfold suggestions in Htable.
  repeat (apply elem_of_cons in Hpt as [->|Hpt]); [| |by apply elem_of_nil in Hpt].
  all: simplify_map_eq.
  all: destruct (decide (bucket = "small_dataset")) as [->|?];
    [|destruct (decide (bucket = "medium_dataset")) as [->|?];
      [|destruct (decide (bucket = "large_dataset")) as [->|?];
        [|destruct (decide (bucket = "high_dimensions")) as [->|?];
          [|destruct (decide (bucket = "low_dimensions")) as [->|?]]]]];
    simplify_map_eq.
  all: repeat (apply elem_of_cons in Hname as [->|Hname]);
    try (by apply elem_of_nil in Hname).
  all: unfold catalog_lookup, dict_get, MLService_init; simpl.
  all: by simplify_map_eq; eauto.
Qed.

(** X11.  Whatever [suggest_models] recommends for a problem type is in
    the service's catalog for that problem type, so training a
    recommended model does not fail for an unknown model. *)
Theorem suggest_models_in_catalog (list_of_set : gset string → list string)
    (selector : ModelSelectionService) (problem_type : string)
    (dataset_size feature_count : Z) (recommended : list string) :
  set_enumeration list_of_set →
  suggest_models list_of_set problem_type dataset_size feature_count
  = inr recommended →
  ∀ model_name, model_name ∈ recommended →
    ∃ model_class,
      catalog_lookup (MLService_init selector) problem_type model_name
      = inr model_class.
Proof.
  intros Henum Hrun model_name Hin. unfold suggest_models, dict_get in Hrun.
  destruct (suggestions !! problem_type) as [table|] eqn:Htable; [|done].
  destruct (table !! size_category dataset_size) as [by_size|] eqn:Hsize; [|done].
  destruct (table !! dim_category feature_count) as [by_dim|] eqn:Hdim; [|done].
  injection Hrun as <-.
  destruct (enumeration_of_list _ (by_size ++ by_dim) Henum) as [_ Hmem].
  apply Hmem, elem_of_app in Hin as [Hin|Hin].
  - by apply (bucket_in_catalog selector problem_type table
                (size_category dataset_size) model_name by_size).
  - by apply (bucket_in_catalog selector problem_type table
                (dim_category feature_count) model_name by_dim).
Qed.

Lemma suggest_models_in_catalog_witness :
  ∃ model_class,
    catalog_lookup (MLService_init Sample.failing_selector) "classification"
      "ada_boost" = inr model_class.
Proof.
  apply (suggest_models_in_catalog elements Sample.failing_selector
           "classification" 500 20
           (elements (list_to_set
                        (["logistic_regression"; "decision_tree"; "knn"]
                         ++ ["knn"; "decision_tree"; "ada_boost"]) : gset string))).
  - intros s. reflexivity.
  - apply (suggest_models_lookup elements "classification" 500 20
             (default ∅ (suggestions !! "classification")));
      unfold suggestions; by simplify_map_eq.
  - rewrite (elem_of_elements (C:=gset string)), elem_of_list_to_set.
    rewrite elem_of_app, !elem_of_cons. tauto.
Defined.

(** ** The other advisory fallbacks *)

(** X12.  [get_optimized_hyperparameters] returns a value whatever the
    advisory collaborator does; when the collaborator raises, the value is
    the catalog default for the model, or the empty mapping for a model
    without defaults, and the reason is printed. *)
Theorem get_optimized_hyperparameters_never_raises (self : MLService)
    (model_name problem_type : string) (dataset_size : Z) (w : World) :
  ∃ params w',
    get_optimized_hyperparameters self model_name problem_type dataset_size w
    = (inr params, w')
    ∧ ∀ e w0,
        get_model_hyperparameters (model_selector self) model_name problem_type
          dataset_size w = (inl e, w0) →
        params = default ∅ (default_params self !! model_name)
        ∧ stdout w' = (stdout w0 ++ ["Error getting optimized hyperparameters: "
                                     +:+ str_exn e])%list.
Proof.
  unfold get_optimized_hyperparameters, try_except.
  destruct (get_model_hyperparameters _ _ _ _ w) as [[e|params] w0].
  - eexists _, _. split; [reflexivity|]. by intros ?? [= <- <-].
  - by exists params, w0.
Qed.

(** X13.  [explain_model_choice] returns a text whatever the advisory
    collaborator does; when the collaborator raises, the text is the
    one-line template naming the model. *)
Theorem explain_model_choice_never_raises (self : MLService) (model_name : string)
    (dataset_info : gmap string string) (w : World) :
  ∃ text w',
    explain_model_choice self model_name dataset_info w = (inr text, w')
    ∧ ∀ e w0,
        explain_model_choice_llm (model_selector self) model_name dataset_info w
        = (inl e, w0) →
        text = model_name +:+ " was selected based on traditional ML heuristics."
        ∧ stdout w'
          = (stdout w0 ++ ["Error explaining model choice: " +:+ str_exn e])%list.
Proof.
  unfold explain_model_choice, try_except.
  destruct (explain_model_choice_llm _ _ _ w) as [[e|text] w0].
  - eexists _, _. split; [reflexivity|]. by intros ?? [= <- <-].
  - by exists text, w0.
Qed.

(** ** Training, the other outcomes *)

(** X14.  [train_model] surfaces every failure on its way: an unknown
    problem type is a [KeyError] for it; an error of the estimator's
    constructor comes back before anything is fitted; an error of the fit
    comes back after the one fit.  When the fit succeeds the fitted model
    is returned together with the time the fit took. *)
Theorem train_model_outcomes (sk : Sklearn) (self : MLService) (model_name : string)
    (X_train : DataFrame) (y_train : Series) (problem_type : string)
    (hyperparameters : option (gmap string pval)) (w : World) :
  let params :=
    match hyperparameters with
    | None => default ∅ (default_params self !! model_name)
    | Some h => h
    end in
  let run := train_model sk self model_name X_train y_train problem_type
               hyperparameters w in
  (models self !! problem_type = None → run = (inl (KeyError problem_type), w))
  ∧ (∀ model_class e,
       catalog_lookup self problem_type model_name = inr model_class →
       construct sk model_class params = inl e →
       run = (inl e, w))
  ∧ (∀ model_class model,
       catalog_lookup self problem_type model_name = inr model_class →
       construct sk model_class params = inr model →
       fit_log run.2 = (fit_log w ++ [Fit model])%list
       ∧ match fit sk model X_train y_train with
         | inl e => run.1 = inl e
         | inr fitted_model =>
             run.1 = inr (fitted_model, fit_seconds sk model X_train y_train)
         end).
Proof.
  cbv zeta. unfold train_model, bind, lift, datetime_now, call_fit, ret.
  split; [|split].
  - intros Hnone. unfold catalog_lookup, dict_get. by rewrite Hnone.
  - intros model_class e -> Hconstruct. by rewrite Hconstruct.
  - intros model_class model -> Hconstruct. rewrite Hconstruct.
    destruct (fit sk model X_train y_train) as [e|fitted_model]; simpl; [done|].
    split; [done|]. do 2 f_equal. ring.
Qed.

(** ** Hyperparameter search, the other cases *)

Lemma best_fold_spec (a b : FrozenTrial) (history : list FrozenTrial) :
  foldl (λ best t,
           match best with
           | None => Some t
           | Some b => if bool_decide (value b < value t)%Qc then Some t else Some b
           end) (Some a) history = Some b →
  (b = a ∧ Forall (λ t, value t ≤ value a)%Qc history)
  ∨ (∃ earlier later,
       history = earlier ++ b :: later
       ∧ (value a < value b)%Qc
       ∧ Forall (λ t, value t < value b)%Qc earlier
       ∧ Forall (λ t, value t ≤ value b)%Qc later).
Proof.
  revert a. induction history as [|t history IH]; intros a; simpl.
  - intros [= <-]. left. by split.
  - case_bool_decide as Hlt; intros Hfold; apply IH in Hfold.
    + right. destruct Hfold as [[-> Hall]|(earlier & later & -> & Hab & He & Hl)].
      * exists [], history. by repeat split.
      * exists (t :: earlier), later. repeat split; [|by constructor|done].
        by apply Qclt_trans with (value t).
    + apply Qcnot_lt_le in Hlt.
      destruct Hfold as [[-> Hall]|(earlier & later & -> & Hab & He & Hl)].
      * left. split; [done|]. by constructor.
      * right. exists (t :: earlier), later. repeat split; [done| |done].
        constructor; [|done]. by apply Qcle_lt_trans with (value a).
Qed.

(** The best trial of a study is its first trial of highest value:
    every earlier trial scored strictly less, no later trial scored more.
    Only a study without trials has no best trial. *)
Lemma best_trial_first_maximum (history : list FrozenTrial) :
  (best_trial history = None ↔ history = [])
  ∧ (∀ b, best_trial history = Some b →
       ∃ earlier later,
         history = earlier ++ b :: later
         ∧ Forall (λ t, value t < value b)%Qc earlier
         ∧ Forall (λ t, value t ≤ value b)%Qc later).
Proof.
  unfold best_trial. destruct history as [|a history]; simpl.
  - split; [done|]. by intros b.
  - split.
    + split; [|done]. intros Hnone.
      assert (∀ l a0, foldl (λ best t,
                match best with
                | None => Some t
                | Some b => if bool_decide (value b < value t)%Qc
                            then Some t else Some b
                end) (Some a0) l ≠ None) as Hsome.
      { intros l. induction l as [|t l IH]; intros a0; simpl; [done|].
        case_bool_decide; apply IH. }
      by apply Hsome in Hnone.
    + intros b [[-> Hall]|(earlier & later & -> & Hab & He & Hl)]%best_fold_spec.
      * exists [], history. by repeat split.
      * exists (a :: earlier), later. repeat split; [|done]. by constructor.
Qed.

Section SearchFacts.
Context (sk : Sklearn) (sampler : Sampler).
Context (self : MLService) (model_name : string)
        (X_train : DataFrame) (y_train : Series) (problem_type : string).

Abbreviation cross_validated' :=
  (cross_validated sk self model_name X_train y_train problem_type).
Abbreviation objective'' :=
  (objective sk sampler self model_name X_train y_train problem_type).
Abbreviation run_trials'' :=
  (run_trials sk sampler self model_name X_train y_train problem_type).
Abbreviation optimize_hyperparameters' :=
  (optimize_hyperparameters sk sampler self model_name X_train y_train problem_type).

(** The world after one more cross-validation of [m]. *)
Abbreviation logged w m :=
  (mkWorld (stdout w) (dirs w) (files w) (clock w)
           (fit_log w ++ [CrossValScore m 3])).

Lemma cross_validated_run (params : gmap string pval) (w : World) :
  cross_validated' params w
  = match catalog_lookup self problem_type model_name with
    | inl e => (inl e, w)
    | inr model_class =>
        match construct sk model_class params with
        | inl e => (inl e, w)
        | inr m =>
            (match cross_val_score sk m X_train y_train 3 with
             | inl e => inl e
             | inr scores => inr (mean scores)
             end, logged w m)
        end
    end.
Proof.
  unfold cross_validated, bind, lift, call_cross_val_score, ret.
  destruct (catalog_lookup _ _ _) as [e|model_class]; [done|].
  destruct (construct _ _ _) as [e|m]; [done|].
  by destruct (cross_val_score _ _ _ _ _).
Qed.

(** A trial of a model with a search space that returns has run one
    3-fold cross-validation and nothing else. *)
Lemma objective_searchable_inr (history : list FrozenTrial)
    (trial : gmap string pval) (w w' : World) (r : Qc * gmap string pval) :
  model_name ∈ searchable →
  objective'' history trial w = (inr r, w') →
  ∃ m, w' = logged w m.
Proof.
  intros Hin. unfold objective, suggest_int, suggest_float, bind, ret.
  repeat case_decide.
  4: { exfalso. unfold searchable in Hin.
       repeat (apply elem_of_cons in Hin as [?|Hin]); [done..|].
       by apply elem_of_nil in Hin. }
  all: rewrite cross_validated_run.
  all: destruct (catalog_lookup _ _ _) as [e|model_class]; [done|].
  all: destruct (construct _ _ _) as [e|m]; [done|].
  all: destruct (cross_val_score _ _ _ _ _) as [e|scores]; [done|].
  all: intros [= _ <-]; by exists m.
Qed.

Lemma run_trials_searchable_inr (n : nat) (history history' : list FrozenTrial)
    (w w' : World) :
  model_name ∈ searchable →
  run_trials'' n history w = (inr history', w') →
  ∃ calls,
    w' = mkWorld (stdout w) (dirs w) (files w) (clock w) (fit_log w ++ calls)
    ∧ length calls = n
    ∧ Forall (λ call, ∃ m, call = CrossValScore m 3) calls.
Proof.
  intros Hin. revert history w. induction n as [|n IH]; intros history w; simpl.
  - intros [= _ <-]. exists []. rewrite app_nil_r. by destruct w.
  - unfold bind at 1.
    destruct (objective'' history ∅ w) as [[e|r] w1] eqn:Hobj; [done|].
    apply objective_searchable_inr in Hobj as [m ->]; [|done].
    intros (calls & -> & Hlen & Hall)%IH. simpl.
    exists (CrossValScore m 3 :: calls). split; [|split].
    + by rewrite <- app_assoc.
    + simpl. by rewrite Hlen.
    + constructor; [by exists m | done].
Qed.

(** X15.  With no trial to run ([n_trials] zero or negative)
    [optimize_hyperparameters] raises [ValueError] for every model, having
    touched nothing. *)
Theorem optimize_without_any_trial (n_trials : Z) (w : World) :
  n_trials ≤ 0 →
  optimize_hyperparameters' n_trials w
  = (inl (ValueError "No trials are completed yet."), w).
Proof.
  intros Hn. unfold optimize_hyperparameters, bind.
  replace (Z.to_nat n_trials) with 0%nat by lia. done.
Qed.

(** X16.  For a model with a search space and at least one trial, an
    unknown problem type is met by the first trial's catalog lookup:
    [KeyError] for the problem type, and no cross-validation has run. *)
Theorem optimize_unknown_problem_type (n_trials : Z) (w : World) :
  model_name ∈ searchable →
  models self !! problem_type = None →
  0 < n_trials →
  optimize_hyperparameters' n_trials w = (inl (KeyError problem_type), w).
Proof.
  intros Hin Hnone Hn. unfold optimize_hyperparameters, bind at 1.
  destruct (Z.to_nat n_trials) as [|n] eqn:Hnat; [lia|]. simpl.
  unfold bind at 1.
  assert (∀ history trial, objective'' history trial w
                           = (inl (KeyError problem_type), w)) as ->; [|done].
  intros history trial. unfold objective, suggest_int, suggest_float, bind.
  repeat case_decide.
  4: { exfalso. unfold searchable in Hin.
       repeat (apply elem_of_cons in Hin as [?|Hin]); [done..|].
       by apply elem_of_nil in Hin. }
  all: rewrite cross_validated_run; unfold catalog_lookup, dict_get;
    by rewrite Hnone.
Qed.

(** X17.  For a model with a search space, a call of
    [optimize_hyperparameters] that returns has run exactly one 3-fold
    cross-validation per trial and done nothing else to the world. *)
Theorem optimize_runs_one_cross_validation_per_trial (n_trials : Z)
    (best_params : gmap string pval) (w w' : World) :
  model_name ∈ searchable →
  optimize_hyperparameters' n_trials w = (inr best_params, w') →
  ∃ calls,
    w' = mkWorld (stdout w) (dirs w) (files w) (clock w) (fit_log w ++ calls)
    ∧ length calls = Z.to_nat n_trials
    ∧ Forall (λ call, ∃ m, call = CrossValScore m 3) calls.
Proof.
  intros Hin. unfold optimize_hyperparameters, bind.
  destruct (run_trials'' (Z.to_nat n_trials) [] w) as [[e|history] w1] eqn:Hrun;
    [done|].
  apply run_trials_searchable_inr in Hrun; [|done].
  destruct (best_trial history); [|done]. by intros [= _ <-].
Qed.

End SearchFacts.

Lemma optimize_without_any_trial_witness :
  optimize_hyperparameters Sample.broken_sklearn Sample.low_sampler Sample.service
    "random_forest" Sample.full_frame Sample.y_full "classification" (-3)
    Sample.empty_world
  = (inl (ValueError "No trials are completed yet."), Sample.empty_world).
Proof.
  apply (optimize_without_any_trial Sample.broken_sklearn Sample.low_sampler
           Sample.service "random_forest" Sample.full_frame Sample.y_full
           "classification" (-3) Sample.empty_world).
  lia.
Defined.

Lemma optimize_unknown_problem_type_witness :
  optimize_hyperparameters Sample.broken_sklearn Sample.low_sampler Sample.service
    "xgboost" Sample.full_frame Sample.y_full "clustering" 50 Sample.empty_world
  = (inl (KeyError "clustering"), Sample.empty_world).
Proof.
  apply (optimize_unknown_problem_type Sample.broken_sklearn Sample.low_sampler
           Sample.service "xgboost" Sample.full_frame Sample.y_full "clustering"
           50 Sample.empty_world).
  - compute_done.
  - reflexivity.
  - lia.
Defined.

Lemma optimize_runs_one_cross_validation_per_trial_witness :
  ∃ calls,
    Sample.forest_search.2
    = mkWorld (stdout Sample.empty_world) (dirs Sample.empty_world)
              (files Sample.empty_world) (clock Sample.empty_world)
              (fit_log Sample.empty_world ++ calls)
    ∧ length calls = Z.to_nat 2
    ∧ Forall (λ call, ∃ m, call = CrossValScore m 3) calls.
Proof.
  apply (optimize_runs_one_cross_validation_per_trial Sample.steady_sklearn
           Sample.low_sampler Sample.service "random_forest" Sample.full_frame
           Sample.y_full "classification" 2 Sample.forest_params
           Sample.empty_world Sample.forest_search.2).
  - compute_done.
  - reflexivity.
Defined.

Section ForestSearch.
Context (sk : Sklearn) (sampler : Sampler).
Context (self : MLService) (X_train : DataFrame) (y_train : Series)
        (problem_type : string).

(** The parameters a random_forest trial ends up with. *)
Abbreviation forest_trial history :=
  (<["min_samples_split" :=
       PInt (sample_int sampler history "min_samples_split" 2 10)]>
     (<["max_depth" := PInt (sample_int sampler history "max_depth" 3 20)]>
        (<["n_estimators" :=
             PInt (sample_int sampler history "n_estimators" 50 300)]>
           (∅ : gmap string pval)))).

Lemma objective_forest_inr (history : list FrozenTrial) (w w' : World)
    (r : Qc * gmap string pval) :
  objective sk sampler self "random_forest" X_train y_train problem_type
    history ∅ w = (inr r, w') →
  r.2 = forest_trial history.
Proof.
  unfold objective, suggest_int, bind, ret. rewrite decide_True by done.
  destruct (cross_validated _ _ _ _ _ _ _ w) as [[e|score] w1]; [done|].
  by intros [= <- _].
Qed.

Lemma run_trials_forest_inr (n : nat) (history history' : list FrozenTrial)
    (w w' : World) :
  run_trials sk sampler self "random_forest" X_train y_train problem_type
    n history w = (inr history', w') →
  ∃ trials,
    history' = history ++ trials
    ∧ Forall (λ t, ∃ h, trial_params t = forest_trial h) trials.
Proof.
  revert history w. induction n as [|n IH]; intros history w; simpl.
  - intros [= <- _]. exists []. by rewrite app_nil_r.
  - unfold bind at 1.
    destruct (objective _ _ _ _ _ _ _ history ∅ w) as [[e|r] w1] eqn:Hobj; [done|].
    apply objective_forest_inr in Hobj.
    intros (trials & -> & Hall)%IH.
    eexists (_ :: trials). split; [by rewrite <- app_assoc|].
    constructor; [|done]. by exists history.
Qed.

Lemma best_trial_elem (history : list FrozenTrial) (b : FrozenTrial) :
  best_trial history = Some b → b ∈ history.
Proof.
  unfold best_trial. destruct history as [|a history]; [done|]. simpl.
  intros [[-> _]|(earlier & later & -> & _)]%best_fold_spec; [left|].
  right. apply elem_of_app. right. left.
Qed.

(** X18.  With a sampler that keeps to the bounds it is given, the
    parameters [optimize_hyperparameters] returns for random_forest are
    [n_estimators] within 50..300, [max_depth] within 3..20 and
    [min_samples_split] within 2..10, and nothing else: the fixed
    [random_state] of the trials is not among them. *)
Theorem optimize_random_forest_params (n_trials : Z)
    (best_params : gmap string pval) (w w' : World) :
  (∀ history name low high,
     low ≤ high → low ≤ sample_int sampler history name low high ≤ high) →
  optimize_hyperparameters sk sampler self "random_forest" X_train y_train
    problem_type n_trials w = (inr best_params, w') →
  ∃ n_estimators max_depth min_samples_split,
    best_params
    = <["min_samples_split" := PInt min_samples_split]>
        (<["max_depth" := PInt max_depth]>
           (<["n_estimators" := PInt n_estimators]> ∅))
    ∧ 50 ≤ n_estimators ≤ 300
    ∧ 3 ≤ max_depth ≤ 20
    ∧ 2 ≤ min_samples_split ≤ 10
    ∧ best_params !! "random_state" = None.
Proof.
  intros Hbounds. unfold optimize_hyperparameters, bind.
  destruct (run_trials _ _ _ _ _ _ _ (Z.to_nat n_trials) [] w)
    as [[e|history] w1] eqn:Hrun; [done|].
  apply run_trials_forest_inr in Hrun as (trials & -> & Hall).
  destruct (best_trial ([] ++ trials)) as [b|] eqn:Hbest; [|done].
  intros [= <- _]. apply best_trial_elem in Hbest. simpl in Hbest.
  rewrite Forall_forall in Hall. destruct (Hall b Hbest) as [h ->].
  eexists _, _, _. split; [reflexivity|].
  repeat split; apply Hbounds; lia.
Qed.

End ForestSearch.

Lemma optimize_random_forest_params_witness :
  ∃ n_estimators max_depth min_samples_split,
    Sample.forest_params
    = <["min_samples_split" := PInt min_samples_split]>
        (<["max_depth" := PInt max_depth]>
           (<["n_estimators" := PInt n_estimators]> ∅))
    ∧ 50 ≤ n_estimators ≤ 300
    ∧ 3 ≤ max_depth ≤ 20
    ∧ 2 ≤ min_samples_split ≤ 10
    ∧ Sample.forest_params !! "random_state" = None.
Proof.
  apply (optimize_random_forest_params Sample.steady_sklearn Sample.low_sampler
           Sample.service Sample.full_frame Sample.y_full "classification" 2
           Sample.forest_params Sample.empty_world Sample.forest_search.2).
  - intros history name low high Hle. simpl. lia.
  - reflexivity.
Defined.

(** ** Feature importance, the ranking *)

Lemma dict_set_keys {V} (k : string) (v : V) (d : list (string * V)) :
  (dict_set k v d).*1 = if decide (k ∈ d.*1) then d.*1 else d.*1 ++ [k].
Proof.
  induction d as [|[k' v'] d IH]; [done|]. cbn [dict_set].
  destruct (decide (k = k')) as [->|Hne]; rewrite !fmap_cons; cbn [fst].
  - rewrite decide_True by left. done.
  - rewrite IH. destruct (decide (k ∈ d.*1)) as [Hin|Hnot].
    + rewrite decide_True by (by right). done.
    + rewrite decide_False; [done|]. by intros [?|?]%elem_of_cons.
Qed.

Lemma dict_set_values {V} (P : V → Prop) (k : string) (v : V)
    (d : list (string * V)) :
  P v → Forall (λ kv, P kv.2) d → Forall (λ kv, P kv.2) (dict_set k v d).
Proof.
  intros Hv. induction 1 as [|[k' v'] d Hx Hd IH]; simpl.
  - by repeat constructor.
  - destruct (decide (k = k')); constructor; done.
Qed.

Lemma dict_set_fresh {V} (k : string) (v : V) (d : list (string * V)) :
  k ∉ d.*1 → dict_set k v d = d ++ [(k, v)].
Proof.
  induction d as [|[k' v'] d IH]; simpl; [done|].
  intros Hnot. rewrite decide_False by (intros ->; apply Hnot; left).
  f_equal. apply IH. intros ?. apply Hnot. by right.
Qed.

(** Building a dict from items, starting from what is there already. *)
Lemma dict_fold_spec {V} (P : V → Prop) (items d : list (string * V)) :
  NoDup d.*1 → Forall (λ kv, P kv.2) d → Forall (λ kv, P kv.2) items →
  let r := foldl (λ d kv, dict_set kv.1 kv.2 d) d items in
  NoDup r.*1
  ∧ (∀ k, k ∈ r.*1 ↔ k ∈ d.*1 ∨ k ∈ items.*1)
  ∧ Forall (λ kv, P kv.2) r.
Proof.
  revert d. induction items as [|[k v] items IH]; intros d Hnd Hd Hitems; simpl.
  - split; [done|]. split; [|done]. intros k. rewrite elem_of_nil. tauto.
  - apply Forall_cons in Hitems as [Hv Hitems]. simpl in Hv.
    destruct (IH (dict_set k v d)) as (Hnd' & Hkeys & Hvalues).
    + rewrite dict_set_keys. case_decide; [done|].
      apply NoDup_app. split; [done|]. split; [|apply NoDup_singleton].
      by intros x Hx ->%list_elem_of_singleton.
    + by apply dict_set_values.
    + done.
    + split; [done|]. split; [|done].
      intros k0. rewrite Hkeys, dict_set_keys, elem_of_cons.
      case_decide as Hin.
      * split; [intros [?|?]; auto|]. intros [?|[->|?]]; auto.
      * rewrite elem_of_app, list_elem_of_singleton. tauto.
Qed.

(** A dict built from items with distinct keys is those items. *)
Lemma dict_fold_distinct {V} (items d : list (string * V)) :
  NoDup (d ++ items).*1 →
  foldl (λ d kv, dict_set kv.1 kv.2 d) d items = d ++ items.
Proof.
  revert d. induction items as [|[k v] items IH]; intros d Hnd; simpl.
  - by rewrite app_nil_r.
  - rewrite dict_set_fresh.
    + rewrite IH; rewrite <- app_assoc; done.
    + rewrite fmap_app in Hnd. apply NoDup_app in Hnd as (_ & Hdisj & _).
      intros Hin. apply (Hdisj k Hin). left.
Qed.

Lemma outweighs_trans (a b c : string * weight) :
  outweighs a b → outweighs b c → outweighs a c.
Proof.
  intros (p & q & Ha & Hb & Hqp) (q' & r & Hb' & Hc & Hrq).
  rewrite Hb in Hb'. injection Hb' as <-.
  exists p, r. repeat split; [done..|]. by apply Qcle_trans with q.
Qed.

(** One insertion into a ranking of numbers. *)
Lemma insert_desc_spec (x : string * weight) (l : list (string * weight)) :
  StronglySorted outweighs l →
  Forall (λ kv, ∃ q, kv.2 = Scalar q) (x :: l) →
  ∃ r, insert_desc x l = inr r ∧ r ≡ₚ x :: l ∧ StronglySorted outweighs r.
Proof.
  intros Hsorted [[qx Hx] Hl]%Forall_cons.
  induction l as [|y l IH]; simpl.
  - exists [x]. repeat split; [done|]. repeat constructor.
  - apply StronglySorted_cons in Hsorted as [Hy Hsorted].
    apply Forall_cons in Hl as [[qy Hqy] Hl].
    rewrite Hqy, Hx. simpl. case_bool_decide as Hlt.
    + exists (x :: y :: l). split; [done|]. split; [done|].
      assert (outweighs x y) as Hxy.
      { exists qx, qy. repeat split; [done..|]. by apply Qclt_le_weak. }
      apply StronglySorted_cons. split.
      * constructor; [done|]. eapply Forall_impl; [exact Hy|].
        intros z Hz. by apply outweighs_trans with y.
      * by apply StronglySorted_cons.
    + destruct (IH Hsorted Hl) as (r & -> & Hperm & Hr).
      exists (y :: r). split; [done|]. split.
      * rewrite Hperm. apply Permutation_swap.
      * apply StronglySorted_cons. split; [|done].
        rewrite Hperm. constructor; [|done].
        exists qy, qx. repeat split; [done..|]. by apply Qcnot_lt_le.
Qed.

Lemma sorted_fold_spec (items acc : list (string * weight)) :
  StronglySorted outweighs acc →
  Forall (λ kv, ∃ q, kv.2 = Scalar q) acc →
  Forall (λ kv, ∃ q, kv.2 = Scalar q) items →
  ∃ r,
    foldl (λ acc x, match acc with inl e => inl e | inr l => insert_desc x l end)
          (inr acc) items = inr r
    ∧ r ≡ₚ acc ++ items ∧ StronglySorted outweighs r.
Proof.
  revert acc. induction items as [|x items IH]; intros acc Hsorted Hacc Hitems.
  - exists acc. by rewrite app_nil_r.
  - apply Forall_cons in Hitems as [Hx Hitems]. simpl.
    destruct (insert_desc_spec x acc Hsorted) as (r1 & -> & Hperm & Hr1);
      [by constructor|].
    destruct (IH r1 Hr1) as (r & -> & Hperm' & Hr); [|done|].
    + rewrite Hperm. by constructor.
    + exists r. split; [done|]. split; [|done].
      rewrite Hperm', Hperm. by rewrite <- Permutation_middle.
Qed.

Lemma zip_keys {V} (names : list string) (values : list V) :
  (zip names values).*1 = take (length values) names.
Proof.
  revert values. induction names as [|n names IH]; intros [|v values]; simpl;
    [done..|]. by rewrite IH.
Qed.

(** Ranking a vector of numbers: the outcome of [ranked]. *)
Lemma ranked_vector (feature_names : list string) (v : list Qc) :
  ∃ r,
    ranked feature_names (Arr1 v) = inr r
    ∧ StronglySorted outweighs r
    ∧ NoDup r.*1
    ∧ (∀ k, k ∈ r.*1 ↔ k ∈ take (length v) feature_names)
    ∧ Forall (λ kv, ∃ q, kv.2 = Scalar q ∧ q ∈ v) r.
Proof.
  unfold ranked, sorted_desc, dict_of_items. simpl.
  set (items := zip feature_names (Scalar <$> v)).
  assert (Forall (λ kv : string * weight, ∃ q, kv.2 = Scalar q ∧ q ∈ v) items)
    as Hitems.
  { apply Forall_forall. intros [k w] Hin. simpl.
    apply elem_of_zip_r in Hin. apply list_elem_of_fmap in Hin as (q & -> & Hq).
    by exists q. }
  destruct (dict_fold_spec (λ w, ∃ q, w = Scalar q ∧ q ∈ v) items [])
    as (Hnd & Hkeys & Hvalues); [constructor | constructor | done |].
  set (d := foldl (λ d kv, dict_set kv.1 kv.2 d) [] items) in *.
  destruct (sorted_fold_spec d []) as (r & -> & Hperm & Hsorted).
  - constructor.
  - constructor.
  - eapply Forall_impl; [exact Hvalues|]. intros kv (q & ? & _). by exists q.
  - simpl in Hperm.
    assert (NoDup r.*1) as Hnd_r by (by rewrite Hperm).
    exists r. rewrite dict_fold_distinct by done. simpl.
    split; [done|]. split; [done|]. split; [done|]. split.
    + intros k. rewrite Hperm, Hkeys. unfold items.
      rewrite zip_keys, length_fmap, elem_of_nil. tauto.
    + by rewrite Hperm.
Qed.

(** X19.  For a model with a [feature_importances_] vector the call
    returns a mapping ranked by descending importance, with every feature
    name once: the names that have an importance to go with them.  A
    [coef_] the model may also have plays no part. *)
Theorem get_feature_importance_ranks (model : Model) (feature_names : list string)
    (importance : list Qc) :
  feature_importances_ model = Some importance →
  ∃ r,
    get_feature_importance model feature_names = inr r
    ∧ StronglySorted outweighs r
    ∧ NoDup r.*1
    ∧ (∀ k, k ∈ r.*1 ↔ k ∈ take (length importance) feature_names)
    ∧ Forall (λ kv, ∃ q, kv.2 = Scalar q ∧ q ∈ importance) r.
Proof.
  intros Himp. unfold get_feature_importance. rewrite Himp. apply ranked_vector.
Qed.

(** X20.  For a model without [feature_importances_] whose [coef_] is a
    vector, the features are ranked by the magnitude of their coefficient:
    every weight is the absolute value of a coefficient, hence not
    negative, and the ranking is descending. *)
Theorem get_feature_importance_coefficients (model : Model)
    (feature_names : list string) (coef : list Qc) :
  feature_importances_ model = None →
  coef_ model = Some (Arr1 coef) →
  ∃ r,
    get_feature_importance model feature_names = inr r
    ∧ StronglySorted outweighs r
    ∧ Forall (λ kv, ∃ c, kv.2 = Scalar (Qcabs c) ∧ c ∈ coef ∧ (0 ≤ Qcabs c)%Qc) r.
Proof.
  intros Himp Hcoef. unfold get_feature_importance. rewrite Himp, Hcoef. simpl.
  destruct (ranked_vector feature_names (List.map Qcabs coef))
    as (r & -> & Hsorted & _ & _ & Hvalues).
  exists r. split; [done|]. split; [done|].
  eapply Forall_impl; [exact Hvalues|].
  intros kv (q & Hq & Hin). apply list_elem_of_In, in_map_iff in Hin as (c & <- & Hc).
  exists c. split; [done|]. split; [by apply list_elem_of_In | apply Qcabs_nonneg].
Qed.

Lemma get_feature_importance_ranks_witness :
  ∃ r,
    get_feature_importance Sample.forest_model ["age"; "income"; "city"; "zip"]
    = inr r
    ∧ StronglySorted outweighs r
    ∧ NoDup r.*1
    ∧ (∀ k, k ∈ r.*1 ↔ k ∈ take 3 ["age"; "income"; "city"; "zip"])
    ∧ Forall (λ kv, ∃ q, kv.2 = Scalar q
                         ∧ q ∈ [Q2Qc (1 # 5)%Q; Q2Qc (1 # 2)%Q; Q2Qc (3 # 10)%Q]) r.
Proof.
  apply (get_feature_importance_ranks Sample.forest_model
           ["age"; "income"; "city"; "zip"]
           [Q2Qc (1 # 5)%Q; Q2Qc (1 # 2)%Q; Q2Qc (3 # 10)%Q]).
  reflexivity.
Defined.

Lemma get_feature_importance_coefficients_witness :
  ∃ r,
    get_feature_importance Sample.ridge_model ["age"; "income"; "city"] = inr r
    ∧ StronglySorted outweighs r
    ∧ Forall (λ kv, ∃ c, kv.2 = Scalar (Qcabs c)
                         ∧ c ∈ [Q2Qc (-3 # 1)%Q; 1%Qc; Q2Qc (5 # 1)%Q]
                         ∧ (0 ≤ Qcabs c)%Qc) r.
Proof.
  apply (get_feature_importance_coefficients Sample.ridge_model
           ["age"; "income"; "city"] [Q2Qc (-3 # 1)%Q; 1%Qc; Q2Qc (5 # 1)%Q]);
    reflexivity.
Defined.

(** The dict of a coefficient matrix: its first two entries stay first,
    and hold rows of the matrix's width. *)
Lemma dict_fold_rows (m : nat) (items acc : list (string * weight))
    (x1 x2 : string * weight) :
  let row (w : weight) := ∃ b, w = Row b ∧ length b = m in
  row x1.2 → row x2.2 →
  Forall (λ kv, row kv.2) items →
  ∃ y1 y2 rest,
    foldl (λ d kv, dict_set kv.1 kv.2 d) (x1 :: x2 :: acc) items
    = y1 :: y2 :: rest
    ∧ row y1.2 ∧ row y2.2.
Proof.
  intros row. revert acc x1 x2.
  induction items as [|[k v] items IH]; intros acc [k1 v1] [k2 v2] H1 H2 Hitems.
  - by exists (k1, v1), (k2, v2), acc.
  - apply Forall_cons in Hitems as [Hv Hitems]. simpl in *.
    destruct (decide (k = k1)); [by apply IH|].
    destruct (decide (k = k2)); by apply IH.
Qed.

Lemma sorted_fold_raised (e : exn) (items : list (string * weight)) :
  foldl (λ acc x, match acc with inl e => inl e | inr l => insert_desc x l end)
        (inl e) items = inl e.
Proof. by induction items. Qed.

(** X21.  For a model without [feature_importances_] whose [coef_] is a
    matrix with at least two rows of two or more columns each, as a
    multi-class linear model has it, and at least two distinct leading
    feature names, ranking compares two rows and the call raises
    [ValueError]. *)
Theorem get_feature_importance_coefficient_matrix (model : Model)
    (n1 n2 : string) (feature_names : list string)
    (r1 r2 : list Qc) (rows : list (list Qc)) (width : nat) :
  feature_importances_ model = None →
  coef_ model = Some (Arr2 (r1 :: r2 :: rows)) →
  Forall (λ r, length r = width) (r1 :: r2 :: rows) →
  (2 ≤ width)%nat →
  n1 ≠ n2 →
  get_feature_importance model (n1 :: n2 :: feature_names)
  = inl (ValueError "The truth value of an array with more than one element is ambiguous").
Proof.
  intros Himp Hcoef Hwidth Htwo Hne.
  unfold get_feature_importance. rewrite Himp, Hcoef.
  unfold ranked, dict_of_items, np_abs, array_items.
  apply Forall_cons in Hwidth as [Hr1 Hwidth].
  apply Forall_cons in Hwidth as [Hr2 Hwidth].
  cbn [List.map]. rewrite !fmap_cons. cbn [zip_with foldl dict_set fst snd].
  rewrite decide_False by done.
  destruct (dict_fold_rows width
              (zip feature_names (Row <$> List.map (List.map Qcabs) rows)) []
              (n1, Row (List.map Qcabs r1)) (n2, Row (List.map Qcabs r2)))
    as ([k1 w1] & [k2 w2] & rest & -> & (b1 & Hw1 & Hb1) & (b2 & Hw2 & Hb2)).
  - eexists. split; [done|]. by rewrite length_map.
  - eexists. split; [done|]. by rewrite length_map.
  - apply Forall_forall. intros [k w] Hin. simpl.
    apply elem_of_zip_r, list_elem_of_fmap in Hin as (row & -> & Hrow).
    apply list_elem_of_In, in_map_iff in Hrow as (row0 & <- & Hrow0).
    eexists. split; [done|]. rewrite length_map.
    rewrite Forall_forall in Hwidth. by apply Hwidth, list_elem_of_In.
  - simpl in Hw1, Hw2. subst w1 w2. unfold sorted_desc. simpl.
    rewrite decide_True by congruence.
    assert (truth_value (zip_with (λ x y, bool_decide (x < y)%Qc) b1 b2)
            = inl (ValueError "The truth value of an array with more than one element is ambiguous"))
      as ->.
    { destruct b1 as [|? [|? b1]]; simpl in Hb1; [lia..|].
      destruct b2 as [|? [|? b2]]; simpl in Hb2; [lia..|]. done. }
    by rewrite sorted_fold_raised.
Qed.

Lemma get_feature_importance_coefficient_matrix_witness :
  get_feature_importance Sample.softmax_model ["age"; "income"]
  = inl (ValueError "The truth value of an array with more than one element is ambiguous").
Proof.
  apply (get_feature_importance_coefficient_matrix Sample.softmax_model
           "age" "income" []
           [1%Qc; Q2Qc (-2 # 1)%Q] [0%Qc; 1%Qc] [[Q2Qc (-1 # 1)%Q; 1%Qc]] 2).
  - reflexivity.
  - reflexivity.
  - repeat constructor.
  - lia.
  - done.
Defined.

(** ** Saving and loading, in general *)

Lemma drop_basename_no_slash (rev_path : list ascii) :
  slash ∉ rev_path → drop_basename rev_path = [].
Proof.
  induction rev_path as [|c rest IH]; simpl; [done|].
  intros Hnot. rewrite decide_False by (intros ->; apply Hnot; left).
  apply IH. intros ?. apply Hnot. by right.
Qed.

Lemma dirname_no_slash (p : string) :
  slash ∉ list_ascii_of_string p → dirname p = "".
Proof.
  intros Hnot. unfold dirname.
  rewrite drop_basename_no_slash; [done|].
  by rewrite elem_of_reverse.
Qed.

(** X22.  For a path without any slash, a bare file name, [save_model]
    raises [FileNotFoundError] from [os.makedirs] and leaves the file
    system as it was. *)
Theorem save_model_without_directory (model : Model) (filepath : string)
    (w : World) :
  slash ∉ list_ascii_of_string filepath →
  save_model model filepath w = (inl (FileNotFoundError ""), w).
Proof.
  intros Hnot. unfold save_model, bind, os_makedirs.
  rewrite dirname_no_slash by done. by rewrite decide_True.
Qed.

Lemma save_model_without_directory_witness :
  save_model Sample.knn_model "forest-2024.joblib" Sample.empty_world
  = (inl (FileNotFoundError ""), Sample.empty_world).
Proof.
  apply (save_model_without_directory Sample.knn_model "forest-2024.joblib"
           Sample.empty_world).
  compute_done.
Defined.

(** X23.  For a path whose directory part is free of [".."], a call of
    [save_model] that returns was given a path with a directory part and
    a file name proper (not empty, no dot or double dot); it has
    made the directories on the way to that directory part, those that
    were there staying, and written the one file, replacing what the path
    held; no other file and nothing else has changed. *)
Theorem save_model_effects (model : Model) (filepath : string) (w w' : World) :
  ".." ∉ parts (dirname filepath) →
  save_model model filepath w = (inr (), w') →
  dirname filepath ≠ ""
  ∧ basename filepath ≠ "" ∧ basename filepath ≠ "." ∧ basename filepath ≠ ".."
  ∧ w' = mkWorld (stdout w)
                 (list_to_set (directories_to (dirname filepath)) ∪ dirs w)
                 (<[file_name filepath := Pickle model]> (files w))
                 (clock w) (fit_log w)
  ∧ (∀ d, d ∈ dirs w' ↔ d ∈ dirs w ∨ d ∈ directories_to (dirname filepath))
  ∧ isdir w' (canonical (dirname filepath)) = true
  ∧ (∀ other, other ≠ file_name filepath → files w' !! other = files w !! other).
Proof.
  intros _. unfold save_model, bind, os_makedirs.
  destruct (decide (dirname filepath = "")) as [Hempty|Hdir]; [done|].
  destruct (makedirs_blocked w _ _); [done|].
  unfold joblib_dump.
  destruct (decide (filepath = "")); [done|].
  destruct (ends_in_dot filepath) eqn:Hend; [by destruct (walk _ _ _)|].
  destruct (decide (basename filepath = "")) as [|Hbase]; [by destruct (walk _ _ _)|].
  destruct (walk _ _ _) as [e|_]; [done|].
  destruct (isdir _ (file_name filepath)); [done|].
  intros [= <-]. unfold ends_in_dot in Hend. apply bool_decide_eq_false in Hend.
  rewrite last_name_basename in Hend by done.
  split; [done|]. split; [done|].
  split; [tauto|]. split; [tauto|]. split; [done|]. split; [|split].
  - intros d. simpl. rewrite elem_of_union, elem_of_list_to_set. tauto.
  - unfold isdir, canonical. simpl. apply bool_decide_eq_true.
    destruct (last (directories_to (dirname filepath))) as [d|] eqn:Hlast; simpl.
    + right; right. apply elem_of_union_l, elem_of_list_to_set.
      by apply last_Some_elem_of.
    + destruct (absolute (dirname filepath)); auto.
  - intros other Hother. simpl. by rewrite lookup_insert_ne.
Qed.

Lemma save_model_effects_witness :
  dirname "media/models/knn.pkl" ≠ ""
  ∧ basename "media/models/knn.pkl" ≠ "" ∧ basename "media/models/knn.pkl" ≠ "."
  ∧ basename "media/models/knn.pkl" ≠ ".."
  ∧ (save_model Sample.knn_model "media/models/knn.pkl" Sample.empty_world).2
    = mkWorld (stdout Sample.empty_world)
              (list_to_set (directories_to (dirname "media/models/knn.pkl"))
               ∪ dirs Sample.empty_world)
              (<[file_name "media/models/knn.pkl" := Pickle Sample.knn_model]>
                 (files Sample.empty_world))
              (clock Sample.empty_world) (fit_log Sample.empty_world)
  ∧ (∀ d, d ∈ dirs (save_model Sample.knn_model "media/models/knn.pkl"
                      Sample.empty_world).2
          ↔ d ∈ dirs Sample.empty_world
            ∨ d ∈ directories_to (dirname "media/models/knn.pkl"))
  ∧ isdir (save_model Sample.knn_model "media/models/knn.pkl" Sample.empty_world).2
      (canonical (dirname "media/models/knn.pkl")) = true
  ∧ (∀ other, other ≠ file_name "media/models/knn.pkl" →
       files (save_model Sample.knn_model "media/models/knn.pkl"
                Sample.empty_world).2 !! other
       = files Sample.empty_world !! other).
Proof.
  apply (save_model_effects Sample.knn_model "media/models/knn.pkl"
           Sample.empty_world
           (save_model Sample.knn_model "media/models/knn.pkl" Sample.empty_world).2).
  - compute_done.
  - reflexivity.
Defined.

(** Saving below two directories that are not there makes both. *)
Example save_model_makes_ancestors :
  directories_to (dirname "media/models/knn.pkl") = ["media"; "media/models"]
  ∧ ∀ d, d ∈ dirs (save_model Sample.knn_model "media/models/knn.pkl"
                     Sample.empty_world).2
         ↔ d = "media" ∨ d = "media/models".
Proof.
  split; [reflexivity|]. intros d.
  destruct (save_model_effects
              Sample.knn_model "media/models/knn.pkl" Sample.empty_world
              (save_model Sample.knn_model "media/models/knn.pkl"
                 Sample.empty_world).2)
    as (_ & _ & _ & _ & _ & -> & _); [compute_done | reflexivity |].
  change (directories_to (dirname "media/models/knn.pkl"))
    with ["media"; "media/models"].
  rewrite elem_of_cons, list_elem_of_singleton.
  change (dirs Sample.empty_world) with (∅ : gset string).
  rewrite elem_of_empty. tauto.
Qed.

(** A path that ends in a slash names a directory: the directory is made
    and the write is refused. *)
Example save_model_to_directory :
  (save_model Sample.knn_model "models/" Sample.empty_world).1
  = inl (IsADirectoryError "models/")
  ∧ isdir (save_model Sample.knn_model "models/" Sample.empty_world).2 "models"
    = true.
Proof. split; reflexivity. Qed.



(** ** Suggested preprocessing steps *)

Section PreprocessingStepFacts.

Lemma collect_outlier_cols_ext (h1 h2 : DataFrame → string → exn + bool)
    (df : DataFrame) (target_column : string) (cols acc : list string) :
  (∀ col, col ≠ target_column → h1 df col = h2 df col) →
  collect_outlier_cols h1 df target_column cols acc
  = collect_outlier_cols h2 df target_column cols acc.
Proof.
  intros Hext. revert acc. induction cols as [|col cols IH]; intros acc; simpl;
    [done|].
  case_decide; [apply IH|]. rewrite Hext by done.
  destruct (h2 df col) as [e|[|]]; [done | apply IH | apply IH].
Qed.

(** X25.  The outlier check never looks at the target column: two ways
    of judging outliers that agree on every other column lead to the same
    suggestions. *)
Theorem suggest_preprocessing_steps_skips_target
    (h1 h2 : DataFrame → string → exn + bool) (df : DataFrame)
    (target_column : string) :
  (∀ col, col ≠ target_column → h1 df col = h2 df col) →
  suggest_preprocessing_steps h1 df target_column
  = suggest_preprocessing_steps h2 df target_column.
Proof.
  intros Hext. unfold suggest_preprocessing_steps.
  by rewrite (collect_outlier_cols_ext h1 h2).
Qed.

Lemma sum_list_pos (ns : list nat) :
  (0 < sum_list ns)%nat ↔ ∃ n, n ∈ ns ∧ (0 < n)%nat.
Proof.
  induction ns as [|n ns IH]; simpl.
  - split; [lia | by intros (? & ?%elem_of_nil & _)].
  - split.
    + intros Hpos. destruct (decide (0 < n)%nat) as [Hn|Hn].
      * exists n. split; [left | done].
      * destruct (proj1 IH) as (m & Hm & Hmpos); [lia|].
        exists m. split; [by right | done].
    + intros (m & [->|Hm]%elem_of_cons & Hmpos); [lia|].
      assert (0 < sum_list ns)%nat by (apply IH; eauto). lia.
Qed.

Lemma missing_count_pos (s : Series) : (0 < missing_count s)%nat ↔ NA ∈ cells s.
Proof.
  unfold missing_count. split.
  - intros Hpos.
    destruct (filter (λ c, isnull c = true) (cells s)) as [|c rest] eqn:Hf;
      [simpl in Hpos; lia|].
    assert (c ∈ filter (λ c, isnull c = true) (cells s)) as Hin by (rewrite Hf; left).
    apply list_elem_of_filter in Hin as [Hnull Hin]. by destruct c.
  - intros Hin.
    assert (NA ∈ filter (λ c, isnull c = true) (cells s)) as Hf
      by (by apply list_elem_of_filter).
    destruct (filter _ _); [by apply elem_of_nil in Hf | simpl; lia].
Qed.

Context (has_outliers : DataFrame → string → exn + bool).

(** X26.  When [suggest_preprocessing_steps] returns, its suggestions are
    a selection of the four steps in their fixed order (missing values,
    encoding, scaling, outliers), each at most once; and handling missing
    values is among them exactly when some column has a missing entry. *)
Theorem suggest_preprocessing_steps_shape (df : DataFrame) (target_column : string)
    (steps : list Suggestion) :
  suggest_preprocessing_steps has_outliers df target_column = inr steps →
  step <$> steps `sublist_of` [handle_missing_values; encode_categorical_variables;
                               scale_numerical_features; handle_outliers]
  ∧ (handle_missing_values ∈ step <$> steps
     ↔ ∃ s, s ∈ columns df ∧ NA ∈ cells s).
Proof.
  unfold suggest_preprocessing_steps.
  destruct (collect_outlier_cols _ _ _ _ _) as [e|outlier_cols]; [done|].
  intros [= <-]. rewrite !fmap_app. split.
  - repeat case_bool_decide; destruct outlier_cols; simpl;
      repeat first [apply sublist_nil | apply sublist_skip | apply sublist_cons].
  - assert ((∃ s, s ∈ columns df ∧ NA ∈ cells s)
            ↔ (0 < sum_list (missing_count <$> columns df))%nat) as ->.
    { rewrite sum_list_pos. split.
      - intros (s & Hs & Hna). exists (missing_count s).
        split; [by apply list_elem_of_fmap_2 | by apply missing_count_pos].
      - intros (n & (s & -> & Hs)%list_elem_of_fmap & Hpos).
        exists s. split; [done | by apply missing_count_pos]. }
    case_bool_decide as Hmissing.
    + split; [done|]. intros _. simpl. left.
    + split; [|done]. intros Hin. exfalso.
      repeat case_bool_decide; destruct outlier_cols; simpl in Hin;
        repeat (apply elem_of_cons in Hin as [Hin|Hin]; [done|]);
        by apply elem_of_nil in Hin.
Qed.

End PreprocessingStepFacts.

Lemma suggest_preprocessing_steps_skips_target_witness :
  suggest_preprocessing_steps Sample.target_outliers Sample.mixed_frame "y"
  = suggest_preprocessing_steps Sample.no_outliers Sample.mixed_frame "y".
Proof.
  apply (suggest_preprocessing_steps_skips_target Sample.target_outliers
           Sample.no_outliers Sample.mixed_frame "y").
  intros col Hne. unfold Sample.target_outliers, Sample.no_outliers.
  by rewrite bool_decide_eq_false_2.
Defined.

Lemma suggest_preprocessing_steps_shape_witness :
  step <$> Sample.mixed_advice
    `sublist_of` [handle_missing_values; encode_categorical_variables;
                  scale_numerical_features; handle_outliers]
  ∧ (handle_missing_values ∈ step <$> Sample.mixed_advice
     ↔ ∃ s, s ∈ columns Sample.mixed_frame ∧ NA ∈ cells s).
Proof.
  apply (suggest_preprocessing_steps_shape Sample.no_outliers Sample.mixed_frame
           "y" Sample.mixed_advice).
  reflexivity.
Defined.

(** The advice for the mixed frame, with its counts. *)
Example mixed_frame_advice :
  Sample.mixed_advice
  = [mkSuggestion "Handle Missing Values"
       "Found 1 missing values across 1 columns" "high";
     mkSuggestion "Encode Categorical Variables"
       "Found 1 categorical columns that need encoding" "high";
     mkSuggestion "Scale Numerical Features"
       "Found 2 numerical columns that may benefit from scaling" "medium"].
Proof. reflexivity. Qed.

(** ** Evaluation *)

(** X27.  The metrics [evaluate_model] returns are, for the problem type
    "classification": accuracy, precision, recall, f1_score and
    confusion_matrix, and roc_auc as well exactly when the model has
    [predict_proba] and the test labels take exactly two values; for every
    other problem type, known or not: mse, mae and r2_score. *)
Theorem evaluate_model_metrics (sk : Sklearn) (sc : Scoring) (model : Model)
    (X_test : DataFrame) (y_test : Series) (problem_type : string)
    (metrics : gmap string metric) :
  evaluate_model sk sc model X_test y_test problem_type = inr metrics →
  dom metrics
  = if decide (problem_type = "classification")
    then (if decide (is_Some (predict_proba sc model)
                     ∧ length (unique (cells y_test)) = 2%nat)
          then {["roc_auc"]} else ∅)
         ∪ {["accuracy"; "precision"; "recall"; "f1_score"; "confusion_matrix"]}
    else {["mse"; "mae"; "r2_score"]}.
Proof.
  unfold evaluate_model, and_then.
  destruct (predict sk model X_test) as [e|y_pred]; [done|].
  destruct (predict_proba sc model) as [proba|] eqn:Hproba.
  - destruct (proba X_test) as [e|p]; [done|].
    destruct (decide (problem_type = "classification")) as [->|Hpt].
    + destruct (accuracy_score _ _ _) as [e|?]; [done|].
      destruct (precision_score _ _ _) as [e|?]; [done|].
      destruct (recall_score _ _ _) as [e|?]; [done|].
      destruct (f1_score _ _ _) as [e|?]; [done|].
      destruct (decide (length (unique (cells y_test)) = 2%nat)) as [Htwo|Htwo].
      * destruct (roc_auc_score_second _ _ _) as [e|?]; [done|].
        destruct (confusion_matrix _ _ _) as [e|?]; [done|].
        intros [= <-]. rewrite decide_True by (split; [by eexists | done]).
        rewrite !dom_insert_L, dom_empty_L. set_solver.
      * destruct (confusion_matrix _ _ _) as [e|?]; [done|].
        intros [= <-]. rewrite decide_False by (by intros [_ ?]).
        rewrite !dom_insert_L, dom_empty_L. set_solver.
    + destruct (mean_squared_error _ _ _) as [e|?]; [done|].
      destruct (mean_absolute_error _ _ _) as [e|?]; [done|].
      destruct (r2_score _ _ _) as [e|?]; [done|].
      intros [= <-]. rewrite !dom_insert_L, dom_empty_L. set_solver.
  - destruct (decide (problem_type = "classification")) as [->|Hpt].
    + destruct (accuracy_score _ _ _) as [e|?]; [done|].
      destruct (precision_score _ _ _) as [e|?]; [done|].
      destruct (recall_score _ _ _) as [e|?]; [done|].
      destruct (f1_score _ _ _) as [e|?]; [done|].
      destruct (confusion_matrix _ _ _) as [e|?]; [done|].
      intros [= <-]. rewrite decide_False by (by intros [[? ?] _]).
      rewrite !dom_insert_L, dom_empty_L. set_solver.
    + destruct (mean_squared_error _ _ _) as [e|?]; [done|].
      destruct (mean_absolute_error _ _ _) as [e|?]; [done|].
      destruct (r2_score _ _ _) as [e|?]; [done|].
      intros [= <-]. rewrite !dom_insert_L, dom_empty_L. set_solver.
Qed.

Lemma evaluate_model_metrics_witness :
  dom Sample.binary_metrics
  = if decide ("classification" = "classification")
    then (if decide (is_Some (predict_proba Sample.steady_scoring Sample.knn_model)
                     ∧ length (unique (cells Sample.y_binary)) = 2%nat)
          then {["roc_auc"]} else ∅)
         ∪ {["accuracy"; "precision"; "recall"; "f1_score"; "confusion_matrix"]}
    else {["mse"; "mae"; "r2_score"]}.
Proof.
  apply (evaluate_model_metrics Sample.steady_sklearn Sample.steady_scoring
           Sample.knn_model Sample.full_frame Sample.y_binary "classification"
           Sample.binary_metrics).
  reflexivity.
Defined.

(** A failing [predict_proba] makes [evaluate_model] raise for
    every problem type, regression included, where the probabilities are
    not used. *)
Lemma evaluate_model_needs_predict_proba (sk : Sklearn) (sc : Scoring)
    (model : Model) (X_test : DataFrame) (y_test : Series) (problem_type : string)
    (proba : DataFrame → exn + list (list Qc)) (y_pred : list cell) (e : exn) :
  predict sk model X_test = inr y_pred →
  predict_proba sc model = Some proba →
  proba X_test = inl e →
  evaluate_model sk sc model X_test y_test problem_type = inl e.
Proof.
  intros Hpred Hproba Hfail. unfold evaluate_model, and_then.
  by rewrite Hpred, Hproba, Hfail.
Qed.
